(** * Clipboard Manager: capture, dedup and synchronization engine

    A shallow embedding of the background service worker
    (src/background/background.js, and the second variant of the same
    script that ships next to the content script) together with the
    properties of the history store, the classifier, the broadcast layer
    and the capture guard; then of persistence, the context menus, the
    message listener, the reading of the clipboard and the utilities of
    the client.

    Conventions.
    - A JavaScript string is a [string]; each [ascii] stands for one
      UTF-16 code unit in the range 0..255.
    - [Date.now()] and [generateId()] are inputs of every operation that
      calls them.
    - Item records are JavaScript objects: they live in an object store
      ([heap]) and the two arrays [items] and [favorites] hold references,
      so that an object reachable from both arrays is shared.
    - A handler runs on the single-threaded event loop and writes the
      store before its first [await]; each handler is one step, with the
      messages it sends listed in order. *)

From Stdlib Require Import ZArith Ascii String Lia Sorted DecimalString.
From stdpp Require Import base tactics option list strings.

Local Open Scope Z_scope.

(* ================================================================= *)
(** ** JavaScript strings *)

Module JS.

Definition chars (s : string) : list ascii := String.list_ascii_of_string s.

(** [\s] of RegExp, which is also the set removed by
    [String.prototype.trim]: TAB, LF, VT, FF, CR, SPACE and, among the
    code units below 256, NBSP. *)
Definition isWhiteSpace (c : ascii) : bool :=
  existsb (Ascii.eqb c)
    ["009"; "010"; "011"; "012"; "013"; " "; "160"]%char.

(** Line terminators, the characters [.] does not match: LF and CR
    (U+2028 and U+2029 are outside the modelled range). *)
Definition isLineTerminator (c : ascii) : bool :=
  existsb (Ascii.eqb c) ["010"; "013"]%char.

Fixpoint dropWhile (p : ascii → bool) (l : list ascii) : list ascii :=
  match l with
  | c :: l' => if p c then dropWhile p l' else l
  | [] => []
  end.

(** [s.trim()] *)
Definition trim (l : list ascii) : list ascii :=
  rev (dropWhile isWhiteSpace (rev (dropWhile isWhiteSpace l))).

(** [s.startsWith(p)] *)
Fixpoint startsWith (p s : list ascii) : bool :=
  match p, s with
  | [], _ => true
  | a :: p', b :: s' => Ascii.eqb a b && startsWith p' s'
  | _ :: _, [] => false
  end.

(** [s.includes(sub)] *)
Fixpoint includes (sub s : list ascii) : bool :=
  startsWith sub s ||
  match s with
  | [] => false
  | _ :: s' => includes sub s'
  end.

(** [s.split('\n')] *)
Fixpoint splitLines (s : list ascii) : list (list ascii) :=
  match s with
  | [] => [[]]
  | c :: s' =>
      if Ascii.eqb c "010"%char then [] :: splitLines s'
      else match splitLines s' with
           | l :: ls => (c :: l) :: ls
           | [] => [[c]]
           end
  end.

(** [x || d] on numbers: 0, NaN and undefined are falsy. *)
Definition orDefault (x : option Z) (d : Z) : Z :=
  match x with
  | Some v => if v =? 0 then d else v
  | None => d
  end.

End JS.

(* ================================================================= *)
(** ** Regular expressions (the fragment the classifier uses) *)

Module Regex.

Inductive regex : Type :=
| Empty
| Cls (p : ascii → bool)          (* one character of a class *)
| Cat (r1 r2 : regex)
| Alt (r1 r2 : regex)
| Opt (r : regex)                 (* r? *)
| StarCls (p : ascii → bool).     (* [class]* *)

Fixpoint starCls (p : ascii → bool) (s : list ascii)
    (k : list ascii → bool) : bool :=
  match s with
  | c :: s' => (p c && starCls p s' k) || k s
  | [] => k []
  end.

(** Backtracking matcher with a continuation for the rest of the
    pattern. *)
Fixpoint matchRe (r : regex) (s : list ascii)
    (k : list ascii → bool) : bool :=
  match r with
  | Empty => k s
  | Cls p => match s with c :: s' => p c && k s' | [] => false end
  | Cat r1 r2 => matchRe r1 s (λ s', matchRe r2 s' k)
  | Alt r1 r2 => matchRe r1 s k || matchRe r2 s k
  | Opt r1 => matchRe r1 s k || k s
  | StarCls p => starCls p s k
  end.

Definition atEnd (s : list ascii) : bool :=
  match s with [] => true | _ => false end.

(** [/^r$/.test(s)] (no [m] flag: [$] is the end of the input). *)
Definition test (r : regex) (s : list ascii) : bool := matchRe r s atEnd.

(** Case folding of the [i] flag on a pattern character: an ASCII
    letter matches its two cases, any other ASCII character itself. *)
Definition lower (c : ascii) : ascii :=
  let n := nat_of_ascii c in
  if (65 <=? n)%nat && (n <=? 90)%nat then ascii_of_nat (n + 32) else c.

Definition chr_i (a : ascii) : regex := Cls (λ c, Ascii.eqb (lower c) (lower a)).

Fixpoint lit_i (w : list ascii) : regex :=
  match w with
  | [] => Empty
  | a :: w' => Cat (chr_i a) (lit_i w')
  end.

(** Denotation: the words a pattern matches. *)
Fixpoint lang (r : regex) (w : list ascii) : Prop :=
  match r with
  | Empty => w = []
  | Cls p => ∃ c, w = [c] ∧ p c = true
  | Cat r1 r2 => ∃ a b, w = a ++ b ∧ lang r1 a ∧ lang r2 b
  | Alt r1 r2 => lang r1 w ∨ lang r2 w
  | Opt r1 => lang r1 w ∨ w = []
  | StarCls p => forallb p w = true
  end.

End Regex.

(* ================================================================= *)
(** ** Classifier *)

(** [/^(https?:\/\/|www\.)[^\s/$.?#].[^\s]*$/i] *)
Definition urlRegex : Regex.regex :=
  let notWs := λ c, negb (JS.isWhiteSpace c) in
  Regex.Cat
    (Regex.Alt
       (Regex.Cat (Regex.lit_i (JS.chars "http"))
          (Regex.Cat (Regex.Opt (Regex.chr_i "s"%char))
             (Regex.lit_i (JS.chars "://"))))
       (Regex.lit_i (JS.chars "www.")))
    (Regex.Cat
       (Regex.Cls (λ c, negb (JS.isWhiteSpace c
                             || existsb (Ascii.eqb c) ["/"; "$"; "."; "?"; "#"]%char)))
       (Regex.Cat
          (Regex.Cls (λ c, negb (JS.isLineTerminator c)))
          (Regex.StarCls notWs))).

Definition codeIndicators : list string :=
  [ "{"; "}"; "()"; "=>"; ";";
    "function"; "class"; "const"; "let"; "var";
    "if"; "else"; "for"; "while"; "switch";
    "import"; "export"; "return"; "async"; "await";
    "<div"; "<span"; "<p"; "<a"; "</div>"; "</span>"; "</p>"; "</a>";
    "/*"; "*/"; "//"; "#include"; "def "; "public"; "private"; "protected" ].

Definition imageMarker : string := "data:image/".

Definition isBlank (content : string) : bool :=
  match JS.trim (JS.chars content) with [] => true | _ => false end.

Definition indicatorCount (content : string) : nat :=
  length (filter (λ ind, JS.includes (JS.chars ind) (JS.chars content) = true)
            codeIndicators).

Definition isIndented (line : list ascii) : bool :=
  JS.startsWith (JS.chars "  ") line || JS.startsWith ["009"%char] line.

Definition looksLikeCode (content : string) : bool :=
  let lines := JS.splitLines (JS.chars content) in
  let indentedLines := filter (λ line, isIndented line = true) lines in
  (3 <=? indicatorCount content)%nat
  || ((3 <? length lines)%nat && (1 <? length indentedLines)%nat).

(** [categorizeContent]: the checks in source order, each one returning
    at once when it applies. *)
Definition categorizeContent (content : string) : string :=
  if isBlank content then "text"
  else if JS.startsWith (JS.chars imageMarker) (JS.chars content) then "image"
  else if Regex.test urlRegex (JS.trim (JS.chars content)) then "url"
  else if looksLikeCode content then "code"
  else "text".

(* ================================================================= *)
(** ** Data model *)

(** [charCount] is [content.length] for text and the string
    [imageSizeKB + 'KB'] for images. *)
Inductive CharCount : Type :=
| Chars (n : nat)
| KiloBytes (kb : Z).

Record Item : Type := mkItem {
  id : string;
  content : string;
  type : string;
  timestamp : Z;
  isFavorite : bool;
  charCount : CharCount;
}.

Global Instance Item_inhabited : Inhabited Item :=
  populate (mkItem "" "" "" 0 false (Chars 0)).

(** A reference to an item object. *)
Abbreviation loc := nat (only parsing).

(** Messages handed to [chrome.runtime.sendMessage]; [notification] is
    the [type] of the notification carried by a [showNotification]
    message. *)
Record Message : Type := mkMessage {
  action : string;
  notification : option string;
}.

(** The module-level variables of the background script. *)
Record State : Type := mkState {
  heap : list Item;               (* the item objects *)
  items : list loc;               (* clipboardData.items *)
  favorites : list loc;           (* clipboardData.favorites *)
  lastClipboardText : string;
  MAX_HISTORY_ITEMS : Z;
  maxTextLength : Z;
  maxImageSize : Z;
}.

Definition initialState : State :=
  mkState [] [] [] "" 100 10000 1000.

(** The object a reference points to. *)
Definition deref (s : State) (l : loc) : Item := heap s !!! l.

(** The arrays as the client sees them ([getClipboardData]). *)
Definition itemsOf (s : State) : list Item := deref s <$> items s.
Definition favoritesOf (s : State) : list Item := deref s <$> favorites s.

(* ================================================================= *)
(** ** Effects: state passing with a log of the messages sent *)

Record Res (A : Type) : Type := mkRes {
  value : A;
  state : State;
  sent : list Message;
}.
Arguments mkRes {A} _ _ _.
Arguments value {A} _.
Arguments state {A} _.
Arguments sent {A} _.

Definition Eff (A : Type) : Type := State → Res A.

Definition ret {A} (a : A) : Eff A := λ s, mkRes a s [].

Definition bind {A B} (m : Eff A) (f : A → Eff B) : Eff B :=
  λ s, match m s with
       | mkRes a s1 out1 =>
           match f a s1 with
           | mkRes b s2 out2 => mkRes b s2 (out1 ++ out2)
           end
       end.

Declare Scope eff_scope.
Delimit Scope eff_scope with eff.
Notation "x <- m ;; k" := (bind m (λ x, k))
  (at level 100, m at next level, right associativity) : eff_scope.
Notation "m ;; k" := (bind m (λ _, k))
  (at level 100, right associativity) : eff_scope.
Local Open Scope eff_scope.

Definition get : Eff State := λ s, mkRes s s [].

Definition sendMessage (m : Message) : Eff unit := λ s, mkRes tt s [m].

Definition modifyHeap (f : list Item → list Item) : Eff unit :=
  λ s, mkRes tt
    (mkState (f (heap s)) (items s) (favorites s) (lastClipboardText s)
       (MAX_HISTORY_ITEMS s) (maxTextLength s) (maxImageSize s)) [].

Definition setItems (l : list loc) : Eff unit :=
  λ s, mkRes tt
    (mkState (heap s) l (favorites s) (lastClipboardText s)
       (MAX_HISTORY_ITEMS s) (maxTextLength s) (maxImageSize s)) [].

Definition setFavorites (l : list loc) : Eff unit :=
  λ s, mkRes tt
    (mkState (heap s) (items s) l (lastClipboardText s)
       (MAX_HISTORY_ITEMS s) (maxTextLength s) (maxImageSize s)) [].

Definition setLastClipboardText (t : string) : Eff unit :=
  λ s, mkRes tt
    (mkState (heap s) (items s) (favorites s) t
       (MAX_HISTORY_ITEMS s) (maxTextLength s) (maxImageSize s)) [].

Definition setLimits (maxItems maxText maxImage : Z) : Eff unit :=
  λ s, mkRes tt
    (mkState (heap s) (items s) (favorites s) (lastClipboardText s)
       maxItems maxText maxImage) [].

(** An object literal: a fresh object, returned by reference. *)
Definition newObject (it : Item) : Eff loc :=
  λ s, mkRes (length (heap s))
    (mkState (heap s ++ [it]) (items s) (favorites s) (lastClipboardText s)
       (MAX_HISTORY_ITEMS s) (maxTextLength s) (maxImageSize s)) [].

(** [saveClipboardData] writes a copy of the two arrays to
    [chrome.storage]; it catches its own failures and reports them in its
    result, and leaves the variables of the script as they are. *)
Definition saveClipboardData : Eff unit := ret tt.

(* ----------------------------------------------------------------- *)
(** *** Array primitives *)

(** [arr.findIndex(pred)]: [None] stands for -1. *)
Definition findIndex (s : State) (P : Item → Prop) `{!∀ x, Decision (P x)}
    (arr : list loc) : option nat :=
  fst <$> list_find (λ l, P (deref s l)) arr.

(** [arr.slice(0, n)] *)
Definition slice0 {A} (arr : list A) (n : Z) : list A :=
  if n <? 0
  then take (Z.to_nat (Z.max (Z.of_nat (length arr) + n) 0)) arr
  else take (Z.to_nat n) arr.

Definition setTimestamp (now : Z) (it : Item) : Item :=
  mkItem (id it) (content it) (type it) now (isFavorite it) (charCount it).

(** [item.content], for use where a parameter is named [content]. *)
Definition contentOf (it : Item) : string := content it.

Definition flipFavorite (it : Item) : Item :=
  mkItem (id it) (content it) (type it) (timestamp it)
    (negb (isFavorite it)) (charCount it).

(* ================================================================= *)
(** ** The background script (src/background/background.js) *)

(** [handleShowNotification]: relays the notification to the UI. *)
Definition handleShowNotification (notificationType : string) : Eff bool :=
  sendMessage (mkMessage "showNotification" (Some notificationType)) ;;
  ret true.

(** [broadcastClipboardUpdate]: the three messages it sends itself.  The
    direct message to a floating window and the full-data push are sent
    later from transport callbacks. *)
Definition broadcastClipboardUpdate : Eff unit :=
  sendMessage (mkMessage "clipboardDataUpdated" None) ;;
  sendMessage (mkMessage "clipboardUpdated" None) ;;
  sendMessage (mkMessage "refreshClipboardData" None).

(** Limit history size:
    [if (items.length > maxItems) items = items.slice(0, maxItems)]. *)
Definition limitHistory : Eff unit :=
  s <- get ;;
  if Z.of_nat (length (items s)) >? MAX_HISTORY_ITEMS s
  then setItems (slice0 (items s) (MAX_HISTORY_ITEMS s))
  else ret tt.

(** [processClipboardContent(content)]: returns the new item, or
    [undefined] ([None]) when the content is skipped. *)
Definition processClipboardContent (newId : string) (now : Z)
    (content : string) : Eff (option loc) :=
  s <- get ;;
  (* Skip empty content *)
  if isBlank content then ret None
  (* Compare with last clipboard text *)
  else if String.eqb content (lastClipboardText s) then ret None
  (* Check content size against settings before processing *)
  else if Z.of_nat (String.length content) >? maxTextLength s then
    handleShowNotification "warning" ;;
    ret None
  else
    setLastClipboardText content ;;
    let contentType := categorizeContent content in
    newItem <- newObject
      (mkItem newId content contentType now false
         (Chars (String.length content))) ;;
    (* Check if duplicate items exist (by content) *)
    s <- get ;;
    let existingItemIndex :=
      findIndex s (λ item, contentOf item = content) (items s) in
    match existingItemIndex with
    | Some i => setItems (delete i (items s))
    | None => ret tt
    end ;;
    (* Add to history at the top *)
    s <- get ;;
    setItems (newItem :: items s) ;;
    limitHistory ;;
    saveClipboardData ;;
    broadcastClipboardUpdate ;;
    ret (Some newItem).

(** [Math.round(dataUrl.length / 1024)] *)
Definition imageSizeKB (dataUrl : string) : Z :=
  (Z.of_nat (String.length dataUrl) + 512) / 1024.

(** [processClipboardImage(dataUrl)] *)
Definition processClipboardImage (newId : string) (now : Z)
    (dataUrl : string) : Eff unit :=
  s <- get ;;
  (* Validate data URL *)
  if negb (JS.startsWith (JS.chars imageMarker) (JS.chars dataUrl)) then ret tt
  (* Skip if we already have this image *)
  else if bool_decide
            (Exists (λ l, contentOf (deref s l) = dataUrl) (items s))
  then ret tt
  (* Check image size against settings before processing *)
  else if imageSizeKB dataUrl >? maxImageSize s then
    handleShowNotification "warning" ;;
    ret tt
  else
    newItem <- newObject
      (mkItem newId dataUrl "image" now false
         (KiloBytes (imageSizeKB dataUrl))) ;;
    s <- get ;;
    setItems (newItem :: items s) ;;
    limitHistory ;;
    saveClipboardData ;;
    sendMessage (mkMessage "clipboardDataUpdated" None).

(** [handleToggleFavorite(itemId)]: [list_find] gives [itemIndex] together
    with the object [items[itemIndex]]. *)
Definition handleToggleFavorite (itemId : string) : Eff bool :=
  s <- get ;;
  match list_find (λ l, (deref s l).(id) = itemId) (items s) with
  | Some (_, l) =>
      modifyHeap (alter flipFavorite l) ;;
      s <- get ;;
      setFavorites (filter (λ l, (deref s l).(isFavorite) = true) (items s)) ;;
      saveClipboardData ;;
      ret true
  | None => ret false
  end.

(** [handleDeleteItem(itemId)] *)
Definition handleDeleteItem (itemId : string) : Eff bool :=
  s <- get ;;
  setItems (filter (λ l, (deref s l).(id) ≠ itemId) (items s)) ;;
  setFavorites (filter (λ l, (deref s l).(id) ≠ itemId) (favorites s)) ;;
  saveClipboardData ;;
  ret true.

(** The [item] field of an [addNewItem] message. *)
Record NewItem : Type := mkNewItem {
  newContent : string;
  newType : option string;
  newIsFavorite : bool;
}.

(** [item.type || categorizeContent(item.content)] *)
Definition addedType (item : NewItem) : string :=
  match newType item with
  | Some t => if String.eqb t "" then categorizeContent (newContent item) else t
  | None => categorizeContent (newContent item)
  end.

(** [handleAddNewItem(item)] *)
Definition handleAddNewItem (newId : string) (now : Z) (item : NewItem)
    : Eff loc :=
  newItem <- newObject
    (mkItem newId (newContent item) (addedType item) now (newIsFavorite item)
       (Chars (String.length (newContent item)))) ;;
  (* Add to history *)
  s <- get ;;
  setItems (newItem :: items s) ;;
  (* Add to favorites if marked as favorite *)
  (if newIsFavorite item
   then s <- get ;; setFavorites (newItem :: favorites s)
   else ret tt) ;;
  limitHistory ;;
  saveClipboardData ;;
  ret newItem.

(** [handleClearAll()] *)
Definition handleClearAll : Eff bool :=
  setItems [] ;;
  setFavorites [] ;;
  saveClipboardData ;;
  ret true.

(** [handleMoveItemToTop(itemId)]: the thrown 'Item not found' is caught
    by the handler itself, which then returns [false]. *)
Definition handleMoveItemToTop (now : Z) (itemId : string) : Eff bool :=
  s <- get ;;
  match list_find (λ l, (deref s l).(id) = itemId) (items s) with
  | None => ret false
  (* If already at the top, no need to do anything *)
  | Some (O, _) => ret true
  | Some (itemIndex, item) =>
      setItems (item :: delete itemIndex (items s)) ;;
      (* clipboardData.items[0].timestamp = Date.now() *)
      modifyHeap (alter (setTimestamp now) item) ;;
      saveClipboardData ;;
      sendMessage (mkMessage "clipboardDataUpdated" None) ;;
      ret true
  end.

Inductive DeleteResult : Type :=
| DeleteOk (deletedCount : nat)         (* { success: true, deletedCount } *)
| DeleteError (error : string).         (* { success: false, error } *)

(** [handleDeleteMultipleItems(itemIds)] *)
Definition handleDeleteMultipleItems (itemIds : list string)
    : Eff DeleteResult :=
  match itemIds with
  | [] => ret (DeleteError "No items to delete")
  | _ =>
      s <- get ;;
      setItems (filter (λ l, (deref s l).(id) ∉ itemIds) (items s)) ;;
      setFavorites (filter (λ l, (deref s l).(id) ∉ itemIds) (favorites s)) ;;
      saveClipboardData ;;
      sendMessage (mkMessage "clipboardDataUpdated" None) ;;
      ret (DeleteOk (length itemIds))
  end.

(** The [settings] field of a [settingsUpdated] message. *)
Record Settings : Type := mkSettings {
  maxItems : option Z;
  settingsMaxTextLength : option Z;
  settingsMaxImageSize : option Z;
}.

(** The [settingsUpdated] case of the message listener. *)
Definition settingsUpdated (settings : option Settings) : Eff unit :=
  match settings with
  | Some st =>
      setLimits (JS.orDefault (maxItems st) 50)
                (JS.orDefault (settingsMaxTextLength st) 10000)
                (JS.orDefault (settingsMaxImageSize st) 1000) ;;
      sendMessage (mkMessage "settingsUpdated" None)
  | None => ret tt
  end.

(* ----------------------------------------------------------------- *)
(** *** The capture guard of [checkClipboardForChanges] *)

Inductive Attempt : Type :=
| Skipped          (* the call returned at the guard *)
| Started.         (* the call set the guard and went on to read *)

(** What becomes of the awaited steps of a started check (the tab query
    and the scripts injected to read the clipboard). *)
Inductive CheckRun : Type :=
| Settles          (* every awaited step resolves or rejects *)
| Hangs.           (* an awaited step never settles *)

(** [checkClipboardForChanges], as far as [isProcessingClipboard] goes:
    the attempt and the value of the flag once the call has run as far as
    it can.  A started check whose awaited steps settle leaves through an
    early return, the [catch] or the [finally], and each of them clears
    the flag. *)
Definition checkClipboardForChanges (run : CheckRun)
    (isProcessingClipboard : bool) : Attempt * bool :=
  if isProcessingClipboard then (Skipped, isProcessingClipboard)
  else match run with
       | Settles => (Started, false)
       | Hangs => (Started, true)
       end.

(** Successive calls (timer ticks and forced triggers), each with the
    time of the call and the fate of its reads. *)
Fixpoint attempts (calls : list (Z * CheckRun)) (isProcessingClipboard : bool)
    : list Attempt * bool :=
  match calls with
  | [] => ([], isProcessingClipboard)
  | (_, run) :: calls' =>
      let '(a, g) := checkClipboardForChanges run isProcessingClipboard in
      let '(rest, g') := attempts calls' g in
      (a :: rest, g')
  end.

(* ================================================================= *)
(** ** The second variant of the background script

    The copy of the script that follows the content script differs from
    src/background/background.js in the capture guard and in
    [processClipboardImage]; the store operations are the same. *)

Module Variant.

(** [isProcessingClipboard] holds [false] or the [Date.now()] of the
    moment the check in flight started. *)
Inductive Guard : Type :=
| Idle
| Since (started : Z).

(** Truthiness of the guard: a timestamp of 0 is falsy. *)
Definition truthy (g : Guard) : bool :=
  match g with
  | Idle => false
  | Since t => negb (t =? 0)
  end.

Definition staleAfter : Z := 10000.

(** [checkClipboardForChanges] at time [now], as far as the guard goes:
    a guard older than ten seconds is reset and the check goes on. *)
Definition checkClipboardForChanges (now : Z) (run : CheckRun) (g : Guard)
    : Attempt * Guard :=
  let start :=
    match run with
    | Settles => (Started, Idle)
    | Hangs => (Started, Since now)
    end in
  match g with
  | Since t =>
      if truthy g then
        (* If it's been processing for more than 10 seconds, reset *)
        if now - t >? staleAfter then start else (Skipped, g)
      else start
  | Idle => start
  end.

Fixpoint attempts (calls : list (Z * CheckRun)) (g : Guard)
    : list Attempt * Guard :=
  match calls with
  | [] => ([], g)
  | (now, run) :: calls' =>
      let '(a, g1) := checkClipboardForChanges now run g in
      let '(rest, g2) := attempts calls' g1 in
      (a :: rest, g2)
  end.

(** [processClipboardImage(dataUrl)]; [saveOk] is the [success] field of
    the result of [saveClipboardData].  Returns [true] after a commit
    and [undefined] ([None]) otherwise. *)
Definition processClipboardImage (newId : string) (now : Z) (saveOk : bool)
    (dataUrl : string) : Eff (option bool) :=
  s <- get ;;
  if negb (JS.startsWith (JS.chars imageMarker) (JS.chars dataUrl)) then ret None
  else if bool_decide
            (Exists (λ l, contentOf (deref s l) = dataUrl) (items s))
  then ret None
  else if imageSizeKB dataUrl >? maxImageSize s then
    handleShowNotification "warning" ;;
    ret None
  else
    newItem <- newObject
      (mkItem newId dataUrl "image" now false
         (KiloBytes (imageSizeKB dataUrl))) ;;
    s <- get ;;
    setItems (newItem :: items s) ;;
    limitHistory ;;
    saveClipboardData ;;
    if negb saveOk then ret None
    else
      sendMessage (mkMessage "clipboardDataUpdated" None) ;;
      broadcastClipboardUpdate ;;
      handleShowNotification "success" ;;
      ret (Some true).

End Variant.

(* ================================================================= *)
(** ** Operations and reachable states *)

Inductive Op : Type :=
| Capture (newId : string) (now : Z) (content : string)
| CaptureImage (newId : string) (now : Z) (dataUrl : string)
| Add (newId : string) (now : Z) (item : NewItem)
| ToggleFavorite (itemId : string)
| Delete (itemId : string)
| DeleteMany (itemIds : list string)
| MoveToTop (now : Z) (itemId : string)
| Clear
| UpdateSettings (settings : option Settings).

(** The state an operation leaves and the messages it sends. *)
Definition run (op : Op) (s : State) : State * list Message :=
  match op with
  | Capture i t c => let r := processClipboardContent i t c s in (state r, sent r)
  | CaptureImage i t d => let r := processClipboardImage i t d s in (state r, sent r)
  | Add i t it => let r := handleAddNewItem i t it s in (state r, sent r)
  | ToggleFavorite i => let r := handleToggleFavorite i s in (state r, sent r)
  | Delete i => let r := handleDeleteItem i s in (state r, sent r)
  | DeleteMany ids => let r := handleDeleteMultipleItems ids s in (state r, sent r)
  | MoveToTop t i => let r := handleMoveItemToTop t i s in (state r, sent r)
  | Clear => let r := handleClearAll s in (state r, sent r)
  | UpdateSettings st => let r := settingsUpdated st s in (state r, sent r)
  end.

Definition step (op : Op) (s : State) : State := fst (run op s).

(** The state after a sequence of operations. *)
Definition exec (ops : list Op) (s : State) : State :=
  foldl (λ s op, step op s) s ops.

Definition reachable (s : State) : Prop :=
  ∃ ops, s = exec ops initialState.

(** Operations that put a new item into the history. *)
Definition isInsertion (op : Op) : bool :=
  match op with
  | Capture _ _ _ | CaptureImage _ _ _ | Add _ _ _ => true
  | _ => false
  end.

(** Every reference held by the arrays points into the object store,
    and [items] holds no object twice. *)
Record wf (s : State) : Prop := mkWf {
  wf_items : Forall (λ l, (l < length (heap s))%nat) (items s);
  wf_favorites : Forall (λ l, (l < length (heap s))%nat) (favorites s);
  wf_nodup : NoDup (items s);
}.

(** No two entries of the history share their content. *)
Definition uniqueContents (s : State) : Prop :=
  NoDup (content <$> itemsOf s).

(** [favorites] is the set of the items flagged as favorite: the same
    objects, whatever their order. *)
Definition favoritesDerived (s : State) : Prop :=
  favorites s ≡ₚ filter (λ l, (deref s l).(isFavorite) = true) (items s).

(** The distinct message identifiers of a trace. *)
Definition identifiers (ms : list Message) : list string :=
  remove_dups (action <$> ms).

(* ----------------------------------------------------------------- *)
(** *** Shorthands for the states the operations leave *)

(** What [limitHistory] leaves in [items]. *)
Definition limited (maxItems : Z) (arr : list loc) : list loc :=
  if Z.of_nat (length arr) >? maxItems then slice0 arr maxItems else arr.

(** The items array just before [limitHistory] in a committed capture:
    the new reference in front, the first entry with the same content
    taken out. *)
Definition promoted (s : State) (content : string) (newItem : loc)
    (h : list Item) : list loc :=
  newItem ::
  match list_find (λ l, contentOf (h !!! l) = content) (items s) with
  | Some (i, _) => delete i (items s)
  | None => items s
  end.

(* ----------------------------------------------------------------- *)
(** *** The URL rule of the classifier, written out *)

(** Equality up to the case of ASCII letters. *)
Definition eq_ci (a b : list ascii) : Prop :=
  Regex.lower <$> a = Regex.lower <$> b.

(** The strings [urlRegex] accepts: one of the three prefixes in any
    letter case, one character that is neither whitespace nor one of
    [/ $ . ? #], one character that is not a line terminator, and then
    no whitespace up to the end. *)
Definition urlShape (w : list ascii) : Prop :=
  ∃ prefix c1 c2 rest,
    w = prefix ++ c1 :: c2 :: rest ∧
    (eq_ci prefix (JS.chars "http://") ∨ eq_ci prefix (JS.chars "https://")
     ∨ eq_ci prefix (JS.chars "www.")) ∧
    JS.isWhiteSpace c1 = false ∧
    (c1 ∉ ["/"; "$"; "."; "?"; "#"]%char) ∧
    JS.isLineTerminator c2 = false ∧
    Forall (λ c, JS.isWhiteSpace c = false) rest.

(** The classifier in the words of the specification, for comparison
    with [categorizeContent]. *)
Module Spec.

Definition startsWith_ci (p s : list ascii) : bool :=
  JS.startsWith (Regex.lower <$> p) (Regex.lower <$> s).

(** "scheme http/https or leading www., no embedded whitespace" *)
Definition urlPattern (content : string) : bool :=
  let t := JS.trim (JS.chars content) in
  (startsWith_ci (JS.chars "http://") t
   || startsWith_ci (JS.chars "https://") t
   || startsWith_ci (JS.chars "www.") t)
  && forallb (λ c, negb (JS.isWhiteSpace c)) t.

Definition classify (content : string) : string :=
  if isBlank content then "text"
  else if JS.startsWith (JS.chars imageMarker) (JS.chars content) then "image"
  else if urlPattern content then "url"
  else if looksLikeCode content then "code"
  else "text".

End Spec.

(* ----------------------------------------------------------------- *)
(** *** Clocks *)

(** The reading of [Date.now()] an operation is given, for the
    operations that take one. *)
Definition opTime (op : Op) : option Z :=
  match op with
  | Capture _ t _ | CaptureImage _ t _ | Add _ t _ | MoveToTop t _ => Some t
  | _ => None
  end.

(** The clock does not run backwards: each reading is at least the one
    before it, [t0] being the last reading before the run. *)
Fixpoint ticking (t0 : Z) (ops : list Op) : Prop :=
  match ops with
  | [] => True
  | op :: ops' =>
      match opTime op with
      | Some t => t0 ≤ t ∧ ticking t ops'
      | None => ticking t0 ops'
      end
  end.

(** The history is ordered newest first. *)
Definition newestFirst (s : State) : Prop :=
  ∀ i j a b, (i < j)%nat →
    itemsOf s !! i = Some a → itemsOf s !! j = Some b →
    timestamp b ≤ timestamp a.

(* ================================================================= *)
(** ** Persistence: [saveClipboardData] and [loadClipboardData] *)

(** An item as [chrome.storage] holds it: a JSON object, any field of
    which may be missing. *)
Record StoredItem : Type := mkStoredItem {
  storedId : option string;
  storedContent : option string;
  storedType : option string;
  storedTimestamp : option Z;
  storedIsFavorite : option bool;
  storedCharCount : option CharCount;
}.

(** The value under the key [clipboardData]; a field is [None] when it
    is missing or not an array. *)
Record StoredData : Type := mkStoredData {
  storedItems : option (list StoredItem);
  storedFavorites : option (list StoredItem);
}.

(** The clean copy [saveClipboardData] makes of an item. *)
Definition storedCopy (item : Item) : StoredItem :=
  mkStoredItem (Some (id item)) (Some (content item)) (Some (type item))
    (Some (timestamp item)) (Some (isFavorite item)) (Some (charCount item)).

(** [dataToSave], the value [saveClipboardData] writes. *)
Definition dataToSave (s : State) : StoredData :=
  mkStoredData (Some (storedCopy <$> itemsOf s))
               (Some (storedCopy <$> favoritesOf s)).

(** [x || d] on strings: the empty string and undefined are falsy. *)
Definition orString (x : option string) (d : string) : string :=
  match x with
  | Some v => if String.eqb v "" then d else v
  | None => d
  end.

(** [x || d] on a [charCount]: the number 0 and undefined are falsy, a
    size in KB is a string that is not empty. *)
Definition orCharCount (x : option CharCount) (d : CharCount) : CharCount :=
  match x with
  | Some (Chars O) | None => d
  | Some c => c
  end.

(** The callback that sanitizes a loaded item; [newId] and [now] are
    what [generateId()] and [Date.now()] give when they are called. *)
Definition sanitizeItem (newId : string) (now : Z) (item : StoredItem) : Item :=
  mkItem (orString (storedId item) newId)
         (orString (storedContent item) "")
         (orString (storedType item) "text")
         (JS.orDefault (storedTimestamp item) now)
         (* !!item.isFavorite *)
         (match storedIsFavorite item with Some b => b | None => false end)
         (* item.charCount || (item.content ? item.content.length : 0) *)
         (orCharCount (storedCharCount item)
            (Chars (match storedContent item with
                    | Some c => if String.eqb c "" then O else String.length c
                    | None => O
                    end))).

(** [clipboardData.favorites] after a load: the array read from storage,
    kept as it is, or an array of the loaded item objects themselves. *)
Inductive LoadedFavorites : Type :=
| FromStorage (favs : list StoredItem)
| FromItems (favs : list Item).

Record ClipboardData : Type := mkClipboardData {
  loadedItems : list Item;
  loadedFavorites : LoadedFavorites;
}.

(** The first half of [loadClipboardData]: [clipboardData] as it is left
    for the value [stored] read under the key [clipboardData] ([None]
    when there is none).  [genId i] and [clock i] are the readings of
    [generateId()] and [Date.now()] at the [i]-th item. *)
Definition loadClipboardData (genId : nat → string) (clock : nat → Z)
    (stored : option StoredData) : ClipboardData :=
  match stored with
  | Some (mkStoredData (Some its) favs) =>
      let items := imap (λ i item, sanitizeItem (genId i) (clock i) item) its in
      mkClipboardData items
        match favs with
        | Some f => FromStorage f
        | None => FromItems (filter (λ item, isFavorite item = true) items)
        end
  | _ => mkClipboardData [] (FromItems [])
  end.

(** The ids and times an operation is given are truthy: [generateId()]
    returns a string that is not empty and [Date.now()] is not 0. *)
Definition opInputsTruthy (op : Op) : Prop :=
  match op with
  | Capture i t _ | CaptureImage i t _ | Add i t _ => i ≠ "" ∧ t ≠ 0
  | MoveToTop t _ => t ≠ 0
  | _ => True
  end.

(** An item every field of which is truthy where the sanitizer asks. *)
Definition sanitized (it : Item) : Prop :=
  id it ≠ "" ∧ type it ≠ "" ∧ timestamp it ≠ 0
  ∧ (charCount it = Chars 0 → content it = "").

(* ================================================================= *)
(** ** Context menus *)

(** [s.replace(pattern, '')] for a string pattern: the first occurrence
    of the pattern is taken out. *)
Fixpoint removeFirst (pattern s : list ascii) : list ascii :=
  if JS.startsWith pattern s then drop (length pattern) s
  else match s with
       | [] => []
       | c :: s' => c :: removeFirst pattern s'
       end.

(** One call of [chrome.contextMenus.create]. *)
Record MenuEntry : Type := mkMenuEntry {
  menuItemId : string;
  parentId : option string;
  title : option string;
  isSeparator : bool;               (* type: 'separator' *)
}.

(** The title of the entry of a favourite: the content, truncated. *)
Definition entryTitle (content : string) : string :=
  if (50 <? String.length content)%nat
  then String.substring 0 47 content +:+ "..."
  else content.

Definition favoriteEntry (item : Item) : MenuEntry :=
  mkMenuEntry ("favorite-" +:+ id item) (Some "clipboard-manager")
    (Some (entryTitle (content item))) false.


(** What a click on a menu entry does. *)
Inductive MenuAction : Type :=
| OpenWindow                        (* openFloatingWindow() *)
| PasteContent (content : string)   (* the message sent to the tab *)
| NoAction.

(** [handleContextMenuClick(info, tab)], by [info.menuItemId]. *)
Definition handleContextMenuClick (s : State) (clicked : string) : MenuAction :=
  if String.eqb clicked "floating-window" then OpenWindow
  else if JS.startsWith (JS.chars "favorite-") (JS.chars clicked) then
    let itemId :=
      string_of_list_ascii
        (removeFirst (JS.chars "favorite-") (JS.chars clicked)) in
    match list_find (λ item, id item = itemId) (favoritesOf s) with
    | Some (_, item) => PasteContent (content item)
    | None => NoAction
    end
  else NoAction.

(* ================================================================= *)
(** ** The message listener *)

(** The variables of the script the listener works on besides the
    store.  [floatingWindowId] and [showCharCount] are left out: no
    function modelled here reads them. *)
Record Worker : Type := mkWorker {
  store : State;
  verboseLogging : bool;
  forceNextClipboardCheck : bool;
  copyKeyDetectedTime : Z;
  lastCopyTimestamp : Z;
}.

Definition setStore (s : State) (w : Worker) : Worker :=
  mkWorker s (verboseLogging w) (forceNextClipboardCheck w)
    (copyKeyDetectedTime w) (lastCopyTimestamp w).

Definition setVerboseLogging (b : bool) (w : Worker) : Worker :=
  mkWorker (store w) b (forceNextClipboardCheck w)
    (copyKeyDetectedTime w) (lastCopyTimestamp w).

Definition setForceNextClipboardCheck (b : bool) (w : Worker) : Worker :=
  mkWorker (store w) (verboseLogging w) b
    (copyKeyDetectedTime w) (lastCopyTimestamp w).

(** The [settings] object of a [settingsUpdated] message, with the field
    the listener reads besides the limits. *)
Record SettingsMessage : Type := mkSettingsMessage {
  limits : Settings;
  settingsVerboseLogging : option bool;
}.

(** A message, by its [action], with the fields the case of that action
    reads.  [UnknownAction] stands for an action that is none of the
    names of the [switch]. *)
Inductive Request : Type :=
| Invalid                                     (* no message, or no action *)
| GetClipboardData
| CopyKeyDetected (hasSelection : bool) (timestamp : option Z)
| PasteKeyDetected
| ClipboardImageDetected (content : string)
| ClipboardDataUpdated
| ToggleFavoriteMsg (itemId : string)
| DeleteItemMsg (itemId : string)
| AddNewItemMsg (item : NewItem)
| ClearAllMsg
| ToggleVerboseLogging (enabled : bool)
| PasteToActiveElement (content : string)
| ShowNotificationMsg (notification : string)
| OpenFloatingWindow
| ClipboardContentMsg (content : string)
| MoveItemToTopMsg (itemId : string)
| DeleteMultipleItemsMsg (itemIds : list string)
| SettingsUpdatedMsg (settings : option SettingsMessage)
| UnknownAction (action : string).

(** What is handed to [sendResponse]. *)
Inductive Response : Type :=
| ErrorResponse (error : string)              (* { error } *)
| Success                                     (* { success: true } *)
| Data (items favorites : list Item)          (* clipboardData *)
| Flag (result : bool)                        (* a handler's boolean *)
| Added (item : Item)                         (* the new item *)
| Deleted (result : DeleteResult).

(** One run of the listener: the response, the variables as it leaves
    them, the messages sent with [chrome.runtime.sendMessage], the
    content forwarded to the sender's tab, and the delays of the forced
    checks it schedules. *)
Record Handled : Type := mkHandled {
  response : Response;
  worker : Worker;
  broadcast : list Message;
  toTab : option string;
  timers : list Z;
}.

Definition answer (r : Response) (w : Worker) : Handled :=
  mkHandled r w [] None [].

(** A handler of the store run on the worker. *)
Definition onStore {A} (m : Eff A) (f : A → State → Response) (w : Worker)
    : Handled :=
  match m (store w) with
  | mkRes a s out => mkHandled (f a s) (setStore s w) out None []
  end.

(** [handleCopyKeyDetected(hasSelection, timestamp = Date.now())]: the
    variables as it leaves them and the delays of the two forced checks
    it schedules.  [now] is the reading of [Date.now()]. *)
Definition handleCopyKeyDetected (now : Z) (timestamp : option Z) (w : Worker)
    : Worker * list Z :=
  (mkWorker (store w) (verboseLogging w) true now (default now timestamp),
   [100; 500]).

(** The listener of [chrome.runtime.onMessage].  A case that ends in
    [break] goes on to the line that restores [verboseLogging]; a case
    that hands its response to a promise returns before that line. *)
Definition onMessage (newId : string) (now : Z) (senderHasTab : bool)
    (message : Request) (w0 : Worker) : Handled :=
  let originalVerboseLogging := verboseLogging w0 in
  let w := setVerboseLogging true w0 in
  let restore (h : Handled) : Handled :=
    mkHandled (response h)
      (setVerboseLogging originalVerboseLogging (worker h))
      (broadcast h) (toTab h) (timers h) in
  match message with
  | Invalid => restore (answer (ErrorResponse "Invalid message") w)
  | GetClipboardData =>
      restore (answer (Data (itemsOf (store w)) (favoritesOf (store w))) w)
  | CopyKeyDetected _ timestamp =>
      restore (mkHandled Success (handleCopyKeyDetected now timestamp w).1
                 [] None (handleCopyKeyDetected now timestamp w).2)
  | PasteKeyDetected =>
      restore (mkHandled Success (setForceNextClipboardCheck true w)
                 [] None [100; 500])
  | ClipboardImageDetected content =>
      onStore (processClipboardImage newId now content) (λ _ _, Success) w
  | ClipboardDataUpdated =>
      restore (mkHandled Success w [mkMessage "refreshClipboardData" None]
                 None [])
  | ToggleFavoriteMsg itemId =>
      onStore (handleToggleFavorite itemId) (λ r _, Flag r) w
  | DeleteItemMsg itemId =>
      onStore (handleDeleteItem itemId) (λ r _, Flag r) w
  | AddNewItemMsg item =>
      onStore (handleAddNewItem newId now item) (λ l s, Added (deref s l)) w
  | ClearAllMsg => onStore handleClearAll (λ r _, Flag r) w
  | ToggleVerboseLogging enabled =>
      restore (answer Success (setVerboseLogging enabled w))
  | PasteToActiveElement content =>
      restore (if senderHasTab
               then mkHandled Success w [] (Some content) []
               else answer (ErrorResponse "Cannot paste in this context") w)
  | ShowNotificationMsg notification =>
      restore (onStore (handleShowNotification notification) (λ _ _, Success) w)
  | OpenFloatingWindow => answer Success w
  | ClipboardContentMsg content =>
      onStore (processClipboardContent newId now content) (λ _ _, Success) w
  | MoveItemToTopMsg itemId =>
      onStore (handleMoveItemToTop now itemId) (λ r _, Flag r) w
  | DeleteMultipleItemsMsg itemIds =>
      onStore (handleDeleteMultipleItems itemIds) (λ r _, Deleted r) w
  | SettingsUpdatedMsg settings =>
      match settings with
      | Some st =>
          let w1 := setVerboseLogging
                      (default false (settingsVerboseLogging st)) w in
          restore (onStore (settingsUpdated (Some (limits st)))
                     (λ _ _, Success) w1)
      | None => restore (answer Success w)
      end
  | UnknownAction _ => restore (answer (ErrorResponse "Unknown action") w)
  end.

(** The operation of the store a message asks for, if it asks for
    one. *)
Definition requested (newId : string) (now : Z) (message : Request)
    : option Op :=
  match message with
  | ClipboardContentMsg content => Some (Capture newId now content)
  | ClipboardImageDetected content => Some (CaptureImage newId now content)
  | AddNewItemMsg item => Some (Add newId now item)
  | ToggleFavoriteMsg itemId => Some (ToggleFavorite itemId)
  | DeleteItemMsg itemId => Some (Delete itemId)
  | DeleteMultipleItemsMsg itemIds => Some (DeleteMany itemIds)
  | MoveItemToTopMsg itemId => Some (MoveToTop now itemId)
  | ClearAllMsg => Some Clear
  | SettingsUpdatedMsg settings => Some (UpdateSettings (limits <$> settings))
  | _ => None
  end.

(** The cases of the listener that hand their response to a promise. *)
Definition answersLater (message : Request) : bool :=
  match message with
  | ClipboardImageDetected _ | ToggleFavoriteMsg _ | DeleteItemMsg _
  | AddNewItemMsg _ | ClearAllMsg | OpenFloatingWindow
  | ClipboardContentMsg _ | MoveItemToTopMsg _ | DeleteMultipleItemsMsg _ => true
  | _ => false
  end.

(* ================================================================= *)
(** ** Reading the clipboard: [checkClipboardForChanges] past its guard *)

Module Check.

(** [window.getClipboardManagerState()], the flags of the content
    script. *)
Record CmState : Type := mkCmState {
  justCopied : bool;
  copyKeyPressed : bool;
  pasteKeyPressed : bool;
}.

(** What the function injected into the page finds there.  A check of
    the selection or of [:active] that throws is caught and counts as not
    found. *)
Record Page : Type := mkPage {
  cmState : option CmState;         (* null when the page has no content script *)
  isUserTyping : bool;
  activeSelection : bool;           (* a selection that is not collapsed nor blank *)
  activeInteraction : bool;         (* document.querySelector(':active') *)
  hasClipboardAPI : bool;           (* navigator.clipboard.readText is a function *)
  fallbackThrows : option string;   (* the message of an error thrown while pasting *)
  pasteSucceeds : bool;             (* document.execCommand('paste') *)
  pastedText : string;              (* textArea.value *)
}.

(** The object the injected function returns. *)
Record ClipboardResult : Type := mkClipboardResult {
  success : bool;
  text : option string;             (* None: null *)
  skipReason : option string;
  error : option string;
  useClipboardAPI : bool;
}.

(** [safeReadClipboard()] in the page, [forceCheck] being the argument of
    the injected function. *)
Definition safeReadClipboard (forceCheck : bool) (page : Page)
    : ClipboardResult :=
  let skip reason := mkClipboardResult true None (Some reason) None false in
  let read :=
    if hasClipboardAPI page then mkClipboardResult true None None None true
    else match fallbackThrows page with
         | Some message => mkClipboardResult true None None (Some message) false
         | None =>
             mkClipboardResult (pasteSucceeds page) (Some (pastedText page))
               None None false
         end in
  let copied :=
    match cmState page with
    | Some st => justCopied st || copyKeyPressed st || pasteKeyPressed st
    | None => false
    end in
  if copied then read
  else if isUserTyping page && negb forceCheck then skip "user_typing"
  else
    let copyOrPastePressed :=
      match cmState page with
      | Some st => copyKeyPressed st || pasteKeyPressed st
      | None => false
      end in
    if negb forceCheck && activeSelection page && negb copyOrPastePressed
    then skip "active_selection"
    else if negb forceCheck && activeInteraction page
    then skip "active_interaction"
    else read.

(** What [chrome.scripting.executeScript] gives for the injected
    function. *)
Inductive Script : Type :=
| Rejected (message : string)       (* the call rejects *)
| NoResults                         (* no array, or an empty one *)
| NoResultData                      (* results[0].result is missing *)
| Result (r : ClipboardResult).

(** Truthiness of a string that may be null. *)
Definition truthy (x : option string) : bool :=
  match x with
  | Some v => negb (String.eqb v "")
  | None => false
  end.

(** The body of [checkClipboardForChanges] between the moment it sets
    the guard and the moment it clears it.  [activeTab] is [None] when
    there is no active tab and otherwise tells whether its URL is
    restricted; [apiRead] is the [success] and [text] of the result of
    the second injected script, [None] when there is none or the call
    throws.  [checkForImageData], which follows, returns what it finds
    and writes nothing. *)
Definition checkClipboardForChanges (newId : string) (now : Z)
    (activeTab : option bool) (script : Script)
    (apiRead : option (bool * option string)) : Eff unit :=
  match activeTab with
  | None => ret tt
  | Some true => ret tt
  | Some false =>
      let clipboardResults :=
        match script with
        | Rejected message =>
            Some (mkClipboardResult false None None
                    (Some (if String.eqb message ""
                           then "Script execution failed" else message))
                    false)
        | NoResults => None
        | NoResultData =>
            Some (mkClipboardResult false None None (Some "No result data")
                    false)
        | Result r => Some r
        end in
      match clipboardResults with
      | None => ret tt
      | Some clipboardResult =>
          if truthy (skipReason clipboardResult) then ret tt
          else if truthy (error clipboardResult) then ret tt
          else if useClipboardAPI clipboardResult then
            match apiRead with
            | Some (true, Some resultText) =>
                if negb (String.eqb resultText "") then
                  s <- get ;;
                  if negb (String.eqb resultText (lastClipboardText s))
                  then processClipboardContent newId now resultText ;; ret tt
                  else ret tt
                else ret tt
            | _ => ret tt
            end
          else
            match text clipboardResult with
            | Some clipboardText =>
                s <- get ;;
                if negb (String.eqb clipboardText "")
                   && negb (String.eqb clipboardText (lastClipboardText s))
                then processClipboardContent newId now clipboardText ;; ret tt
                else ret tt
            | None => ret tt
            end
      end
  end.

End Check.

(* ================================================================= *)
(** ** The utilities of the client (clipboardUtils) *)

Module Utils.

Definition codeIndicators : list string :=
  [ "{"; "}"; "()"; "=>"; "function"; "class"; "import"; "export";
    "const"; "let"; "var"; "def "; "elif"; "for ("; "while (";
    "<div>"; "<span>"; "</div>"; "</span>"; "<?php"; "#!/usr" ].

(** [categorizeContent] of the client: the same image and URL rules as
    the background script, and [code] as soon as one indicator occurs. *)
Definition categorizeContent (content : string) : string :=
  if String.eqb content "" then "text"
  else if JS.startsWith (JS.chars imageMarker) (JS.chars content) then "image"
  else if Regex.test urlRegex (JS.trim (JS.chars content)) then "url"
  else if existsb (λ indicator, JS.includes (JS.chars indicator) (JS.chars content))
            codeIndicators
  then "code"
  else "text".

(** A number in a template literal: its decimal digits. *)
Definition numberToString (n : Z) : string :=
  NilZero.string_of_int (Z.to_int n).

(** [formatTimestamp(timestamp)], the timestamp and the current time in
    milliseconds; [toLocaleDateString] is the date in the locale of the
    browser. *)
Definition formatTimestamp (toLocaleDateString : Z → string) (now : Z)
    (timestamp : Z) : string :=
  let diffMs := now - timestamp in
  let diffSec := diffMs / 1000 in
  let diffMin := diffSec / 60 in
  let diffHours := diffMin / 60 in
  let diffDays := diffHours / 24 in
  if diffSec <? 60 then "just now"
  else if diffMin <? 60 then
    if diffMin =? 1 then "1 min ago" else numberToString diffMin +:+ " mins ago"
  else if diffHours <? 24 then
    if diffHours =? 1 then "1 hour ago"
    else numberToString diffHours +:+ " hours ago"
  else if diffDays <? 7 then
    if diffDays =? 1 then "1 day ago" else numberToString diffDays +:+ " days ago"
  else toLocaleDateString timestamp.

End Utils.

(* ================================================================= *)
(** * Properties *)

(* ================================================================= *)
(** ** The matcher and the URL rule *)

Section RegexFacts.
Import Regex.

Lemma starCls_spec p s k :
  starCls p s k = true ↔
  ∃ a b, s = a ++ b ∧ forallb p a = true ∧ k b = true.
Proof.
  induction s as [|c s IH]; simpl.
  - split.
    + intros Hk. exists [], []. auto.
    + intros (a & b & Hs & _ & Hk).
      symmetry in Hs. apply app_eq_nil in Hs as [-> ->]. exact Hk.
  - rewrite orb_true_iff, andb_true_iff, IH. split.
    + intros [[Hp (a & b & -> & Ha & Hk)] | Hk].
      * exists (c :: a), b. simpl. rewrite Hp, Ha. auto.
      * exists [], (c :: s). auto.
    + intros (a & b & Hs & Ha & Hk). destruct a as [|c' a]; simpl in *.
      * subst b. right. exact Hk.
      * injection Hs as <- ->. apply andb_true_iff in Ha as [Hp Ha].
        left. split; [exact Hp|]. exists a, b. auto.
Qed.

Lemma matchRe_spec r : ∀ s k,
  matchRe r s k = true ↔ ∃ a b, s = a ++ b ∧ lang r a ∧ k b = true.
Proof.
  induction r as [|p|r1 IH1 r2 IH2|r1 IH1 r2 IH2|r1 IH1|p]; intros s k; simpl.
  - split.
    + intros Hk. exists [], s. auto.
    + intros (a & b & -> & -> & Hk). exact Hk.
  - destruct s as [|c s].
    + split; [discriminate|].
      intros (a & b & Hs & (c & -> & _) & _). discriminate.
    + rewrite andb_true_iff. split.
      * intros [Hp Hk]. exists [c], s. eauto.
      * intros (a & b & Hs & (c' & -> & Hp) & Hk).
        injection Hs as -> ->. auto.
  - rewrite IH1. split.
    + intros (a & b & -> & Ha & Hb). apply IH2 in Hb as (b1 & b2 & -> & Hb1 & Hk).
      exists (a ++ b1), b2. rewrite <- app_assoc. eauto 8.
    + intros (a & b & -> & (a1 & a2 & -> & Ha1 & Ha2) & Hk).
      exists a1, (a2 ++ b). rewrite <- app_assoc. split; [done|].
      split; [done|]. apply IH2. eauto.
  - rewrite orb_true_iff, IH1, IH2. split.
    + intros [(a & b & ? & ? & ?)|(a & b & ? & ? & ?)]; exists a, b; auto.
    + intros (a & b & ? & [?|?] & ?); [left|right]; exists a, b; auto.
  - rewrite orb_true_iff, IH1. split.
    + intros [(a & b & ? & ? & ?)|Hk]; [exists a, b; auto|].
      exists [], s. auto.
    + intros (a & b & Hs & [? | ->] & ?); [left; exists a, b; auto|].
      right. simpl in Hs. by subst.
  - apply starCls_spec.
Qed.

Lemma test_spec r s : test r s = true ↔ lang r s.
Proof.
  unfold test. rewrite matchRe_spec. split.
  - intros (a & b & -> & Ha & Hb). destruct b; [|discriminate].
    by rewrite app_nil_r.
  - intros H. exists s, []. by rewrite app_nil_r.
Qed.

Lemma lang_lit_i w : ∀ a, lang (lit_i w) a ↔ eq_ci a w.
Proof.
  unfold eq_ci.
  induction w as [|c w IH]; intros a; simpl.
  - split; [by intros ->|]. by destruct a.
  - split.
    + intros (x & y & -> & (c' & -> & Hc) & Hy). apply IH in Hy.
      apply Ascii.eqb_eq in Hc. simpl. f_equal; assumption.
    + destruct a as [|c' a]; [discriminate|]. simpl. intros [= Hc Ha].
      exists [c'], a. split; [done|]. split; [|by apply IH].
      exists c'. split; [done|]. by apply Ascii.eqb_eq.
Qed.

End RegexFacts.

Section UrlRule.
Import Regex.

Lemma eq_ci_app x y u v : eq_ci x u → eq_ci y v → eq_ci (x ++ y) (u ++ v).
Proof. unfold eq_ci. intros Hx Hy. by rewrite !fmap_app, Hx, Hy. Qed.

Lemma eq_ci_app_inv a u v :
  eq_ci a (u ++ v) → ∃ x y, a = x ++ y ∧ eq_ci x u ∧ eq_ci y v.
Proof.
  unfold eq_ci. rewrite fmap_app. intros H.
  apply fmap_app_inv in H as (x & y & Hx & Hy & ->). eauto.
Qed.

Lemma existsb_eqb_elem_of (c : ascii) l :
  existsb (Ascii.eqb c) l = true ↔ c ∈ l.
Proof.
  induction l as [|x l IH]; simpl.
  - split; [discriminate|]. by intros ?%elem_of_nil.
  - rewrite orb_true_iff, IH, elem_of_cons, Ascii.eqb_eq. tauto.
Qed.

Lemma forallb_notWs rest :
  forallb (λ c, negb (JS.isWhiteSpace c)) rest = true ↔
  Forall (λ c, JS.isWhiteSpace c = false) rest.
Proof.
  induction rest as [|c rest IH]; simpl.
  - split; auto.
  - rewrite andb_true_iff, IH, Forall_cons, negb_true_iff. tauto.
Qed.

Lemma lang_scheme a :
  lang (Cat (lit_i (JS.chars "http"))
          (Cat (Opt (chr_i "s"%char)) (lit_i (JS.chars "://")))) a ↔
  eq_ci a (JS.chars "http://") ∨ eq_ci a (JS.chars "https://").
Proof.
  split.
  - intros (x & yz & -> & Hx%lang_lit_i & y & z & -> & Hy & Hz%lang_lit_i).
    destruct Hy as [(c & -> & Hc%Ascii.eqb_eq) | ->].
    + right. change (JS.chars "https://")
        with (JS.chars "http" ++ ["s"%char] ++ JS.chars "://").
      apply eq_ci_app; [done|]. apply eq_ci_app; [|done].
      unfold eq_ci. simpl. by rewrite Hc.
    + left. change (JS.chars "http://") with (JS.chars "http" ++ [] ++ JS.chars "://").
      apply eq_ci_app; [done|]. by apply eq_ci_app.
  - intros [H|H].
    + change (JS.chars "http://") with (JS.chars "http" ++ JS.chars "://") in H.
      apply eq_ci_app_inv in H as (x & z & -> & Hx & Hz).
      exists x, z. split; [done|]. split; [by apply lang_lit_i|].
      exists [], z. split; [done|]. split; [by right|by apply lang_lit_i].
    + change (JS.chars "https://")
        with (JS.chars "http" ++ ["s"%char] ++ JS.chars "://") in H.
      apply eq_ci_app_inv in H as (x & yz & -> & Hx & H).
      apply eq_ci_app_inv in H as (y & z & -> & Hy & Hz).
      exists x, (y ++ z). split; [done|]. split; [by apply lang_lit_i|].
      exists y, z. split; [done|]. split; [|by apply lang_lit_i].
      left. destruct y as [|c [|]]; try discriminate Hy.
      exists c. split; [done|]. apply Ascii.eqb_eq.
      unfold eq_ci in Hy. simpl in Hy. congruence.
Qed.

(** The strings accepted by the URL pattern of the source are those of
    [urlShape]. *)
Lemma urlRegex_shape w : test urlRegex w = true ↔ urlShape w.
Proof.
  rewrite test_spec. unfold urlRegex, urlShape.
  cbn [lang]. split.
  - intros (p & b & -> & Hp & a1 & b1 & -> & (c1 & -> & Hc1)
            & a2 & rest & -> & (c2 & -> & Hc2) & Hrest).
    exists p, c1, c2, rest. split; [done|].
    split.
    { destruct Hp as [Hp|Hp].
      - apply lang_scheme in Hp. tauto.
      - apply lang_lit_i in Hp. tauto. }
    apply negb_true_iff, orb_false_iff in Hc1 as [Hws Hex].
    split; [done|]. split.
    { intros Hin%existsb_eqb_elem_of. congruence. }
    split; [by apply negb_true_iff|]. by apply forallb_notWs.
  - intros (p & c1 & c2 & rest & -> & Hp & Hws & Hex & Hc2 & Hrest).
    exists p, (c1 :: c2 :: rest). split; [done|]. split.
    { destruct Hp as [Hp|[Hp|Hp]].
      - left. apply lang_scheme. tauto.
      - left. apply lang_scheme. tauto.
      - right. by apply lang_lit_i. }
    exists [c1], (c2 :: rest). split; [done|]. split.
    { exists c1. split; [done|]. apply negb_true_iff, orb_false_iff.
      split; [done|]. apply not_true_is_false.
      by intros Hin%existsb_eqb_elem_of. }
    exists [c2], rest. split; [done|]. split.
    { exists c2. split; [done|]. by apply negb_true_iff. }
    by apply forallb_notWs.
Qed.

End UrlRule.

(* ================================================================= *)
(** ** Classifier contract *)

Lemma dropWhile_snoc_keeps p l c :
  p c = false → JS.dropWhile p (l ++ [c]) ≠ [].
Proof.
  intros Hc. induction l as [|x l IH]; simpl.
  - by rewrite Hc.
  - destruct (p x); [exact IH | discriminate].
Qed.

Lemma trim_nonblank_head c l :
  JS.isWhiteSpace c = false → JS.trim (c :: l) ≠ [].
Proof.
  intros Hc. unfold JS.trim. simpl JS.dropWhile at 2. rewrite Hc.
  simpl rev at 2. intros H.
  apply (f_equal (@length ascii)) in H. rewrite length_rev in H.
  apply nil_length_inv in H. revert H.
  destruct (rev l) as [|y r] eqn:Hr; simpl.
  - by rewrite Hc.
  - destruct (JS.isWhiteSpace y); [|discriminate].
    by apply dropWhile_snoc_keeps.
Qed.

Lemma isBlank_trim content :
  isBlank content = true ↔ JS.trim (JS.chars content) = [].
Proof. unfold isBlank. destruct (JS.trim _); split; congruence. Qed.

Lemma looksLikeCode_spec content :
  looksLikeCode content = true ↔
  let lines := JS.splitLines (JS.chars content) in
  let indented := filter (λ line, isIndented line = true) lines in
  (3 ≤ indicatorCount content ∨ 3 < length lines ∧ 1 < length indented)%nat.
Proof.
  unfold looksLikeCode. cbv zeta.
  rewrite orb_true_iff, andb_true_iff, Nat.leb_le, !Nat.ltb_lt. tauto.
Qed.

Lemma isBlank_marked rest : isBlank (imageMarker +:+ rest) = false.
Proof.
  apply not_true_is_false. intros H%isBlank_trim. revert H.
  change (JS.chars (imageMarker +:+ rest))
    with ("d"%char :: JS.chars ("ata:image/" +:+ rest)).
  apply trim_nonblank_head. reflexivity.
Qed.

Lemma categorizeContent_marked rest :
  categorizeContent (imageMarker +:+ rest) = "image".
Proof. unfold categorizeContent. rewrite isBlank_marked. reflexivity. Qed.

(** C5 (as stated, refuted).  With the URL rule read as the claim words
    it, "http/https scheme or leading www., no embedded whitespace", the
    classifier and the claim part ways: a string with a space inside is
    classified [url], and a string with the scheme and no whitespace at
    all is not. *)
Lemma C5_url_wording_counterexample :
  (categorizeContent "http://a b" = "url" ∧ Spec.urlPattern "http://a b" = false
   ∧ Spec.classify "http://a b" = "text")
  ∧ (categorizeContent "http://a" = "text" ∧ Spec.urlPattern "http://a" = true
     ∧ Spec.classify "http://a" = "url").
Proof. repeat apply conj; vm_compute; reflexivity. Qed.

(** C5 (amended).  [categorizeContent] is decided by the first rule that
    applies, in this order: blank content is [text]; content that begins
    with the marker [data:image/] is [image]; content whose trimmed form
    has the shape of [urlShape] is [url]; content with three or more of
    the code indicators, or with more than three lines of which more than
    one is indented, is [code]; anything else is [text].  The four
    examples of Scenario D come out as the claim says. *)
Theorem categorizeContent_first_match (content : string) :
  let t := JS.trim (JS.chars content) in
  let marked := JS.startsWith (JS.chars imageMarker) (JS.chars content) in
  let lines := JS.splitLines (JS.chars content) in
  let indented := filter (λ line, isIndented line = true) lines in
  let scored :=
    (3 ≤ indicatorCount content ∨ 3 < length lines ∧ 1 < length indented)%nat in
  (t = [] → categorizeContent content = "text")
  ∧ (t ≠ [] → marked = true → categorizeContent content = "image")
  ∧ (t ≠ [] → marked = false → urlShape t → categorizeContent content = "url")
  ∧ (t ≠ [] → marked = false → ¬ urlShape t → scored →
     categorizeContent content = "code")
  ∧ (t ≠ [] → marked = false → ¬ urlShape t → ¬ scored →
     categorizeContent content = "text")
  ∧ categorizeContent "https://example.com" = "url"
  ∧ categorizeContent "function f(){return 1;}" = "code"
  ∧ categorizeContent "" = "text"
  ∧ (∀ rest, categorizeContent (imageMarker +:+ rest) = "image").
Proof.
  cbv zeta.
  pose proof (isBlank_trim content) as Hblank.
  pose proof (urlRegex_shape (JS.trim (JS.chars content))) as Hurl.
  pose proof (looksLikeCode_spec content) as Hcode. cbv zeta in Hcode.
  repeat apply conj; try (unfold categorizeContent at 1).
  - intros Ht. apply Hblank in Ht. by rewrite Ht.
  - intros Ht Hm. destruct (isBlank content); [by destruct Ht; apply Hblank|].
    by rewrite Hm.
  - intros Ht Hm Hu. destruct (isBlank content); [by destruct Ht; apply Hblank|].
    rewrite Hm. apply Hurl in Hu. by rewrite Hu.
  - intros Ht Hm Hu Hs. destruct (isBlank content); [by destruct Ht; apply Hblank|].
    rewrite Hm. destruct (Regex.test urlRegex _); [by destruct Hu; apply Hurl|].
    apply Hcode in Hs. by rewrite Hs.
  - intros Ht Hm Hu Hs. destruct (isBlank content); [by destruct Ht; apply Hblank|].
    rewrite Hm. destruct (Regex.test urlRegex _); [by destruct Hu; apply Hurl|].
    destruct (looksLikeCode content); [by destruct Hs; apply Hcode|done].
  - vm_compute; reflexivity.
  - vm_compute; reflexivity.
  - vm_compute; reflexivity.
  - apply categorizeContent_marked.
Qed.

(** The URL rule at work on Scenario D's first example. *)
Lemma categorizeContent_first_match_witness :
  categorizeContent "https://example.com" = "url".
Proof.
  pose proof (categorizeContent_first_match "https://example.com") as H.
  cbv zeta in H. destruct H as (_ & _ & H & _). apply H.
  - vm_compute. discriminate.
  - vm_compute. reflexivity.
  - exists (JS.chars "https://"), "e"%char, "x"%char, (JS.chars "ample.com").
    split; [vm_compute; reflexivity|].
    split; [right; left; reflexivity|].
    split; [vm_compute; reflexivity|].
    split; [rewrite !elem_of_cons, elem_of_nil; intros Hin; intuition discriminate|].
    split; [vm_compute; reflexivity|].
    repeat constructor.
Defined.

(* ================================================================= *)
(** ** The operations, case by case *)

Ltac eff_unfold :=
  unfold bind, ret, get, sendMessage, modifyHeap, setItems, setFavorites,
    setLastClipboardText, setLimits, newObject, saveClipboardData.

Ltac eff_simpl := eff_unfold; cbn [value state sent heap items favorites
  lastClipboardText MAX_HISTORY_ITEMS maxTextLength maxImageSize app].

Lemma length_slice0_le {A} (arr : list A) n :
  (length (slice0 arr n) ≤ length arr)%nat.
Proof. unfold slice0. destruct (n <? 0); rewrite length_take; lia. Qed.

Lemma length_slice0 {A} (arr : list A) n :
  0 ≤ n → Z.of_nat (length (slice0 arr n)) ≤ n.
Proof.
  intros Hn. unfold slice0. destruct (Z.ltb_spec n 0); [lia|].
  rewrite length_take. lia.
Qed.

Lemma limitHistory_spec s :
  limitHistory s =
  mkRes tt (mkState (heap s) (limited (MAX_HISTORY_ITEMS s) (items s))
              (favorites s) (lastClipboardText s) (MAX_HISTORY_ITEMS s)
              (maxTextLength s) (maxImageSize s)) [].
Proof.
  unfold limitHistory, limited. eff_simpl.
  destruct (_ >? _); eff_simpl; [done|]. by destruct s.
Qed.

Lemma length_limited maxItems arr :
  0 ≤ maxItems → Z.of_nat (length (limited maxItems arr)) ≤ maxItems.
Proof.
  intros H. unfold limited. destruct (Z.gtb_spec (Z.of_nat (length arr)) maxItems).
  - by apply length_slice0.
  - done.
Qed.

Lemma length_limited_le maxItems arr :
  (length (limited maxItems arr) ≤ length arr)%nat.
Proof.
  unfold limited. destruct (_ >? _); [apply length_slice0_le|done].
Qed.

Lemma limited_id maxItems arr :
  Z.of_nat (length arr) ≤ maxItems → limited maxItems arr = arr.
Proof.
  intros H. unfold limited.
  destruct (Z.gtb_spec (Z.of_nat (length arr)) maxItems); [lia|done].
Qed.

Lemma processClipboardContent_blank newId now content s :
  isBlank content = true →
  processClipboardContent newId now content s = mkRes None s [].
Proof. intros H. unfold processClipboardContent. eff_simpl. by rewrite H. Qed.

Lemma processClipboardContent_same newId now content s :
  content = lastClipboardText s →
  processClipboardContent newId now content s = mkRes None s [].
Proof.
  intros H. unfold processClipboardContent. eff_simpl.
  destruct (isBlank content); [done|].
  apply String.eqb_eq in H. by rewrite H.
Qed.

Lemma processClipboardContent_reject newId now content s :
  isBlank content = false →
  content ≠ lastClipboardText s →
  Z.of_nat (String.length content) > maxTextLength s →
  processClipboardContent newId now content s =
  mkRes None s [mkMessage "showNotification" (Some "warning")].
Proof.
  intros Hb Hne Hlen. unfold processClipboardContent. eff_simpl.
  rewrite Hb. apply String.eqb_neq in Hne. rewrite Hne.
  destruct (Z.gtb_spec (Z.of_nat (String.length content)) (maxTextLength s)); [|lia].
  unfold handleShowNotification. eff_simpl. done.
Qed.

Lemma processClipboardContent_commit newId now content s :
  isBlank content = false →
  content ≠ lastClipboardText s →
  Z.of_nat (String.length content) ≤ maxTextLength s →
  let newItem := mkItem newId content (categorizeContent content) now false
                   (Chars (String.length content)) in
  let h := heap s ++ [newItem] in
  processClipboardContent newId now content s =
  mkRes (Some (length (heap s)))
    (mkState h
       (limited (MAX_HISTORY_ITEMS s) (promoted s content (length (heap s)) h))
       (favorites s) content (MAX_HISTORY_ITEMS s) (maxTextLength s)
       (maxImageSize s))
    [mkMessage "clipboardDataUpdated" None; mkMessage "clipboardUpdated" None;
     mkMessage "refreshClipboardData" None].
Proof.
  intros Hb Hne Hlen. cbv zeta. unfold processClipboardContent. eff_simpl.
  rewrite Hb. apply String.eqb_neq in Hne. rewrite Hne.
  destruct (Z.gtb_spec (Z.of_nat (String.length content)) (maxTextLength s)); [lia|].
  eff_simpl. unfold findIndex, promoted, deref.
  cbn [heap items].
  destruct (list_find _ (items s)) as [[i l]|]; cbn [fmap option_fmap option_map fst];
    eff_simpl; rewrite limitHistory_spec; eff_simpl;
    unfold broadcastClipboardUpdate; eff_simpl; done.
Qed.

Lemma processClipboardImage_invalid newId now dataUrl s :
  JS.startsWith (JS.chars imageMarker) (JS.chars dataUrl) = false →
  processClipboardImage newId now dataUrl s = mkRes tt s [].
Proof. intros H. unfold processClipboardImage. eff_simpl. by rewrite H. Qed.

Lemma processClipboardImage_duplicate newId now dataUrl s :
  dataUrl ∈ (content <$> itemsOf s) →
  processClipboardImage newId now dataUrl s = mkRes tt s [].
Proof.
  intros H. unfold processClipboardImage. eff_simpl.
  destruct (negb _); [done|].
  rewrite bool_decide_eq_true_2; [done|].
  apply Exists_exists. unfold itemsOf in H. rewrite <- list_fmap_compose in H.
  apply list_elem_of_fmap in H as (l & -> & Hl). by exists l.
Qed.

Lemma processClipboardImage_reject newId now dataUrl s :
  JS.startsWith (JS.chars imageMarker) (JS.chars dataUrl) = true →
  dataUrl ∉ (content <$> itemsOf s) →
  imageSizeKB dataUrl > maxImageSize s →
  processClipboardImage newId now dataUrl s =
  mkRes tt s [mkMessage "showNotification" (Some "warning")].
Proof.
  intros Hm Hnew Hsize. unfold processClipboardImage. eff_simpl.
  rewrite Hm. cbn [negb]. rewrite bool_decide_eq_false_2.
  - destruct (Z.gtb_spec (imageSizeKB dataUrl) (maxImageSize s)); [|lia].
    unfold handleShowNotification. by eff_simpl.
  - intros (l & Hl & Hc)%Exists_exists. apply Hnew.
    unfold itemsOf. rewrite <- list_fmap_compose.
    apply list_elem_of_fmap. by exists l.
Qed.

Lemma processClipboardImage_commit newId now dataUrl s :
  JS.startsWith (JS.chars imageMarker) (JS.chars dataUrl) = true →
  dataUrl ∉ (content <$> itemsOf s) →
  imageSizeKB dataUrl ≤ maxImageSize s →
  processClipboardImage newId now dataUrl s =
  mkRes tt
    (mkState
       (heap s ++ [mkItem newId dataUrl "image" now false
                     (KiloBytes (imageSizeKB dataUrl))])
       (limited (MAX_HISTORY_ITEMS s) (length (heap s) :: items s))
       (favorites s) (lastClipboardText s) (MAX_HISTORY_ITEMS s)
       (maxTextLength s) (maxImageSize s))
    [mkMessage "clipboardDataUpdated" None].
Proof.
  intros Hm Hnew Hsize. unfold processClipboardImage. eff_simpl.
  rewrite Hm. cbn [negb]. rewrite bool_decide_eq_false_2.
  - destruct (Z.gtb_spec (imageSizeKB dataUrl) (maxImageSize s)); [lia|].
    eff_simpl. rewrite limitHistory_spec. by eff_simpl.
  - intros (l & Hl & Hc)%Exists_exists. apply Hnew.
    unfold itemsOf. rewrite <- list_fmap_compose.
    apply list_elem_of_fmap. by exists l.
Qed.

Lemma handleToggleFavorite_absent itemId s :
  list_find (λ l, (deref s l).(id) = itemId) (items s) = None →
  handleToggleFavorite itemId s = mkRes false s [].
Proof. intros H. unfold handleToggleFavorite. eff_simpl. by rewrite H. Qed.

Lemma handleToggleFavorite_found itemId s i l :
  list_find (λ l, (deref s l).(id) = itemId) (items s) = Some (i, l) →
  let h := alter flipFavorite l (heap s) in
  handleToggleFavorite itemId s =
  mkRes true
    (mkState h (items s)
       (filter (λ l, (h !!! l).(isFavorite) = true) (items s))
       (lastClipboardText s) (MAX_HISTORY_ITEMS s) (maxTextLength s)
       (maxImageSize s)) [].
Proof.
  intros H. unfold handleToggleFavorite. eff_simpl. rewrite H. by eff_simpl.
Qed.

Lemma handleDeleteItem_spec itemId s :
  handleDeleteItem itemId s =
  mkRes true
    (mkState (heap s)
       (filter (λ l, (deref s l).(id) ≠ itemId) (items s))
       (filter (λ l, (deref s l).(id) ≠ itemId) (favorites s))
       (lastClipboardText s) (MAX_HISTORY_ITEMS s) (maxTextLength s)
       (maxImageSize s)) [].
Proof. unfold handleDeleteItem. by eff_simpl. Qed.

Lemma handleAddNewItem_spec newId now item s :
  let l := length (heap s) in
  handleAddNewItem newId now item s =
  mkRes l
    (mkState
       (heap s ++ [mkItem newId (newContent item) (addedType item) now
                     (newIsFavorite item)
                     (Chars (String.length (newContent item)))])
       (limited (MAX_HISTORY_ITEMS s) (l :: items s))
       (if newIsFavorite item then l :: favorites s else favorites s)
       (lastClipboardText s) (MAX_HISTORY_ITEMS s) (maxTextLength s)
       (maxImageSize s)) [].
Proof.
  cbv zeta. unfold handleAddNewItem. eff_simpl.
  destruct (newIsFavorite item); eff_simpl; rewrite limitHistory_spec;
    by eff_simpl.
Qed.

Lemma handleClearAll_spec s :
  handleClearAll s =
  mkRes true
    (mkState (heap s) [] [] (lastClipboardText s) (MAX_HISTORY_ITEMS s)
       (maxTextLength s) (maxImageSize s)) [].
Proof. unfold handleClearAll. by eff_simpl. Qed.

Lemma handleMoveItemToTop_absent now itemId s :
  list_find (λ l, (deref s l).(id) = itemId) (items s) = None →
  handleMoveItemToTop now itemId s = mkRes false s [].
Proof. intros H. unfold handleMoveItemToTop. eff_simpl. by rewrite H. Qed.

Lemma handleMoveItemToTop_top now itemId s l :
  list_find (λ l, (deref s l).(id) = itemId) (items s) = Some (O, l) →
  handleMoveItemToTop now itemId s = mkRes true s [].
Proof. intros H. unfold handleMoveItemToTop. eff_simpl. by rewrite H. Qed.

Lemma handleMoveItemToTop_below now itemId s i l :
  list_find (λ l, (deref s l).(id) = itemId) (items s) = Some (S i, l) →
  handleMoveItemToTop now itemId s =
  mkRes true
    (mkState (alter (setTimestamp now) l (heap s))
       (l :: delete (S i) (items s)) (favorites s)
       (lastClipboardText s) (MAX_HISTORY_ITEMS s) (maxTextLength s)
       (maxImageSize s))
    [mkMessage "clipboardDataUpdated" None].
Proof.
  intros H. unfold handleMoveItemToTop. eff_simpl. rewrite H. by eff_simpl.
Qed.

Lemma handleDeleteMultipleItems_empty s :
  handleDeleteMultipleItems [] s =
  mkRes (DeleteError "No items to delete") s [].
Proof. done. Qed.

Lemma handleDeleteMultipleItems_spec itemIds s :
  itemIds ≠ [] →
  handleDeleteMultipleItems itemIds s =
  mkRes (DeleteOk (length itemIds))
    (mkState (heap s)
       (filter (λ l, (deref s l).(id) ∉ itemIds) (items s))
       (filter (λ l, (deref s l).(id) ∉ itemIds) (favorites s))
       (lastClipboardText s) (MAX_HISTORY_ITEMS s) (maxTextLength s)
       (maxImageSize s))
    [mkMessage "clipboardDataUpdated" None].
Proof.
  intros H. unfold handleDeleteMultipleItems. destruct itemIds; [done|].
  by eff_simpl.
Qed.

Lemma settingsUpdated_spec st s :
  settingsUpdated (Some st) s =
  mkRes tt
    (mkState (heap s) (items s) (favorites s) (lastClipboardText s)
       (JS.orDefault (maxItems st) 50)
       (JS.orDefault (settingsMaxTextLength st) 10000)
       (JS.orDefault (settingsMaxImageSize st) 1000))
    [mkMessage "settingsUpdated" None].
Proof. unfold settingsUpdated. by eff_simpl. Qed.

Lemma processClipboardContent_cases newId now content s :
  (processClipboardContent newId now content s).(state) = s
  ∨ (isBlank content = false ∧ content ≠ lastClipboardText s
     ∧ Z.of_nat (String.length content) ≤ maxTextLength s).
Proof.
  destruct (isBlank content) eqn:Hb.
  { left. by rewrite processClipboardContent_blank. }
  destruct (decide (content = lastClipboardText s)) as [He|Hne].
  { left. by rewrite processClipboardContent_same. }
  destruct (Z_le_gt_dec (Z.of_nat (String.length content)) (maxTextLength s)).
  - right. done.
  - left. by rewrite processClipboardContent_reject.
Qed.

Lemma processClipboardImage_cases newId now dataUrl s :
  (processClipboardImage newId now dataUrl s).(state) = s
  ∨ (JS.startsWith (JS.chars imageMarker) (JS.chars dataUrl) = true
     ∧ (dataUrl ∉ (content <$> itemsOf s))
     ∧ imageSizeKB dataUrl ≤ maxImageSize s).
Proof.
  destruct (JS.startsWith (JS.chars imageMarker) (JS.chars dataUrl)) eqn:Hm.
  2: { left. by rewrite processClipboardImage_invalid. }
  destruct (decide (dataUrl ∈ (content <$> itemsOf s))) as [Hin|Hnew].
  { left. by rewrite processClipboardImage_duplicate. }
  destruct (Z_le_gt_dec (imageSizeKB dataUrl) (maxImageSize s)).
  - right. done.
  - left. by rewrite processClipboardImage_reject.
Qed.

Lemma handleToggleFavorite_items itemId s :
  items (state (handleToggleFavorite itemId s)) = items s
  ∧ MAX_HISTORY_ITEMS (state (handleToggleFavorite itemId s)) = MAX_HISTORY_ITEMS s.
Proof.
  destruct (list_find (λ l, (deref s l).(id) = itemId) (items s)) as [[i l]|] eqn:H.
  - by rewrite (handleToggleFavorite_found _ _ _ _ H).
  - by rewrite (handleToggleFavorite_absent _ _ H).
Qed.

Lemma handleMoveItemToTop_length now itemId s :
  length (items (state (handleMoveItemToTop now itemId s))) = length (items s)
  ∧ MAX_HISTORY_ITEMS (state (handleMoveItemToTop now itemId s)) = MAX_HISTORY_ITEMS s.
Proof.
  destruct (list_find (λ l, (deref s l).(id) = itemId) (items s))
    as [[[|i] l]|] eqn:H.
  - by rewrite (handleMoveItemToTop_top _ _ _ _ H).
  - rewrite (handleMoveItemToTop_below _ _ _ _ _ H). cbn.
    apply list_find_Some in H as (Hl%lookup_lt_Some & _).
    rewrite length_delete by (apply lookup_lt_is_Some; lia). split; [lia|done].
  - by rewrite (handleMoveItemToTop_absent _ _ _ H).
Qed.

(* ================================================================= *)
(** ** The object store *)

Lemma fmap_alloc (h : list Item) (x : Item) (ls : list loc) :
  Forall (λ l, (l < length h)%nat) ls →
  (λ l, (h ++ [x]) !!! l) <$> ls = (λ l, h !!! l) <$> ls.
Proof.
  intros H. apply Forall_fmap_ext. eapply Forall_impl; [exact H|].
  intros l Hl. by apply lookup_total_app_l.
Qed.

Lemma filter_fmap {A B} (f : A → B) (P : B → Prop) `{!∀ y, Decision (P y)}
    (l : list A) :
  filter P (f <$> l) = f <$> filter (λ x, P (f x)) l.
Proof.
  induction l as [|x l IH]; [done|]. csimpl.
  rewrite !filter_cons. destruct (decide (P (f x))); csimpl; by rewrite IH.
Qed.

Lemma list_find_ext_Forall {A} (P Q : A → Prop)
    `{!∀ x, Decision (P x)} `{!∀ x, Decision (Q x)} (l : list A) :
  Forall (λ x, P x ↔ Q x) l → list_find P l = list_find Q l.
Proof.
  induction 1 as [|x l Hx Hl IH]; simpl; [done|].
  by rewrite (decide_ext (P x) (Q x)), IH by done.
Qed.

Lemma NoDup_delete_lookup {A} (l : list A) i x :
  NoDup l → l !! i = Some x → x ∉ delete i l.
Proof.
  intros Hnd Hi. rewrite delete_take_drop.
  rewrite <- (take_drop_middle l i x Hi) in Hnd.
  apply NoDup_app in Hnd as (_ & Hl & Hr%NoDup_cons).
  intros [Hin|Hin]%elem_of_app.
  - apply (Hl x Hin). by left.
  - by destruct Hr.
Qed.

Lemma NoDup_delete {A} (l : list A) i : NoDup l → NoDup (delete i l).
Proof. intros H. eapply sublist_NoDup; [exact H|apply sublist_delete]. Qed.

(** Writing a field of one object leaves the other fields of every
    object as they were. *)
Lemma field_alter {B} (g : Item → B) (f : Item → Item) (h : list Item)
    (l l' : nat) :
  (∀ it, g (f it) = g it) →
  g (alter f l h !!! l') = g (h !!! l').
Proof.
  intros Hf. rewrite !list_lookup_total_alt, list_lookup_alter.
  destruct (decide (l = l')) as [->|]; [|done].
  destruct (h !! l'); cbn; [apply Hf|done].
Qed.

Lemma fmap_alter_other (f : Item → Item) (h : list Item) (l : nat)
    (ls : list nat) :
  l ∉ ls → (λ l', alter f l h !!! l') <$> ls = (λ l', h !!! l') <$> ls.
Proof.
  intros Hl. apply Forall_fmap_ext, Forall_forall. intros l' Hl'.
  apply list_lookup_total_alter_ne. intros ->. by apply Hl.
Qed.

(* ================================================================= *)
(** ** Well-formed stores *)

Lemma limited_take maxItems (arr : list nat) :
  ∃ k, limited maxItems arr = take k arr.
Proof.
  unfold limited, slice0. destruct (_ >? _).
  - destruct (_ <? _); eauto.
  - exists (length arr). by rewrite take_ge.
Qed.

Lemma Forall_limited (P : nat → Prop) maxItems arr :
  Forall P arr → Forall P (limited maxItems arr).
Proof.
  destruct (limited_take maxItems arr) as [k ->]. apply Forall_take.
Qed.

Lemma NoDup_limited maxItems (arr : list nat) :
  NoDup arr → NoDup (limited maxItems arr).
Proof.
  destruct (limited_take maxItems arr) as [k ->].
  intros H. eapply sublist_NoDup; [exact H|apply sublist_take].
Qed.

Lemma Forall_lt_grow (n : nat) (ls : list nat) :
  Forall (λ l, (l < n)%nat) ls → Forall (λ l, (l < S n)%nat) ls.
Proof. intros H. eapply Forall_impl; [exact H|]. cbn. intros; lia. Qed.

Lemma fresh_not_in (n : nat) (ls : list nat) :
  Forall (λ l, (l < n)%nat) ls → n ∉ ls.
Proof.
  intros H Hin. eapply Forall_forall in H; [|exact Hin]. lia.
Qed.

Lemma Forall_filter_sub {A} (P : A → Prop) (Q : A → Prop)
    `{!∀ x, Decision (Q x)} (l : list A) :
  Forall P l → Forall P (filter Q l).
Proof.
  rewrite !Forall_forall. intros Hl x [_ Hx]%list_elem_of_filter. auto.
Qed.

Lemma wf_insert (s : State) (it : Item) (rest : list nat) (favs : list nat)
    (t : string) (m1 m2 m3 : Z) :
  Forall (λ l, (l < length (heap s))%nat) rest → NoDup rest →
  Forall (λ l, (l < S (length (heap s)))%nat) favs →
  wf (mkState (heap s ++ [it]) (limited m1 (length (heap s) :: rest))
        favs t m1 m2 m3).
Proof.
  intros Hrest Hnd Hfav. constructor; cbn [heap items favorites];
    rewrite ?length_app, ?Nat.add_1_r.
  - apply Forall_limited. constructor; [lia|]. by apply Forall_lt_grow.
  - done.
  - apply NoDup_limited. constructor; [|done]. by apply fresh_not_in.
Qed.

(** Every operation keeps the store well formed. *)
Lemma step_wf (op : Op) (s : State) : wf s → wf (step op s).
Proof.
  intros Hwf. pose proof Hwf as [Hit Hfav Hnd]. unfold step.
  destruct op as [i t c|i t d|i t it|i|i|ids|t i| |st]; cbn [run fst].
  - destruct (processClipboardContent_cases i t c s) as [->|(Hb & Hne & Hlen)];
      [done|].
    rewrite (processClipboardContent_commit _ _ _ _ Hb Hne Hlen). cbn [state].
    unfold promoted.
    destruct (list_find _ (items s)) as [[k l]|].
    + apply wf_insert; [by apply Forall_delete|by apply NoDup_delete|
                        by apply Forall_lt_grow].
    + apply wf_insert; [done..|by apply Forall_lt_grow].
  - destruct (processClipboardImage_cases i t d s) as [->|(Hm & Hnew & Hsz)];
      [done|].
    rewrite (processClipboardImage_commit _ _ _ _ Hm Hnew Hsz). cbn [state].
    apply wf_insert; [done..|by apply Forall_lt_grow].
  - rewrite handleAddNewItem_spec. cbn [state].
    apply wf_insert; [done..|].
    destruct (newIsFavorite it); [|by apply Forall_lt_grow].
    constructor; [lia|by apply Forall_lt_grow].
  - destruct (list_find (λ l, (deref s l).(id) = i) (items s)) as [[k l]|] eqn:H.
    + rewrite (handleToggleFavorite_found _ _ _ _ H). cbn [state].
      constructor; cbn [heap items favorites]; rewrite ?length_alter; try done.
      by apply Forall_filter_sub.
    + by rewrite (handleToggleFavorite_absent _ _ H).
  - rewrite handleDeleteItem_spec. cbn [state].
    constructor; cbn [heap items favorites].
    + by apply Forall_filter_sub.
    + by apply Forall_filter_sub.
    + by apply NoDup_filter.
  - destruct ids as [|x ids]; [done|].
    rewrite handleDeleteMultipleItems_spec by done. cbn [state].
    constructor; cbn [heap items favorites].
    + by apply Forall_filter_sub.
    + by apply Forall_filter_sub.
    + by apply NoDup_filter.
  - destruct (list_find (λ l, (deref s l).(id) = i) (items s))
      as [[[|k] l]|] eqn:H.
    + by rewrite (handleMoveItemToTop_top _ _ _ _ H).
    + rewrite (handleMoveItemToTop_below _ _ _ _ _ H). cbn [state].
      apply list_find_Some in H as (Hk & _ & _).
      constructor; cbn [heap items favorites]; rewrite ?length_alter.
      * constructor; [|by apply Forall_delete].
        eapply Forall_lookup_1 in Hit; [|exact Hk]. done.
      * done.
      * constructor; [by eapply NoDup_delete_lookup|by apply NoDup_delete].
    + by rewrite (handleMoveItemToTop_absent _ _ _ H).
  - rewrite handleClearAll_spec. constructor; cbn; constructor.
  - destruct st as [st|]; [|done]. rewrite settingsUpdated_spec.
    by constructor.
Qed.

Lemma exec_snoc ops op s : exec (ops ++ [op]) s = step op (exec ops s).
Proof. unfold exec. by rewrite foldl_app. Qed.

(** Every reachable store is well formed. *)
Lemma reachable_wf (s : State) : reachable s → wf s.
Proof.
  intros [ops ->]. induction ops as [|op ops IH] using rev_ind.
  - constructor; cbn; constructor.
  - rewrite exec_snoc. by apply step_wf.
Qed.

(** Closes [wf] on a concrete state. *)
Ltac solve_wf :=
  constructor; vm_compute;
  repeat first [ apply Forall_nil_2 | apply Forall_cons_2 | apply NoDup_nil_2
               | apply NoDup_cons_2 | apply le_n | apply le_S
               | (rewrite ?elem_of_cons, elem_of_nil; intros H; intuition discriminate) ].

(* ================================================================= *)
(** ** Size bound *)

(** C2 (as stated, refuted).  Two captures, then the limit is lowered to
    1 at runtime, then a favourite is toggled: the toggle completes with
    two items in a history limited to one. *)
Lemma C2_bound_counterexample :
  let s := exec [Capture "i1" 1 "a"; Capture "i2" 2 "b";
                 UpdateSettings (Some (mkSettings (Some 1) None None));
                 ToggleFavorite "i1"] initialState in
  ¬ (Z.of_nat (length (items s)) ≤ MAX_HISTORY_ITEMS s).
Proof. vm_compute. intros H. by apply H. Qed.

(** C2 (amended).  For a limit that is not negative: an insertion that
    creates an item (capture, image capture, manual add) leaves at most
    [MAX_HISTORY_ITEMS] items, the limit being the one in force at that
    insertion; no other operation makes the history longer; and so every
    operation other than a change of settings keeps the bound once it
    holds.  A change of settings leaves the history as it is: a lowered
    limit trims nothing by itself. *)
Theorem history_bound (op : Op) (s : State) :
  0 ≤ MAX_HISTORY_ITEMS s →
  let s' := step op s in
  (isInsertion op = true → heap s' ≠ heap s →
   Z.of_nat (length (items s')) ≤ MAX_HISTORY_ITEMS s)
  ∧ (isInsertion op = false → (length (items s') ≤ length (items s))%nat)
  ∧ ((∀ st, op ≠ UpdateSettings st) →
     Z.of_nat (length (items s)) ≤ MAX_HISTORY_ITEMS s →
     Z.of_nat (length (items s')) ≤ MAX_HISTORY_ITEMS s')
  ∧ (∀ st, op = UpdateSettings st → items s' = items s).
Proof.
  intros Hmax. cbv zeta. unfold step.
  destruct op as [i t c|i t d|i t it|i|i|ids|t i| |st]; cbn [run fst isInsertion].
  - destruct (processClipboardContent_cases i t c s) as [->|(Hb & Hne & Hlen)].
    { repeat split; try done. }
    rewrite (processClipboardContent_commit _ _ _ _ Hb Hne Hlen). cbn.
    repeat split; try done; intros; by apply length_limited.
  - destruct (processClipboardImage_cases i t d s) as [->|(Hm & Hnew & Hsz)].
    { repeat split; try done. }
    rewrite (processClipboardImage_commit _ _ _ _ Hm Hnew Hsz). cbn.
    repeat split; try done; intros; by apply length_limited.
  - rewrite handleAddNewItem_spec. cbn.
    repeat split; try done; intros; by apply length_limited.
  - destruct (handleToggleFavorite_items i s) as [-> ->].
    repeat split; try done.
  - rewrite handleDeleteItem_spec. cbn.
    pose proof (length_filter (λ l, id (deref s l) ≠ i) (items s)).
    repeat split; try done; intros; lia.
  - destruct ids as [|x ids]; [by rewrite handleDeleteMultipleItems_empty|].
    rewrite handleDeleteMultipleItems_spec by done. cbn.
    pose proof (length_filter (λ l, id (deref s l) ∉ x :: ids) (items s)).
    repeat split; try done; intros; lia.
  - destruct (handleMoveItemToTop_length t i s) as [-> ->].
    repeat split; try done.
  - rewrite handleClearAll_spec. cbn. repeat split; try done; intros; lia.
  - repeat split; try done.
    + intros _. destruct st as [st|]; [by rewrite settingsUpdated_spec|done].
    + intros H. by destruct (H st).
    + intros _ _. destruct st as [st|]; [by rewrite settingsUpdated_spec|done].
Qed.

(** The bound after the captures of Scenario A: "x", "y", "z" with a
    limit of 2. *)
Lemma history_bound_witness :
  let s := exec [UpdateSettings (Some (mkSettings (Some 2) None None));
                 Capture "i1" 1 "x"; Capture "i2" 2 "y"] initialState in
  let s' := step (Capture "i3" 3 "z") s in
  Z.of_nat (length (items s')) ≤ MAX_HISTORY_ITEMS s
  ∧ content <$> itemsOf s' = ["z"; "y"].
Proof.
  cbv zeta. split.
  - refine (proj1 (history_bound (Capture "i3" 3 "z") _ _) _ _).
    + vm_compute. discriminate.
    + reflexivity.
    + vm_compute. discriminate.
  - vm_compute. reflexivity.
Defined.

(* ================================================================= *)
(** ** Content uniqueness *)

(** Every path but the manual add keeps contents unique. *)

Lemma contents_items (s : State) :
  content <$> itemsOf s = (λ l, content (heap s !!! l)) <$> items s.
Proof. unfold itemsOf, deref. by rewrite <- list_fmap_compose. Qed.

Lemma contents_alter (f : Item → Item) (h : list Item) (l : nat)
    (ls : list nat) :
  (∀ it, content (f it) = content it) →
  (λ l', content (alter f l h !!! l')) <$> ls
  = (λ l', content (h !!! l')) <$> ls.
Proof.
  intros Hf. apply list_fmap_ext. intros _ l' _. by apply (field_alter content).
Qed.

Lemma unique_insert (s : State) (it : Item) (rest favs : list nat)
    (t : string) (m1 m2 m3 : Z) :
  Forall (λ l, (l < length (heap s))%nat) rest →
  NoDup (content it :: ((λ l, content (heap s !!! l)) <$> rest)) →
  uniqueContents
    (mkState (heap s ++ [it]) (limited m1 (length (heap s) :: rest))
       favs t m1 m2 m3).
Proof.
  intros Hrest Hnd. unfold uniqueContents. rewrite contents_items.
  cbn [heap items].
  destruct (limited_take m1 (length (heap s) :: rest)) as [k ->].
  rewrite fmap_take. eapply sublist_NoDup; [|apply sublist_take].
  csimpl. rewrite list_lookup_total_middle by done.
  assert ((λ l, content ((heap s ++ [it]) !!! l)) <$> rest
          = (λ l, content (heap s !!! l)) <$> rest) as ->; [|done].
  apply Forall_fmap_ext. eapply Forall_impl; [exact Hrest|].
  intros l Hl. cbn beta. by rewrite lookup_total_app_l.
Qed.

(** Every operation other than the manual add keeps contents unique. *)
Lemma step_unique (op : Op) (s : State) :
  wf s → uniqueContents s →
  (∀ newId now item, op ≠ Add newId now item) →
  uniqueContents (step op s).
Proof.
  intros [Hit Hfav Hnd] Huniq Hop. unfold step.
  pose proof Huniq as Hu. unfold uniqueContents in Hu.
  rewrite contents_items in Hu.
  destruct op as [i t c|i t d|i t it|i|i|ids|t i| |st]; cbn [run fst].
  - destruct (processClipboardContent_cases i t c s) as [->|(Hb & Hne & Hlen)];
      [done|].
    rewrite (processClipboardContent_commit _ _ _ _ Hb Hne Hlen). cbn [state].
    unfold promoted.
    rewrite (list_find_ext_Forall _ (λ l, content (heap s !!! l) = c)).
    2: { eapply Forall_impl; [exact Hit|]. intros l Hl. unfold contentOf.
         cbn beta. by rewrite lookup_total_app_l. }
    destruct (list_find _ (items s)) as [[k l]|] eqn:Hfind.
    + apply list_find_Some in Hfind as (Hk & Hc & _).
      apply unique_insert; [by apply Forall_delete|]. cbn [content].
      rewrite list_fmap_delete. constructor; [|by apply NoDup_delete].
      apply NoDup_delete_lookup; [done|].
      rewrite list_lookup_fmap, Hk. cbn. by rewrite Hc.
    + apply list_find_None in Hfind.
      apply unique_insert; [done|]. cbn [content]. constructor; [|done].
      intros (l & Hc & Hl)%list_elem_of_fmap.
      eapply Forall_forall in Hfind; [|exact Hl]. by apply Hfind.
  - destruct (processClipboardImage_cases i t d s) as [->|(Hm & Hnew & Hsz)];
      [done|].
    rewrite (processClipboardImage_commit _ _ _ _ Hm Hnew Hsz). cbn [state].
    apply unique_insert; [done|]. cbn [content]. constructor; [|done].
    by rewrite <- contents_items.
  - by destruct (Hop i t it).
  - destruct (list_find (λ l, (deref s l).(id) = i) (items s)) as [[k l]|] eqn:H.
    + rewrite (handleToggleFavorite_found _ _ _ _ H). cbn [state].
      unfold uniqueContents. rewrite contents_items. cbn [heap items].
      by rewrite contents_alter.
    + by rewrite (handleToggleFavorite_absent _ _ H).
  - rewrite handleDeleteItem_spec. cbn [state].
    unfold uniqueContents. rewrite contents_items. cbn [heap items].
    eapply sublist_NoDup; [exact Hu|]. apply fmap_sublist, sublist_filter.
  - destruct ids as [|x ids]; [done|].
    rewrite handleDeleteMultipleItems_spec by done. cbn [state].
    unfold uniqueContents. rewrite contents_items. cbn [heap items].
    eapply sublist_NoDup; [exact Hu|]. apply fmap_sublist, sublist_filter.
  - destruct (list_find (λ l, (deref s l).(id) = i) (items s))
      as [[[|k] l]|] eqn:H.
    + by rewrite (handleMoveItemToTop_top _ _ _ _ H).
    + rewrite (handleMoveItemToTop_below _ _ _ _ _ H). cbn [state].
      apply list_find_Some in H as (Hk & _ & _).
      unfold uniqueContents. rewrite contents_items. cbn [heap items].
      rewrite contents_alter by done.
      by rewrite <- (delete_Permutation (items s) (S k) l Hk).
    + by rewrite (handleMoveItemToTop_absent _ _ _ H).
  - rewrite handleClearAll_spec. unfold uniqueContents. cbn. constructor.
  - destruct st as [st|]; [|done]. by rewrite settingsUpdated_spec.
Qed.

(** Without manual adds, every reachable history has unique contents. *)
Lemma unique_without_add (ops : list Op) :
  Forall (λ op, ∀ newId now item, op ≠ Add newId now item) ops →
  uniqueContents (exec ops initialState).
Proof.
  induction ops as [|op ops IH] using rev_ind; intros Hops.
  - unfold uniqueContents. cbn. constructor.
  - apply Forall_app in Hops as [Hops Hop].
    apply Forall_cons in Hop as [Hop _].
    rewrite exec_snoc. apply step_unique; [|by apply IH|exact Hop].
    apply reachable_wf. by exists ops.
Qed.

(** C1, at the failing input.  Two manual adds of the same content leave
    two items with that content: [handleAddNewItem] does not look for an
    existing item the way the capture paths do. *)
Theorem manual_add_duplicates_content :
  let s := exec [Add "i1" 1 (mkNewItem "a" None false);
                 Add "i2" 2 (mkNewItem "a" None false)] initialState in
  reachable s ∧ content <$> itemsOf s = ["a"; "a"] ∧ ¬ uniqueContents s.
Proof.
  repeat apply conj.
  - eexists; reflexivity.
  - vm_compute; reflexivity.
  - unfold uniqueContents. vm_compute. intros [Hn _]%NoDup_cons.
    apply Hn. apply list_elem_of_here.
Qed.

(* ================================================================= *)
(** ** Promote law *)

(** C3 (as stated, refuted).  Scenario B on the text path: the second
    capture of "hello" returns at the comparison with the last clipboard
    text, so the one item keeps the timestamp of the first capture.  On
    the image path a content that is already in the history is skipped
    and nothing moves to the front. *)
Lemma C3_promote_counterexample :
  (let s1 := step (Capture "i1" 1 "hello") initialState in
   let s2 := step (Capture "i2" 2 "hello") s1 in
   s2 = s1 ∧ timestamp <$> itemsOf s2 = [1])
  ∧ (let s1 := exec [CaptureImage "i1" 1 "data:image/png;base64,AAAA";
                     Capture "i2" 2 "note"] initialState in
     let s2 := step (CaptureImage "i3" 3 "data:image/png;base64,AAAA") s1 in
     s2 = s1 ∧ content <$> itemsOf s2 = ["note"; "data:image/png;base64,AAAA"]).
Proof. repeat apply conj; vm_compute; reflexivity. Qed.

(** C3 (amended).  In a store that holds an item with content [c] and is
    within its limit: submitting [c] through [processClipboardContent],
    when [c] is not blank, differs from the last clipboard text and is
    within [maxTextLength], takes the first item with content [c] out and
    puts a fresh record (new id, new timestamp, not favourite) at index
    0; the count is unchanged, and if contents were unique before, exactly
    one item has content [c].  Submitting the last clipboard text again
    changes nothing, and [processClipboardImage] changes nothing for a
    content that is already in the history.  ([wf] holds of every
    reachable store.) *)
Theorem promote_law (s : State) (newId : string) (now : Z) (c : string) :
  wf s →
  Z.of_nat (length (items s)) ≤ MAX_HISTORY_ITEMS s →
  c ∈ (content <$> itemsOf s) →
  let fresh := mkItem newId c (categorizeContent c) now false
                 (Chars (String.length c)) in
  (isBlank c = false → c ≠ lastClipboardText s →
   Z.of_nat (String.length c) ≤ maxTextLength s →
   let s' := step (Capture newId now c) s in
   ∃ i old,
     itemsOf s !! i = Some old ∧ content old = c
     ∧ (∀ j it, itemsOf s !! j = Some it → (j < i)%nat → content it ≠ c)
     ∧ itemsOf s' = fresh :: delete i (itemsOf s)
     ∧ length (itemsOf s') = length (itemsOf s)
     ∧ (uniqueContents s →
        filter (λ it, content it = c) (itemsOf s') = [fresh]))
  ∧ (c = lastClipboardText s →
     processClipboardContent newId now c s = mkRes None s [])
  ∧ processClipboardImage newId now c s = mkRes tt s [].
Proof.
  intros Hwf Hbound Hin. cbv zeta. split; [|split].
  2: { apply processClipboardContent_same. }
  2: { by apply processClipboardImage_duplicate. }
  intros Hb Hne Hlen. unfold step. cbn [run fst].
  rewrite (processClipboardContent_commit _ _ _ _ Hb Hne Hlen).
  cbn [state]. set (fresh := mkItem newId c _ now false _).
  set (h := heap s ++ [fresh]).
  destruct Hwf as [Hit Hfav Hnd].
  (* the search on the extended store finds what it finds on the old one *)
  assert (list_find (λ l, contentOf (h !!! l) = c) (items s)
          = list_find (λ l, content (deref s l) = c) (items s)) as Hfind.
  { apply list_find_ext_Forall. eapply Forall_impl; [exact Hit|].
    intros l Hl. unfold h, deref, contentOf. cbn beta.
    by rewrite lookup_total_app_l. }
  unfold itemsOf in Hin. rewrite <- list_fmap_compose in Hin.
  apply list_elem_of_fmap in Hin as (l0 & Hc0 & Hl0).
  destruct (list_find_elem_of (λ l, content (deref s l) = c) (items s) l0)
    as [[i l] Hil]; [done..|].
  unfold promoted. rewrite Hfind, Hil.
  apply list_find_Some in Hil as (Hi & Hc & Hmin).
  assert (length (length (heap s) :: delete i (items s)) = length (items s))
    as Hlen'.
  { cbn. rewrite length_delete by (by exists l).
    apply lookup_lt_Some in Hi. lia. }
  rewrite limited_id by (rewrite Hlen'; lia).
  assert (itemsOf
            (mkState h (length (heap s) :: delete i (items s)) (favorites s) c
               (MAX_HISTORY_ITEMS s) (maxTextLength s) (maxImageSize s))
          = fresh :: delete i (itemsOf s)) as Hview.
  { unfold itemsOf, deref. cbn [heap items]. csimpl. f_equal.
    - unfold h. apply list_lookup_total_middle. done.
    - unfold h. rewrite fmap_alloc by (by apply Forall_delete).
      apply list_fmap_delete. }
  exists i, (deref s l). rewrite Hview.
  split; [by unfold itemsOf; rewrite list_lookup_fmap, Hi|].
  split; [done|]. split.
  { intros j it Hj Hlt. unfold itemsOf in Hj. rewrite list_lookup_fmap in Hj.
    destruct (items s !! j) as [lj|] eqn:Hlj; [|done].
    injection Hj as <-. by apply (Hmin j lj). }
  split; [done|]. split.
  { cbn. rewrite length_delete; unfold itemsOf.
    - rewrite length_fmap. apply lookup_lt_Some in Hi. lia.
    - rewrite list_lookup_fmap, Hi. eauto. }
  intros Huniq. rewrite filter_cons_True by done. f_equal.
  apply (NoDup_delete_lookup _ i c) in Huniq.
  2: { unfold itemsOf. rewrite !list_lookup_fmap, Hi. cbn. by rewrite Hc. }
  rewrite <- list_fmap_delete in Huniq.
  revert Huniq. generalize (delete i (itemsOf s)). intros xs.
  induction xs as [|x xs IH]; [done|]. csimpl.
  intros [Hx Hxs]%not_elem_of_cons.
  rewrite filter_cons_False by (intros E; apply Hx; symmetry; exact E).
  by apply IH.
Qed.

(** The promote law on a store holding "world" above "hello". *)
Lemma promote_law_witness :
  let s := exec [Capture "i1" 1 "hello"; Capture "i2" 2 "world"] initialState in
  ∃ i old,
    itemsOf s !! i = Some old ∧ content old = "hello"
    ∧ itemsOf (step (Capture "i3" 3 "hello") s)
      = mkItem "i3" "hello" "text" 3 false (Chars 5) :: delete i (itemsOf s).
Proof.
  intros s.
  assert (wf s) as Hwf by solve_wf.
  assert (Z.of_nat (length (items s)) ≤ MAX_HISTORY_ITEMS s) as Hbound
    by (vm_compute; discriminate).
  assert ("hello" ∈ (content <$> itemsOf s)) as Hin
    by (vm_compute; apply list_elem_of_further, list_elem_of_here).
  destruct (proj1 (promote_law s "i3" 3 "hello" Hwf Hbound Hin))
    as (i & old & H1 & H2 & _ & H3 & _).
  - reflexivity.
  - vm_compute. discriminate.
  - vm_compute. discriminate.
  - exists i, old. auto.
Defined.

(* ================================================================= *)
(** ** Admission *)

(** C4, at the failing input.  With [maxTextLength] 10, a manual add of
    an 11-character string into the empty store is committed and no
    rejection is reported, while the capture path rejects the same string
    and leaves the store as it is. *)
Theorem manual_add_ignores_size_limit :
  let s := step (UpdateSettings (Some (mkSettings None (Some 10) None)))
             initialState in
  let oversized := "12345678901" in
  maxTextLength s = 10 ∧ String.length oversized = 11%nat
  ∧ (let r := handleAddNewItem "i1" 1 (mkNewItem oversized None false) s in
     content <$> itemsOf (state r) = [oversized] ∧ sent r = [])
  ∧ (let r := processClipboardContent "i1" 1 oversized s in
     value r = None ∧ state r = s
     ∧ sent r = [mkMessage "showNotification" (Some "warning")]).
Proof. repeat apply conj; vm_compute; reflexivity. Qed.

(** Rejection on the two capture paths: reported, and nothing changes. *)
Lemma capture_rejection_is_pure newId now content s :
  (isBlank content = false → content ≠ lastClipboardText s →
   Z.of_nat (String.length content) > maxTextLength s →
   processClipboardContent newId now content s
   = mkRes None s [mkMessage "showNotification" (Some "warning")])
  ∧ (JS.startsWith (JS.chars imageMarker) (JS.chars content) = true →
     (content ∉ (contentOf <$> itemsOf s)) →
     imageSizeKB content > maxImageSize s →
     processClipboardImage newId now content s
     = mkRes tt s [mkMessage "showNotification" (Some "warning")]).
Proof.
  split.
  - apply processClipboardContent_reject.
  - apply processClipboardImage_reject.
Qed.

(* ================================================================= *)
(** ** Favorites as a view of the items *)

(** C6, at the failing inputs.  A favourite whose content is captured
    again is taken out of [items] and replaced by a fresh record, and a
    favourite at the tail is evicted by the next insertion; in both cases
    [favorites] still holds the old object, which is no longer among the
    items. *)
Theorem favorites_diverge :
  (let s := exec [Capture "i1" 1 "a"; ToggleFavorite "i1";
                  Capture "i2" 2 "b"; Capture "i3" 3 "a"] initialState in
   reachable s
   ∧ favoritesOf s = [mkItem "i1" "a" "text" 1 true (Chars 1)]
   ∧ filter (λ it, isFavorite it = true) (itemsOf s) = []
   ∧ ¬ favoritesDerived s)
  ∧ (let s := exec [UpdateSettings (Some (mkSettings (Some 1) None None));
                    Add "i1" 1 (mkNewItem "a" None true);
                    Capture "i2" 2 "b"] initialState in
     reachable s
     ∧ content <$> itemsOf s = ["b"]
     ∧ content <$> favoritesOf s = ["a"]
     ∧ ¬ favoritesDerived s).
Proof.
  repeat apply conj; try (eexists; reflexivity); try (vm_compute; reflexivity).
  - unfold favoritesDerived. vm_compute. intros H%Permutation_length. discriminate.
  - unfold favoritesDerived. vm_compute. intros H%Permutation_length. discriminate.
Qed.

(** The paths that do keep the view: a successful toggle rebuilds
    [favorites] from [items]. *)
Lemma handleToggleFavorite_derived itemId s :
  value (handleToggleFavorite itemId s) = true →
  favoritesDerived (state (handleToggleFavorite itemId s)).
Proof.
  destruct (list_find (λ l, (deref s l).(id) = itemId) (items s)) as [[i l]|] eqn:H.
  - rewrite (handleToggleFavorite_found _ _ _ _ H). intros _.
    unfold favoritesDerived, deref. by cbn.
  - by rewrite (handleToggleFavorite_absent _ _ H).
Qed.

Lemma handleClearAll_derived s : favoritesDerived (state (handleClearAll s)).
Proof. rewrite handleClearAll_spec. unfold favoritesDerived. by cbn. Qed.

Lemma handleDeleteItem_derived itemId s :
  favoritesDerived s → favoritesDerived (state (handleDeleteItem itemId s)).
Proof.
  rewrite handleDeleteItem_spec. unfold favoritesDerived, deref. cbn.
  intros ->. rewrite !list_filter_filter.
  apply Permutation_refl'. apply list_filter_iff. tauto.
Qed.

Lemma handleDeleteMultipleItems_derived itemIds s :
  favoritesDerived s →
  favoritesDerived (state (handleDeleteMultipleItems itemIds s)).
Proof.
  destruct itemIds as [|x ids]; [done|].
  rewrite handleDeleteMultipleItems_spec by done.
  unfold favoritesDerived, deref. cbn.
  intros ->. rewrite !list_filter_filter.
  apply Permutation_refl'. apply list_filter_iff. tauto.
Qed.

(** [moveToTop] writes the timestamp of an object that [favorites] may
    hold as well; the view is kept, in a different order. *)
Lemma handleMoveItemToTop_derived now itemId s :
  favoritesDerived s →
  favoritesDerived (state (handleMoveItemToTop now itemId s)).
Proof.
  intros Hd.
  destruct (list_find (λ l, (deref s l).(id) = itemId) (items s))
    as [[[|k] l]|] eqn:H.
  - by rewrite (handleMoveItemToTop_top _ _ _ _ H).
  - rewrite (handleMoveItemToTop_below _ _ _ _ _ H).
    apply list_find_Some in H as (Hk & _ & _).
    unfold favoritesDerived, deref in *. cbn [state heap items favorites].
    rewrite Hd.
    rewrite (list_filter_iff
               (λ l', isFavorite (alter (setTimestamp now) l (heap s) !!! l') = true)
               (λ l', isFavorite (heap s !!! l') = true)).
    + by rewrite <- (delete_Permutation (items s) (S k) l Hk).
    + intros l'. by rewrite (field_alter isFavorite).
  - by rewrite (handleMoveItemToTop_absent _ _ _ H).
Qed.

(* ================================================================= *)
(** ** deleteMany *)

(** C7 (as stated, refuted).  An empty list is answered with an error,
    not with a count of 0; and for a list whose only id is absent from
    the store the answer carries [deletedCount] 1 although nothing was
    deleted. *)
Lemma C7_deleteMany_counterexample :
  value (handleDeleteMultipleItems [] initialState)
    = DeleteError "No items to delete"
  ∧ (let s := step (Capture "i1" 1 "a") initialState in
     let r := handleDeleteMultipleItems ["ghost"] s in
     itemsOf (state r) = itemsOf s ∧ value r = DeleteOk 1).
Proof. repeat apply conj; vm_compute; reflexivity. Qed.

(** C7 (amended).  For every list of ids that is not empty, [deleteMany]
    removes from [items] and from [favorites] exactly the entries whose
    id occurs in the list, keeps the others in their order, reports
    success whether or not the ids were present, and doing it again
    changes nothing more.  An empty list is answered with the error
    'No items to delete' and no change. *)
Theorem deleteMany_removes (s : State) (itemIds : list string) :
  let r := handleDeleteMultipleItems itemIds s in
  (itemIds ≠ [] →
   itemsOf (state r) = filter (λ it, id it ∉ itemIds) (itemsOf s)
   ∧ favoritesOf (state r) = filter (λ it, id it ∉ itemIds) (favoritesOf s)
   ∧ (∃ n, value r = DeleteOk n)
   ∧ state (handleDeleteMultipleItems itemIds (state r)) = state r)
  ∧ (itemIds = [] →
     value r = DeleteError "No items to delete" ∧ state r = s ∧ sent r = []).
Proof.
  cbv zeta. split.
  - intros Hne. rewrite handleDeleteMultipleItems_spec by done.
    cbn [state value]. split; [|split; [|split]].
    + unfold itemsOf. cbn [items]. by rewrite filter_fmap.
    + unfold favoritesOf. cbn [favorites]. by rewrite filter_fmap.
    + eauto.
    + rewrite handleDeleteMultipleItems_spec by done. cbn. unfold deref. cbn.
      f_equal; apply list_filter_filter_l; auto.
  - intros ->. by rewrite handleDeleteMultipleItems_empty.
Qed.

(** [deleteMany] of one present and one absent id. *)
Lemma deleteMany_removes_witness :
  let s := exec [Capture "i1" 1 "a"; Capture "i2" 2 "b"] initialState in
  let r := handleDeleteMultipleItems ["i1"; "ghost"] s in
  itemsOf (state r) = filter (λ it, id it ∉ ["i1"; "ghost"]) (itemsOf s)
  ∧ content <$> itemsOf (state r) = ["b"].
Proof.
  intros s r. split.
  - apply (proj1 (deleteMany_removes s ["i1"; "ghost"])). discriminate.
  - vm_compute. reflexivity.
Defined.

(* ================================================================= *)
(** ** Broadcast on write *)

(** C8 (as stated, refuted).  A successful [toggleFavorite] sends no
    notification at all, and a [moveToTop] that repositions an item
    completes successfully with one notification, under the single
    identifier [clipboardDataUpdated]. *)
Lemma C8_broadcast_counterexample :
  let s := exec [Capture "i1" 1 "a"; Capture "i2" 2 "b"] initialState in
  (let r := handleToggleFavorite "i1" s in
   value r = true ∧ state r ≠ s ∧ sent r = [])
  ∧ (let r := handleMoveItemToTop 9 "i1" s in
     value r = true ∧ state r ≠ s
     ∧ identifiers (sent r) = ["clipboardDataUpdated"]
     ∧ ¬ (2 ≤ length (identifiers (sent r)))%nat).
Proof.
  repeat apply conj; vm_compute; try reflexivity; try discriminate.
  intros H. apply le_S_n in H. inversion H.
Qed.

(** C8 (amended).  A committed text capture is followed by a broadcast
    under three distinct identifiers: [clipboardDataUpdated],
    [clipboardUpdated] and [refreshClipboardData].  A committed image
    capture, a [moveToTop] that changes the store and a [deleteMany] of a
    list that is not empty are each followed by one notification, under
    the identifier [clipboardDataUpdated].  The handlers for add, delete,
    toggleFavorite and clear send no notification. *)
Theorem broadcast_on_write (s : State) :
  (∀ newId now content,
     let r := processClipboardContent newId now content s in
     state r ≠ s →
     identifiers (sent r)
     = ["clipboardDataUpdated"; "clipboardUpdated"; "refreshClipboardData"])
  ∧ (∀ newId now dataUrl,
       let r := processClipboardImage newId now dataUrl s in
       state r ≠ s → action <$> sent r = ["clipboardDataUpdated"])
  ∧ (∀ now itemId,
       let r := handleMoveItemToTop now itemId s in
       state r ≠ s → action <$> sent r = ["clipboardDataUpdated"])
  ∧ (∀ itemIds,
       let r := handleDeleteMultipleItems itemIds s in
       itemIds ≠ [] → action <$> sent r = ["clipboardDataUpdated"])
  ∧ (∀ newId now item, sent (handleAddNewItem newId now item s) = [])
  ∧ (∀ itemId, sent (handleDeleteItem itemId s) = [])
  ∧ (∀ itemId, sent (handleToggleFavorite itemId s) = [])
  ∧ sent (handleClearAll s) = [].
Proof.
  repeat apply conj; cbv zeta.
  - intros newId now c Hch.
    destruct (processClipboardContent_cases newId now c s)
      as [?|(Hb & Hne & Hlen)]; [done|].
    by rewrite (processClipboardContent_commit _ _ _ _ Hb Hne Hlen).
  - intros newId now d Hch.
    destruct (processClipboardImage_cases newId now d s)
      as [?|(Hm & Hnew & Hsz)]; [done|].
    by rewrite (processClipboardImage_commit _ _ _ _ Hm Hnew Hsz).
  - intros now itemId Hch.
    destruct (list_find (λ l, (deref s l).(id) = itemId) (items s))
      as [[[|i] l]|] eqn:H.
    + by rewrite (handleMoveItemToTop_top _ _ _ _ H) in Hch.
    + by rewrite (handleMoveItemToTop_below _ _ _ _ _ H).
    + by rewrite (handleMoveItemToTop_absent _ _ _ H) in Hch.
  - intros ids Hne. by rewrite handleDeleteMultipleItems_spec.
  - intros newId now item. by rewrite handleAddNewItem_spec.
  - intros itemId. by rewrite handleDeleteItem_spec.
  - intros itemId.
    destruct (list_find (λ l, (deref s l).(id) = itemId) (items s))
      as [[i l]|] eqn:H.
    + by rewrite (handleToggleFavorite_found _ _ _ _ H).
    + by rewrite (handleToggleFavorite_absent _ _ H).
  - by rewrite handleClearAll_spec.
Qed.

(** The broadcast after the first capture. *)
Lemma broadcast_on_write_witness :
  identifiers (sent (processClipboardContent "i1" 1 "a" initialState))
  = ["clipboardDataUpdated"; "clipboardUpdated"; "refreshClipboardData"].
Proof.
  apply (proj1 (broadcast_on_write initialState) "i1" 1 "a").
  vm_compute. discriminate.
Defined.

(** The image path of the second variant: a commit that was saved is
    followed by the broadcast as well. *)
Lemma Variant_processClipboardImage_commit newId now dataUrl s :
  JS.startsWith (JS.chars imageMarker) (JS.chars dataUrl) = true →
  (dataUrl ∉ (content <$> itemsOf s)) →
  imageSizeKB dataUrl ≤ maxImageSize s →
  let r := Variant.processClipboardImage newId now true dataUrl s in
  value r = Some true
  ∧ identifiers (sent r)
    = ["clipboardDataUpdated"; "clipboardUpdated"; "refreshClipboardData";
       "showNotification"].
Proof.
  intros Hm Hnew Hsize. cbv zeta. unfold Variant.processClipboardImage.
  eff_simpl. rewrite Hm. cbn [negb]. rewrite bool_decide_eq_false_2.
  - destruct (Z.gtb_spec (imageSizeKB dataUrl) (maxImageSize s)); [lia|].
    eff_simpl. rewrite limitHistory_spec. eff_simpl.
    unfold broadcastClipboardUpdate, handleShowNotification. eff_simpl.
    split; [done|]. vm_compute. reflexivity.
  - intros (l & Hl & Hc)%Exists_exists. apply Hnew.
    unfold itemsOf. rewrite <- list_fmap_compose.
    apply list_elem_of_fmap. by exists l.
Qed.

(* ================================================================= *)
(** ** Capture guard *)

(** While the flag is set, every call returns at the guard. *)
Lemma attempts_guarded (calls : list (Z * CheckRun)) :
  attempts calls true = (replicate (length calls) Skipped, true).
Proof.
  induction calls as [|[t run] calls IH]; [done|].
  cbn [attempts checkClipboardForChanges length replicate]. by rewrite IH.
Qed.

(** C9, at the failing input.  In src/background/background.js the guard
    is a plain flag: after one check whose read hangs, every later call,
    however long after and whatever would become of its own reads,
    returns at the guard and leaves the flag set. *)
Theorem guard_stays_set (t0 : Z) (calls : list (Z * CheckRun)) :
  attempts ((t0, Hangs) :: calls) false
  = (Started :: replicate (length calls) Skipped, true).
Proof.
  cbn [attempts checkClipboardForChanges]. by rewrite attempts_guarded.
Qed.

(** The flag does keep a second check out while one is in flight, and a
    read that fails (its awaited steps settle) cannot wedge it: the call
    clears the flag on its way out. *)
Lemma guard_exclusive run :
  checkClipboardForChanges run true = (Skipped, true).
Proof. done. Qed.

Lemma settled_check_clears_guard (calls : list (Z * CheckRun)) :
  Forall (λ c, c.2 = Settles) calls →
  attempts calls false = (replicate (length calls) Started, false).
Proof.
  induction 1 as [|[t run] calls Hrun _ IH]; [done|].
  cbn in Hrun. subst run.
  cbn [attempts checkClipboardForChanges length replicate]. by rewrite IH.
Qed.

(** The second variant has the recovery the claim describes: more than
    ten seconds after the check in flight started, the next call resets
    the guard and goes on. *)
Lemma Variant_stale_guard_is_reset now started run :
  now - started > Variant.staleAfter →
  (Variant.checkClipboardForChanges now run (Variant.Since started)).1 = Started.
Proof.
  intros H. unfold Variant.checkClipboardForChanges, Variant.truthy.
  destruct (started =? 0); cbn [negb]; [by destruct run|].
  destruct (Z.gtb_spec (now - started) Variant.staleAfter); [by destruct run|lia].
Qed.

Lemma Variant_fresh_guard_skips now started run :
  started ≠ 0 → now - started ≤ Variant.staleAfter →
  Variant.checkClipboardForChanges now run (Variant.Since started)
  = (Skipped, Variant.Since started).
Proof.
  intros H0 H. unfold Variant.checkClipboardForChanges, Variant.truthy.
  destruct (Z.eqb_spec started 0); [done|]. cbn [negb].
  destruct (Z.gtb_spec (now - started) Variant.staleAfter); [lia|done].
Qed.

(** In the second variant a hung check is outlived: the first call more
    than ten seconds later whose reads settle leaves the guard idle. *)
Lemma Variant_recovers_from_hung_check t0 now :
  now - t0 > Variant.staleAfter →
  Variant.attempts [(t0, Hangs); (now, Settles)] Variant.Idle
  = ([Started; Started], Variant.Idle).
Proof.
  intros H. cbn [Variant.attempts Variant.checkClipboardForChanges].
  pose proof (Variant_stale_guard_is_reset now t0 Settles H) as Hs.
  unfold Variant.checkClipboardForChanges in *.
  destruct (Variant.truthy (Variant.Since t0)); [|done].
  destruct (now - t0 >? Variant.staleAfter); [done|discriminate].
Qed.

(* ================================================================= *)
(** ** moveToTop *)

(** C10 (as stated, refuted).  For the id of the item that is already at
    index 0 the handler returns [true] at once: nothing is written and
    the timestamp stays what it was. *)
Lemma C10_top_item_counterexample :
  let s := step (Capture "i1" 1 "a") initialState in
  let r := handleMoveItemToTop 5 "i1" s in
  value r = true ∧ state r = s ∧ timestamp <$> itemsOf (state r) = [1]
  ∧ timestamp <$> itemsOf (state r) ≠ [5].
Proof. repeat apply conj; vm_compute; (reflexivity || discriminate). Qed.

(** C10 (amended).  For every id present in the store, [moveToTop]
    reports success and acts on the first item with that id.  When that
    item is below index 0 it is moved to index 0 with its timestamp set to
    the current time and every other field ([content] and [type] among
    them) as before, and the other items keep their values and their
    order.  When it is already at index 0 nothing changes: the timestamp
    is not refreshed and no message is sent.  ([wf] holds of every
    reachable store.) *)
Theorem moveToTop_postcondition (s : State) (now : Z) (itemId : string) :
  wf s →
  itemId ∈ (id <$> itemsOf s) →
  let r := handleMoveItemToTop now itemId s in
  ∃ i it,
    itemsOf s !! i = Some it ∧ id it = itemId
    ∧ (∀ j it', itemsOf s !! j = Some it' → (j < i)%nat → id it' ≠ itemId)
    ∧ value r = true
    ∧ (i = O → state r = s ∧ sent r = [])
    ∧ (i ≠ O →
       itemsOf (state r)
       = mkItem (id it) (content it) (type it) now (isFavorite it) (charCount it)
         :: delete i (itemsOf s)).
Proof.
  intros [Hit Hfav Hnd] Hin. cbv zeta.
  unfold itemsOf in Hin. rewrite <- list_fmap_compose in Hin.
  apply list_elem_of_fmap in Hin as (l0 & Hid0 & Hl0).
  destruct (list_find_elem_of (λ l, id (deref s l) = itemId) (items s) l0)
    as [[i l] Hil]; [done..|].
  pose proof Hil as (Hi & Hid & Hmin)%list_find_Some.
  exists i, (deref s l).
  split; [by unfold itemsOf; rewrite list_lookup_fmap, Hi|].
  split; [done|]. split.
  { intros j it' Hj Hlt. unfold itemsOf in Hj. rewrite list_lookup_fmap in Hj.
    destruct (items s !! j) as [lj|] eqn:Hlj; [|done].
    injection Hj as <-. by apply (Hmin j lj). }
  destruct i as [|i].
  - rewrite (handleMoveItemToTop_top _ _ _ _ Hil). cbn. repeat split; done.
  - rewrite (handleMoveItemToTop_below _ _ _ _ _ Hil). cbn [value state].
    split; [done|]. split; [done|]. intros _.
    unfold itemsOf, deref. cbn [heap items]. csimpl. f_equal.
    + rewrite list_lookup_total_alter_eq.
      * done.
      * eapply Forall_lookup_1 in Hit; [|exact Hi]. done.
    + rewrite fmap_alter_other by (by eapply NoDup_delete_lookup).
      apply list_fmap_delete.
Qed.

(** [moveToTop] on the older of two items. *)
Lemma moveToTop_postcondition_witness :
  let s := exec [Capture "i1" 1 "a"; Capture "i2" 2 "b"] initialState in
  let r := handleMoveItemToTop 9 "i1" s in
  ∃ i it,
    itemsOf s !! i = Some it ∧ id it = "i1" ∧ value r = true
    ∧ (i ≠ O →
       itemsOf (state r)
       = mkItem (id it) (content it) (type it) 9 (isFavorite it) (charCount it)
         :: delete i (itemsOf s)).
Proof.
  intros s r.
  assert (wf s) as Hwf by solve_wf.
  assert ("i1" ∈ (id <$> itemsOf s)) as Hin
    by (vm_compute; apply list_elem_of_further, list_elem_of_here).
  destruct (moveToTop_postcondition s 9 "i1" Hwf Hin)
    as (i & it & H1 & H2 & _ & H3 & _ & H4).
  exists i, it. auto.
Defined.

(* ================================================================= *)
(** ** Views *)

Lemma filter_all {A} (P : A → Prop) `{!∀ x, Decision (P x)} (l : list A) :
  Forall P l → filter P l = l.
Proof. induction 1; [done|]. rewrite filter_cons_True by done. by f_equal. Qed.

Lemma list_find_absent (s : State) (itemId : string) :
  itemId ∉ (id <$> itemsOf s) →
  list_find (λ l, (deref s l).(id) = itemId) (items s) = None.
Proof.
  intros Hnot. apply list_find_None, Forall_forall. intros l Hl Hid.
  apply Hnot. unfold itemsOf. rewrite <- list_fmap_compose.
  apply list_elem_of_fmap. by exists l.
Qed.

(* ================================================================= *)
(** ** Deleting one item *)

(** X1.  [handleDeleteItem] always reports success and sends nothing; it
    takes out of [items] and out of [favorites] exactly the entries with
    the given id and keeps the others in their order, so no item with
    that id is left, and deleting the same id again changes nothing. *)
Theorem handleDeleteItem_removes (s : State) (itemId : string) :
  let r := handleDeleteItem itemId s in
  value r = true ∧ sent r = []
  ∧ itemsOf (state r) = filter (λ it, id it ≠ itemId) (itemsOf s)
  ∧ favoritesOf (state r) = filter (λ it, id it ≠ itemId) (favoritesOf s)
  ∧ (itemId ∉ (id <$> itemsOf (state r)))
  ∧ state (handleDeleteItem itemId (state r)) = state r.
Proof.
  cbv zeta. rewrite handleDeleteItem_spec. cbn [value state sent].
  assert (itemsOf
            (mkState (heap s) (filter (λ l, id (deref s l) ≠ itemId) (items s))
               (filter (λ l, id (deref s l) ≠ itemId) (favorites s))
               (lastClipboardText s) (MAX_HISTORY_ITEMS s) (maxTextLength s)
               (maxImageSize s))
          = filter (λ it, id it ≠ itemId) (itemsOf s)) as Hview.
  { unfold itemsOf. cbn [items]. by rewrite filter_fmap. }
  repeat apply conj; try done.
  - unfold favoritesOf. cbn [favorites]. by rewrite filter_fmap.
  - rewrite Hview. intros (it & Hid & Hin)%list_elem_of_fmap.
    by apply list_elem_of_filter in Hin as [Hne _].
  - rewrite handleDeleteItem_spec. cbn. unfold deref. cbn.
    f_equal; apply list_filter_filter_l; auto.
Qed.

(** X2.  For an id that no item of the history carries, [toggleFavorite]
    and [moveToTop] answer [false], change nothing and send nothing,
    while [deleteItem] answers [true] and leaves the history as it
    was. *)
Theorem unknown_id_changes_nothing (s : State) (now : Z) (itemId : string) :
  itemId ∉ (id <$> itemsOf s) →
  handleToggleFavorite itemId s = mkRes false s []
  ∧ handleMoveItemToTop now itemId s = mkRes false s []
  ∧ value (handleDeleteItem itemId s) = true
  ∧ itemsOf (state (handleDeleteItem itemId s)) = itemsOf s.
Proof.
  intros Hnot. pose proof (list_find_absent s itemId Hnot) as Hfind.
  repeat apply conj.
  - by apply handleToggleFavorite_absent.
  - by apply handleMoveItemToTop_absent.
  - by rewrite handleDeleteItem_spec.
  - rewrite handleDeleteItem_spec. unfold itemsOf. cbn [state items].
    rewrite filter_all; [done|].
    by apply list_find_None in Hfind.
Qed.

(** An id that is not in a history of one item. *)
Lemma unknown_id_changes_nothing_witness :
  let s := exec [Capture "i1" 1 "a"] initialState in
  handleToggleFavorite "ghost" s = mkRes false s []
  ∧ handleMoveItemToTop 7 "ghost" s = mkRes false s []
  ∧ value (handleDeleteItem "ghost" s) = true
  ∧ itemsOf (state (handleDeleteItem "ghost" s)) = itemsOf s.
Proof.
  intros s. apply (unknown_id_changes_nothing s 7 "ghost").
  replace (id <$> itemsOf s) with ["i1"] by (vm_compute; reflexivity).
  rewrite elem_of_cons, elem_of_nil. intros [H|[]]. discriminate.
Defined.

(** Writing one object of a duplicate-free array of references changes
    the view at the index of that reference only. *)
Lemma fmap_alter_at (f : Item → Item) (h : list Item) (ls : list nat)
    (i l : nat) :
  NoDup ls → ls !! i = Some l → (l < length h)%nat →
  (λ l', alter f l h !!! l') <$> ls
  = <[i := f (h !!! l)]> ((λ l', h !!! l') <$> ls).
Proof.
  intros Hnd Hi Hl. apply list_eq. intros j.
  rewrite list_lookup_fmap.
  destruct (decide (j = i)) as [->|Hne].
  - rewrite list_lookup_insert_eq by (rewrite length_fmap; by eapply lookup_lt_Some).
    rewrite Hi. cbn. f_equal. by apply list_lookup_total_alter_eq.
  - rewrite list_lookup_insert_ne by done. rewrite list_lookup_fmap.
    destruct (ls !! j) as [l'|] eqn:Hj; [|done]. cbn. f_equal.
    apply list_lookup_total_alter_ne. intros ->.
    apply Hne. by eapply NoDup_lookup.
Qed.

(* ================================================================= *)
(** ** toggleFavorite *)

(** X3.  In a well-formed store, for an id that some item carries,
    [handleToggleFavorite] answers [true], flips the favourite flag of
    the first item with that id and of no other, keeps the order of the
    history, and leaves in [favorites] exactly the items now flagged, in
    the order of the history. *)
Theorem handleToggleFavorite_postcondition (s : State) (itemId : string) :
  wf s →
  itemId ∈ (id <$> itemsOf s) →
  let r := handleToggleFavorite itemId s in
  ∃ i it,
    itemsOf s !! i = Some it ∧ id it = itemId
    ∧ (∀ j it', itemsOf s !! j = Some it' → (j < i)%nat → id it' ≠ itemId)
    ∧ value r = true
    ∧ itemsOf (state r) = <[i := flipFavorite it]> (itemsOf s)
    ∧ favoritesOf (state r)
      = filter (λ it', isFavorite it' = true) (itemsOf (state r)).
Proof.
  intros [Hit Hfav Hnd] Hin. cbv zeta.
  unfold itemsOf in Hin. rewrite <- list_fmap_compose in Hin.
  apply list_elem_of_fmap in Hin as (l0 & Hid0 & Hl0).
  destruct (list_find_elem_of (λ l, id (deref s l) = itemId) (items s) l0)
    as [[i l] Hil]; [done..|].
  pose proof Hil as (Hi & Hid & Hmin)%list_find_Some.
  rewrite (handleToggleFavorite_found _ _ _ _ Hil). cbn [value state].
  exists i, (deref s l).
  split; [by unfold itemsOf; rewrite list_lookup_fmap, Hi|].
  split; [done|]. split.
  { intros j it' Hj Hlt. unfold itemsOf in Hj. rewrite list_lookup_fmap in Hj.
    destruct (items s !! j) as [lj|] eqn:Hlj; [|done].
    injection Hj as <-. by apply (Hmin j lj). }
  split; [done|]. split.
  - unfold itemsOf, deref. cbn [heap items].
    apply fmap_alter_at; [done..|].
    eapply Forall_lookup_1 in Hit; [|exact Hi]. done.
  - unfold favoritesOf, itemsOf, deref. cbn [heap items favorites].
    by rewrite filter_fmap.
Qed.

(** Toggling the older of two captured items. *)
Lemma handleToggleFavorite_postcondition_witness :
  let s := exec [Capture "i1" 1 "a"; Capture "i2" 2 "b"] initialState in
  let r := handleToggleFavorite "i1" s in
  ∃ i it,
    itemsOf s !! i = Some it ∧ id it = "i1"
    ∧ itemsOf (state r) = <[i := flipFavorite it]> (itemsOf s)
    ∧ favoritesOf (state r)
      = filter (λ it', isFavorite it' = true) (itemsOf (state r)).
Proof.
  intros s r.
  assert (wf s) as Hwf by solve_wf.
  assert ("i1" ∈ (id <$> itemsOf s)) as Hin
    by (vm_compute; apply list_elem_of_further, list_elem_of_here).
  destruct (handleToggleFavorite_postcondition s "i1" Hwf Hin)
    as (i & it & H1 & H2 & _ & _ & H3 & H4).
  exists i, it. auto.
Defined.

Lemma flipFavorite_involutive it : flipFavorite (flipFavorite it) = it.
Proof. destruct it as [? ? ? ? [] ?]; reflexivity. Qed.

(** X4.  Toggling the same id twice gives the history back as it was:
    both calls give the same answer; if the id is unknown nothing
    changes at all, and otherwise [favorites] ends as the list of the
    items flagged in the history, whatever it held before. *)
Theorem handleToggleFavorite_twice (s : State) (itemId : string) :
  let r1 := handleToggleFavorite itemId s in
  let r2 := handleToggleFavorite itemId (state r1) in
  value r2 = value r1
  ∧ itemsOf (state r2) = itemsOf s
  ∧ (if value r1
     then favoritesOf (state r2)
          = filter (λ it, isFavorite it = true) (itemsOf s)
     else state r2 = s).
Proof.
  cbv zeta.
  destruct (list_find (λ l, (deref s l).(id) = itemId) (items s))
    as [[i l]|] eqn:H.
  2: { rewrite (handleToggleFavorite_absent _ _ H). cbn [state value].
       by rewrite (handleToggleFavorite_absent _ _ H). }
  rewrite (handleToggleFavorite_found _ _ _ _ H). cbn [state value].
  set (s1 := mkState _ _ _ _ _ _ _).
  assert (list_find (λ l, (deref s1 l).(id) = itemId) (items s1) = Some (i, l))
    as H1.
  { rewrite <- H. unfold s1, deref. cbn [heap items].
    apply list_find_ext_Forall, Forall_forall. intros l' _.
    by rewrite (field_alter id). }
  rewrite (handleToggleFavorite_found _ _ _ _ H1). cbn [state value].
  unfold s1. cbn [heap items lastClipboardText MAX_HISTORY_ITEMS
                    maxTextLength maxImageSize].
  rewrite list_alter_alter_eq.
  rewrite list_alter_id by apply flipFavorite_involutive.
  repeat apply conj; [done|done|].
  unfold favoritesOf, itemsOf, deref. cbn [heap items favorites].
  by rewrite filter_fmap.
Qed.

Lemma limited_nonneg {A} maxItems (arr : list A) :
  0 ≤ maxItems →
  (if Z.of_nat (length arr) >? maxItems then slice0 arr maxItems else arr)
  = take (Z.to_nat maxItems) arr.
Proof.
  intros H. unfold slice0.
  destruct (Z.gtb_spec (Z.of_nat (length arr)) maxItems).
  - destruct (Z.ltb_spec maxItems 0); [lia|done].
  - rewrite take_ge; [done|lia].
Qed.

(** The view of a store into which a fresh object was put on top. *)
Lemma itemsOf_insert (s : State) (it : Item) (rest favs : list nat)
    (t : string) (m1 m2 m3 : Z) :
  Forall (λ l, (l < length (heap s))%nat) rest →
  ∃ k,
    itemsOf (mkState (heap s ++ [it]) (limited m1 (length (heap s) :: rest))
               favs t m1 m2 m3)
    = take k (it :: (deref s <$> rest))
    ∧ (0 ≤ m1 → k = Z.to_nat m1).
Proof.
  intros Hrest.
  assert (∃ k, limited m1 (length (heap s) :: rest)
               = take k (length (heap s) :: rest)
               ∧ (0 ≤ m1 → k = Z.to_nat m1)) as (k & -> & Hk).
  { destruct (Z_le_gt_dec 0 m1) as [Hm|Hm].
    - exists (Z.to_nat m1). split; [|done]. unfold limited.
      by apply limited_nonneg.
    - destruct (limited_take m1 (length (heap s) :: rest)) as [k Hk].
      exists k. split; [done|lia]. }
  exists k. split; [|done].
  unfold itemsOf, deref. cbn [heap items]. rewrite fmap_take. f_equal.
  csimpl. f_equal.
  - by apply list_lookup_total_middle.
  - by apply fmap_alloc.
Qed.

(* ================================================================= *)
(** ** Insertions, as the client sees them *)

(** X5.  A text capture that is admitted (not blank, not the last
    clipboard text, within [maxTextLength]) in a well-formed store whose
    limit is not negative: the history becomes the fresh record followed
    by the old history without its first item of the same content, cut
    to the first [MAX_HISTORY_ITEMS] entries, so the oldest entries are
    the ones dropped, favourites or not.  [favorites] is not touched, the
    last clipboard text becomes the content, and the value returned is
    the fresh record. *)
Theorem capture_commit_view (s : State) (newId : string) (now : Z)
    (c : string) :
  wf s → 0 ≤ MAX_HISTORY_ITEMS s →
  isBlank c = false → c ≠ lastClipboardText s →
  Z.of_nat (String.length c) ≤ maxTextLength s →
  let fresh := mkItem newId c (categorizeContent c) now false
                 (Chars (String.length c)) in
  let rest := match list_find (λ it, content it = c) (itemsOf s) with
              | Some (i, _) => delete i (itemsOf s)
              | None => itemsOf s
              end in
  let r := processClipboardContent newId now c s in
  itemsOf (state r) = take (Z.to_nat (MAX_HISTORY_ITEMS s)) (fresh :: rest)
  ∧ favoritesOf (state r) = favoritesOf s
  ∧ lastClipboardText (state r) = c
  ∧ ∃ l, value r = Some l ∧ deref (state r) l = fresh.
Proof.
  intros [Hit Hfav Hnd] Hmax Hb Hne Hlen. cbv zeta.
  rewrite (processClipboardContent_commit _ _ _ _ Hb Hne Hlen).
  cbn [state value]. set (fresh := mkItem newId c _ now false _).
  assert (list_find (λ l, contentOf ((heap s ++ [fresh]) !!! l) = c) (items s)
          = list_find (λ l, content (deref s l) = c) (items s)) as Hfind.
  { apply list_find_ext_Forall. eapply Forall_impl; [exact Hit|].
    intros l Hl. unfold deref, contentOf. cbn beta.
    by rewrite lookup_total_app_l. }
  unfold promoted. rewrite Hfind. clear Hfind.
  set (restL := match list_find _ (items s) with
                | Some (i, _) => delete i (items s)
                | None => items s
                end).
  assert (Forall (λ l, (l < length (heap s))%nat) restL) as HrestL.
  { unfold restL. destruct (list_find _ (items s)) as [[i l]|];
      [by apply Forall_delete|done]. }
  assert (match list_find (λ it, content it = c) (itemsOf s) with
          | Some (i, _) => delete i (itemsOf s)
          | None => itemsOf s
          end = deref s <$> restL) as ->.
  { unfold itemsOf, restL. rewrite list_find_fmap.
    change ((λ it, content it = c) ∘ deref s)
      with (λ l, content (deref s l) = c).
    destruct (list_find _ (items s)) as [[i l]|]; cbn;
      [by rewrite list_fmap_delete|done]. }
  repeat apply conj.
  - destruct (itemsOf_insert s fresh restL (favorites s) c
                (MAX_HISTORY_ITEMS s) (maxTextLength s) (maxImageSize s))
      as (k & -> & Hk); [done|].
    by rewrite (Hk Hmax).
  - unfold favoritesOf, deref. cbn [heap favorites]. by apply fmap_alloc.
  - done.
  - exists (length (heap s)). split; [done|].
    unfold deref. cbn [heap]. by apply list_lookup_total_middle.
Qed.

(** A third capture into a history limited to two. *)
Lemma capture_commit_view_witness :
  let s := exec [UpdateSettings (Some (mkSettings (Some 2) None None));
                 Capture "i1" 1 "x"; Capture "i2" 2 "y"] initialState in
  let r := processClipboardContent "i3" 3 "z" s in
  itemsOf (state r)
  = take (Z.to_nat (MAX_HISTORY_ITEMS s))
      (mkItem "i3" "z" (categorizeContent "z") 3 false (Chars (String.length "z"))
       :: match list_find (λ it, content it = "z") (itemsOf s) with
          | Some (i, _) => delete i (itemsOf s)
          | None => itemsOf s
          end)
  ∧ content <$> itemsOf (state r) = ["z"; "y"].
Proof.
  intros s r. split.
  - refine (proj1 (capture_commit_view s "i3" 3 "z" _ _ _ _ _)).
    + solve_wf.
    + vm_compute. discriminate.
    + reflexivity.
    + vm_compute. discriminate.
    + vm_compute. discriminate.
  - vm_compute. reflexivity.
Defined.

(** X6.  An image capture that is admitted (a [data:image/] URL that is
    not yet in the history and within [maxImageSize]) puts a fresh record
    of type [image], not favourite, sized in KB, in front of the history
    and cuts the history to [MAX_HISTORY_ITEMS]; [favorites] and the last
    clipboard text stay as they were. *)
Theorem processClipboardImage_view (s : State) (newId : string) (now : Z)
    (dataUrl : string) :
  wf s → 0 ≤ MAX_HISTORY_ITEMS s →
  JS.startsWith (JS.chars imageMarker) (JS.chars dataUrl) = true →
  dataUrl ∉ (content <$> itemsOf s) →
  imageSizeKB dataUrl ≤ maxImageSize s →
  let fresh := mkItem newId dataUrl "image" now false
                 (KiloBytes (imageSizeKB dataUrl)) in
  let r := processClipboardImage newId now dataUrl s in
  itemsOf (state r) = take (Z.to_nat (MAX_HISTORY_ITEMS s)) (fresh :: itemsOf s)
  ∧ favoritesOf (state r) = favoritesOf s
  ∧ lastClipboardText (state r) = lastClipboardText s.
Proof.
  intros [Hit Hfav Hnd] Hmax Hm Hnew Hsz. cbv zeta.
  rewrite (processClipboardImage_commit _ _ _ _ Hm Hnew Hsz). cbn [state].
  repeat apply conj.
  - match goal with |- itemsOf (mkState (_ ++ [?it]) _ ?f ?t ?m1 ?m2 ?m3) = _ =>
      destruct (itemsOf_insert s it (items s) f t m1 m2 m3) as (k & -> & Hk)
    end; [done|].
    by rewrite (Hk Hmax).
  - unfold favoritesOf, deref. cbn [heap favorites]. by apply fmap_alloc.
  - done.
Qed.

(** An image captured after a note. *)
Lemma processClipboardImage_view_witness :
  let s := exec [Capture "i1" 1 "note"] initialState in
  let d := "data:image/png;base64,AAAA" in
  content <$> itemsOf (state (processClipboardImage "i2" 2 d s)) = [d; "note"].
Proof.
  intros s d.
  assert (wf s) as Hwf by solve_wf.
  assert (d ∉ (content <$> itemsOf s)) as Hnew.
  { replace (content <$> itemsOf s) with ["note"] by (vm_compute; reflexivity).
    rewrite elem_of_cons, elem_of_nil. intros [H|[]]. discriminate. }
  destruct (processClipboardImage_view s "i2" 2 d Hwf) as (-> & _); try done.
Defined.

(** X7.  A manual add always inserts: the record built from the
    message goes in front of the history, which is then cut to
    [MAX_HISTORY_ITEMS]; when the message marks it favourite it also goes
    in front of [favorites], which is not cut; the value returned is the
    new record and no message is sent. *)
Theorem handleAddNewItem_view (s : State) (newId : string) (now : Z)
    (item : NewItem) :
  wf s → 0 ≤ MAX_HISTORY_ITEMS s →
  let fresh := mkItem newId (newContent item) (addedType item) now
                 (newIsFavorite item)
                 (Chars (String.length (newContent item))) in
  let r := handleAddNewItem newId now item s in
  itemsOf (state r) = take (Z.to_nat (MAX_HISTORY_ITEMS s)) (fresh :: itemsOf s)
  ∧ favoritesOf (state r)
    = (if newIsFavorite item then fresh :: favoritesOf s else favoritesOf s)
  ∧ deref (state r) (value r) = fresh
  ∧ sent r = [].
Proof.
  intros [Hit Hfav Hnd] Hmax. cbv zeta.
  rewrite handleAddNewItem_spec. cbn [state value sent].
  repeat apply conj.
  - match goal with |- itemsOf (mkState (_ ++ [?it]) _ ?f ?t ?m1 ?m2 ?m3) = _ =>
      destruct (itemsOf_insert s it (items s) f t m1 m2 m3) as (k & -> & Hk)
    end; [done|].
    by rewrite (Hk Hmax).
  - unfold favoritesOf, deref. cbn [heap favorites].
    destruct (newIsFavorite item); csimpl.
    + f_equal; [by apply list_lookup_total_middle|by apply fmap_alloc].
    + by apply fmap_alloc.
  - unfold deref. cbn [heap]. by apply list_lookup_total_middle.
  - done.
Qed.

(** A favourite added by hand above a captured item. *)
Lemma handleAddNewItem_view_witness :
  let s := exec [Capture "i1" 1 "a"] initialState in
  let r := handleAddNewItem "i2" 2 (mkNewItem "b" (Some "code") true) s in
  content <$> itemsOf (state r) = ["b"; "a"]
  ∧ favoritesOf (state r) = [mkItem "i2" "b" "code" 2 true (Chars 1)].
Proof.
  intros s r.
  assert (wf s) as Hwf by solve_wf.
  destruct (handleAddNewItem_view s "i2" 2 (mkNewItem "b" (Some "code") true) Hwf)
    as (H1 & H2 & _); [done|].
  fold r in H1, H2. rewrite H1, H2. split; reflexivity.
Defined.

(* ================================================================= *)
(** ** Capturing the same content twice *)

(** X8.  Submitting the same content to [processClipboardContent] a
    second time, right after the first, changes nothing whatever the new
    id and time: the second call returns no item, and when the first one
    changed the store the second sends no message either. *)
Theorem capture_twice (s : State) (i1 i2 : string) (t1 t2 : Z) (c : string) :
  let r1 := processClipboardContent i1 t1 c s in
  let r2 := processClipboardContent i2 t2 c (state r1) in
  state r2 = state r1 ∧ value r2 = None
  ∧ (state r1 ≠ s → sent r2 = []).
Proof.
  cbv zeta.
  destruct (isBlank c) eqn:Hb.
  { rewrite (processClipboardContent_blank i1) by done. cbn [state].
    rewrite processClipboardContent_blank by done. done. }
  destruct (decide (c = lastClipboardText s)) as [He|Hne].
  { rewrite (processClipboardContent_same i1) by done. cbn [state].
    rewrite processClipboardContent_same by done. done. }
  destruct (Z_le_gt_dec (Z.of_nat (String.length c)) (maxTextLength s)).
  - rewrite (processClipboardContent_commit i1) by done. cbn [state].
    rewrite processClipboardContent_same by done. done.
  - rewrite (processClipboardContent_reject i1) by done. cbn [state].
    rewrite processClipboardContent_reject by done. done.
Qed.

(* ================================================================= *)
(** ** The limit along a run *)

Lemma step_bound (op : Op) (s : State) :
  0 ≤ MAX_HISTORY_ITEMS s →
  (∀ st, op ≠ UpdateSettings st) →
  Z.of_nat (length (items s)) ≤ MAX_HISTORY_ITEMS s →
  MAX_HISTORY_ITEMS (step op s) = MAX_HISTORY_ITEMS s
  ∧ Z.of_nat (length (items (step op s))) ≤ MAX_HISTORY_ITEMS s.
Proof.
  intros Hmax Hop Hb. unfold step.
  destruct op as [i t c|i t d|i t it|i|i|ids|t i| |st]; cbn [run fst].
  - destruct (processClipboardContent_cases i t c s) as [->|(Hbl & Hne & Hlen)];
      [done|].
    rewrite (processClipboardContent_commit _ _ _ _ Hbl Hne Hlen). cbn.
    split; [done|]. by apply length_limited.
  - destruct (processClipboardImage_cases i t d s) as [->|(Hm & Hnew & Hsz)];
      [done|].
    rewrite (processClipboardImage_commit _ _ _ _ Hm Hnew Hsz). cbn.
    split; [done|]. by apply length_limited.
  - rewrite handleAddNewItem_spec. cbn. split; [done|]. by apply length_limited.
  - by destruct (handleToggleFavorite_items i s) as [-> ->].
  - rewrite handleDeleteItem_spec. cbn.
    pose proof (length_filter (λ l, id (deref s l) ≠ i) (items s)).
    split; [done|lia].
  - destruct ids as [|x ids]; [by rewrite handleDeleteMultipleItems_empty|].
    rewrite handleDeleteMultipleItems_spec by done. cbn.
    pose proof (length_filter (λ l, id (deref s l) ∉ x :: ids) (items s)).
    split; [done|lia].
  - by destruct (handleMoveItemToTop_length t i s) as [-> ->].
  - rewrite handleClearAll_spec. cbn. split; [done|lia].
  - by destruct (Hop st).
Qed.

(** X9.  From a store that is within a limit that is not negative, every
    run of operations that does not change the settings leaves the limit
    as it was and the history within it. *)
Theorem history_stays_within_limit (ops : list Op) (s : State) :
  0 ≤ MAX_HISTORY_ITEMS s →
  Z.of_nat (length (itemsOf s)) ≤ MAX_HISTORY_ITEMS s →
  Forall (λ op, ∀ st, op ≠ UpdateSettings st) ops →
  MAX_HISTORY_ITEMS (exec ops s) = MAX_HISTORY_ITEMS s
  ∧ Z.of_nat (length (itemsOf (exec ops s))) ≤ MAX_HISTORY_ITEMS s.
Proof.
  unfold itemsOf. rewrite !length_fmap. intros Hmax Hb Hops.
  induction ops as [|op ops IH] using rev_ind; [done|].
  apply Forall_app in Hops as [Hops Hop].
  apply Forall_cons in Hop as [Hop _].
  destruct (IH Hops) as [IH1 IH2].
  rewrite exec_snoc.
  destruct (step_bound op (exec ops s)) as [H1 H2]; [lia|done|lia|].
  split; [congruence|lia].
Qed.

(** A run of four operations under a limit of two. *)
Lemma history_stays_within_limit_witness :
  let s := exec [UpdateSettings (Some (mkSettings (Some 2) None None))]
             initialState in
  let ops := [Capture "i1" 1 "x"; Add "i2" 2 (mkNewItem "y" None true);
              CaptureImage "i3" 3 "data:image/png;base64,AAAA";
              ToggleFavorite "i3"] in
  MAX_HISTORY_ITEMS (exec ops s) = MAX_HISTORY_ITEMS s
  ∧ Z.of_nat (length (itemsOf (exec ops s))) ≤ MAX_HISTORY_ITEMS s.
Proof.
  intros s ops. apply (history_stays_within_limit ops s).
  - vm_compute. discriminate.
  - vm_compute. discriminate.
  - repeat constructor; intros st; discriminate.
Defined.

(* ================================================================= *)
(** ** Newest first *)

Lemma Forall_sublist {A} (P : A → Prop) (l1 l2 : list A) :
  l1 `sublist_of` l2 → Forall P l2 → Forall P l1.
Proof.
  induction 1 as [|x l1 l2 Hsub IH|x l1 l2 Hsub IH]; intros Hl.
  - constructor.
  - apply Forall_cons in Hl as [Hx Hl]. constructor; auto.
  - apply Forall_cons in Hl as [_ Hl]. auto.
Qed.

Lemma sublist_StronglySorted {A} (R : A → A → Prop) (l1 l2 : list A) :
  l1 `sublist_of` l2 → StronglySorted R l2 → StronglySorted R l1.
Proof.
  induction 1 as [|x l1 l2 Hsub IH|x l1 l2 Hsub IH]; intros Hs.
  - constructor.
  - apply StronglySorted_inv in Hs as [Hs Hx]. constructor; [by apply IH|].
    by eapply Forall_sublist.
  - apply StronglySorted_inv in Hs as [Hs _]. by apply IH.
Qed.

Lemma StronglySorted_lookup {A} (R : A → A → Prop) (l : list A) i j a b :
  StronglySorted R l → (i < j)%nat → l !! i = Some a → l !! j = Some b →
  R a b.
Proof.
  intros Hs. revert i j. induction Hs as [|x l Hs IH Hx]; intros i j Hij Hi Hj.
  - done.
  - destruct j as [|j]; [lia|]. destruct i as [|i].
    + cbn in Hi, Hj. injection Hi as <-.
      eapply Forall_lookup_1 in Hx; [exact Hx|exact Hj].
    + cbn in Hi, Hj. apply (IH i j); [lia|done..].
Qed.

Lemma timestamps_alter (f : Item → Item) (h : list Item) (l : nat)
    (ls : list nat) :
  (∀ it, timestamp (f it) = timestamp it) →
  (λ l', timestamp (alter f l h !!! l')) <$> ls
  = (λ l', timestamp (h !!! l')) <$> ls.
Proof.
  intros Hf. apply list_fmap_ext. intros _ l' _. by apply (field_alter timestamp).
Qed.

(** Every operation leaves a subsequence of the old timestamps, with the
    time of the operation in front when it is given one. *)
Lemma step_timestamps (op : Op) (s : State) :
  wf s →
  (timestamp <$> itemsOf (step op s)) `sublist_of`
  match opTime op with
  | Some t => t :: (timestamp <$> itemsOf s)
  | None => timestamp <$> itemsOf s
  end.
Proof.
  intros [Hit Hfav Hnd]. unfold step.
  assert (∀ it rest favs t' m1 m2 m3,
            rest `sublist_of` items s →
            (timestamp <$> itemsOf
               (mkState (heap s ++ [it]) (limited m1 (length (heap s) :: rest))
                  favs t' m1 m2 m3))
            `sublist_of` (timestamp it :: (timestamp <$> itemsOf s))) as Hins.
  { intros it rest favs t' m1 m2 m3 Hsub.
    destruct (itemsOf_insert s it rest favs t' m1 m2 m3) as (k & -> & _).
    { by eapply Forall_sublist. }
    rewrite fmap_take. etrans; [apply sublist_take|]. csimpl.
    apply sublist_skip. unfold itemsOf. by apply fmap_sublist, fmap_sublist. }
  destruct op as [i t c|i t d|i t it|i|i|ids|t i| |st]; cbn [run fst opTime].
  - destruct (processClipboardContent_cases i t c s) as [->|(Hb & Hne & Hlen)];
      [by apply sublist_cons|].
    rewrite (processClipboardContent_commit _ _ _ _ Hb Hne Hlen). cbn [state].
    apply (Hins (mkItem i c _ t false _)). unfold promoted.
    destruct (list_find _ (items s)) as [[k l]|]; [apply sublist_delete|done].
  - destruct (processClipboardImage_cases i t d s) as [->|(Hm & Hnew & Hsz)];
      [by apply sublist_cons|].
    rewrite (processClipboardImage_commit _ _ _ _ Hm Hnew Hsz). cbn [state].
    by apply (Hins (mkItem i d _ t false _)).
  - rewrite handleAddNewItem_spec. cbn [state].
    by apply (Hins (mkItem i _ _ t _ _)).
  - destruct (list_find (λ l, (deref s l).(id) = i) (items s)) as [[k l]|] eqn:H.
    + rewrite (handleToggleFavorite_found _ _ _ _ H). cbn [state].
      unfold itemsOf, deref. cbn [heap items]. rewrite <- !list_fmap_compose.
      unfold compose. by rewrite timestamps_alter.
    + by rewrite (handleToggleFavorite_absent _ _ H).
  - rewrite handleDeleteItem_spec. cbn [state]. unfold itemsOf. cbn [items].
    apply fmap_sublist, fmap_sublist, sublist_filter.
  - destruct ids as [|x ids]; [done|].
    rewrite handleDeleteMultipleItems_spec by done. cbn [state].
    unfold itemsOf. cbn [items].
    apply fmap_sublist, fmap_sublist, sublist_filter.
  - destruct (list_find (λ l, (deref s l).(id) = i) (items s))
      as [[[|k] l]|] eqn:H.
    + rewrite (handleMoveItemToTop_top _ _ _ _ H). by apply sublist_cons.
    + rewrite (handleMoveItemToTop_below _ _ _ _ _ H). cbn [state].
      apply list_find_Some in H as (Hk & _ & _).
      unfold itemsOf, deref. cbn [heap items]. csimpl.
      rewrite list_lookup_total_alter_eq
        by (eapply Forall_lookup_1 in Hit; [|exact Hk]; done).
      cbn [setTimestamp timestamp]. apply sublist_skip.
      rewrite fmap_alter_other by (by eapply NoDup_delete_lookup).
      apply fmap_sublist, fmap_sublist, sublist_delete.
    + rewrite (handleMoveItemToTop_absent _ _ _ H). by apply sublist_cons.
  - rewrite handleClearAll_spec. apply sublist_nil_l.
  - destruct st as [st|]; [|done]. by rewrite settingsUpdated_spec.
Qed.

Lemma exec_newestFirst (ops : list Op) : ∀ (s : State) (t0 : Z),
  wf s →
  StronglySorted (λ a b, b ≤ a) (timestamp <$> itemsOf s) →
  Forall (λ t, t ≤ t0) (timestamp <$> itemsOf s) →
  ticking t0 ops →
  StronglySorted (λ a b, b ≤ a) (timestamp <$> itemsOf (exec ops s)).
Proof.
  induction ops as [|op ops IH]; intros s t0 Hwf Hs Hb Ht; [done|].
  change (exec (op :: ops) s) with (exec ops (step op s)).
  pose proof (step_timestamps op s Hwf) as Hsub.
  cbn [ticking] in Ht. destruct (opTime op) as [t|].
  - destruct Ht as [Hle Ht].
    assert (Forall (λ t', t' ≤ t) (timestamp <$> itemsOf s)) as Hb'.
    { eapply Forall_impl; [exact Hb|]. cbn. intros; lia. }
    apply (IH _ t); [by apply step_wf| | |done].
    + eapply sublist_StronglySorted; [exact Hsub|]. by constructor.
    + eapply Forall_sublist; [exact Hsub|]. constructor; [lia|done].
  - apply (IH _ t0); [by apply step_wf| | |done].
    + by eapply sublist_StronglySorted.
    + by eapply Forall_sublist.
Qed.

(** X10.  When the clock does not run backwards, the history is ordered
    newest first after every run from the empty store: an item never
    stands above one with a later timestamp. *)
Theorem history_newest_first (ops : list Op) (t0 : Z) :
  ticking t0 ops → newestFirst (exec ops initialState).
Proof.
  intros Ht i j a b Hij Hi Hj.
  assert (StronglySorted (λ a b, b ≤ a)
            (timestamp <$> itemsOf (exec ops initialState))) as Hs.
  { apply (exec_newestFirst ops initialState t0); [|constructor|constructor|done].
    constructor; cbn; constructor. }
  apply (StronglySorted_lookup _ _ i j (timestamp a) (timestamp b) Hs Hij);
    by rewrite list_lookup_fmap, ?Hi, ?Hj.
Qed.

(** Two captures, a move to the top and a manual add. *)
Lemma history_newest_first_witness :
  newestFirst (exec [Capture "i1" 1 "a"; Capture "i2" 2 "b";
                     MoveToTop 5 "i1"; Add "i3" 5 (mkNewItem "c" None false)]
                 initialState).
Proof.
  apply (history_newest_first _ 0). cbn. lia.
Defined.

(* ================================================================= *)
(** ** Distinct contents *)

(** X11.  In a history built from the empty store without manual adds
    (captures of text and images, toggles, deletions, moves, clears and
    changes of settings), the items at two different positions never have
    the same content. *)
Theorem captured_contents_are_distinct (ops : list Op) (i j : nat)
    (a b : Item) :
  Forall (λ op, ∀ newId now item, op ≠ Add newId now item) ops →
  itemsOf (exec ops initialState) !! i = Some a →
  itemsOf (exec ops initialState) !! j = Some b →
  i ≠ j → content a ≠ content b.
Proof.
  intros Hops Hi Hj Hij Heq. apply Hij.
  pose proof (unique_without_add ops Hops) as Hnd. unfold uniqueContents in Hnd.
  eapply NoDup_lookup; [exact Hnd|..]; rewrite list_lookup_fmap.
  - by rewrite Hi.
  - rewrite Hj. cbn. by rewrite Heq.
Qed.

(** Two captures and a move. *)
Lemma captured_contents_are_distinct_witness :
  content (mkItem "i1" "a" "text" 3 false (Chars 1))
  ≠ content (mkItem "i2" "b" "text" 2 false (Chars 1)).
Proof.
  apply (captured_contents_are_distinct
           [Capture "i1" 1 "a"; Capture "i2" 2 "b"; MoveToTop 3 "i1"] 0 1).
  - repeat constructor; intros; discriminate.
  - reflexivity.
  - reflexivity.
  - lia.
Defined.
(* ================================================================= *)
(** ** Persistence *)

Lemma sanitizeItem_storedCopy newId now it :
  sanitized it → sanitizeItem newId now (storedCopy it) = it.
Proof.
  intros (Hid & Hty & Hts & Hcc). destruct it as [i c ty ts f cc].
  cbn in Hid, Hty, Hts, Hcc.
  unfold sanitizeItem, storedCopy, orString, JS.orDefault.
  cbn [storedId storedContent storedType storedTimestamp storedIsFavorite
       storedCharCount id content type timestamp isFavorite charCount].
  destruct (String.eqb_spec i ""); [done|].
  destruct (String.eqb_spec ty ""); [done|].
  destruct (Z.eqb_spec ts 0); [done|].
  f_equal.
  - destruct (String.eqb_spec c ""); congruence.
  - destruct cc as [[|m]|kb]; try done. cbn. by rewrite Hcc.
Qed.

Lemma imap_id_on {A B} (f : nat → A → B) (g : B → A) (l : list B) :
  (∀ i x, x ∈ l → f i (g x) = x) → imap f (g <$> l) = l.
Proof.
  revert f. induction l as [|x l IH]; intros f Hf; [done|]. csimpl.
  f_equal.
  - apply Hf. apply list_elem_of_here.
  - apply IH. intros i y Hy. apply Hf. by apply list_elem_of_further.
Qed.

Lemma categorizeContent_truthy c : categorizeContent c ≠ "".
Proof.
  unfold categorizeContent.
  repeat (match goal with |- context [if ?b then _ else _] => destruct b end);
    discriminate.
Qed.

Lemma addedType_truthy item : addedType item ≠ "".
Proof.
  unfold addedType. destruct (newType item) as [t|].
  - destruct (String.eqb_spec t ""); [apply categorizeContent_truthy|done].
  - apply categorizeContent_truthy.
Qed.

Lemma step_sanitized (op : Op) (s : State) :
  opInputsTruthy op → Forall sanitized (heap s) →
  Forall sanitized (heap (step op s)).
Proof.
  intros Hop Hs. unfold step.
  destruct op as [i t c|i t d|i t it|i|i|ids|t i| |st]; cbn [run fst];
    cbn [opInputsTruthy] in Hop.
  - destruct (processClipboardContent_cases i t c s) as [->|(Hb & Hne & Hlen)];
      [done|].
    rewrite (processClipboardContent_commit _ _ _ _ Hb Hne Hlen). cbn [state heap].
    apply Forall_app. split; [done|]. constructor; [|constructor].
    destruct Hop as [Hi Ht]. repeat split; cbn; try done.
    + apply categorizeContent_truthy.
    + intros [= Hz]. by destruct c.
  - destruct (processClipboardImage_cases i t d s) as [->|(Hm & Hnew & Hsz)];
      [done|].
    rewrite (processClipboardImage_commit _ _ _ _ Hm Hnew Hsz). cbn [state heap].
    apply Forall_app. split; [done|]. constructor; [|constructor].
    destruct Hop as [Hi Ht]. repeat split; cbn; done.
  - rewrite handleAddNewItem_spec. cbn [state heap].
    apply Forall_app. split; [done|]. constructor; [|constructor].
    destruct Hop as [Hi Ht]. repeat split; cbn; try done.
    + apply addedType_truthy.
    + intros [= Hz]. by destruct (newContent it).
  - destruct (list_find (λ l, (deref s l).(id) = i) (items s)) as [[k l]|] eqn:H.
    + rewrite (handleToggleFavorite_found _ _ _ _ H). cbn [state heap].
      apply Forall_alter; [done|]. intros x _ Hx. by destruct x.
    + by rewrite (handleToggleFavorite_absent _ _ H).
  - by rewrite handleDeleteItem_spec.
  - destruct ids as [|x ids]; [done|].
    by rewrite handleDeleteMultipleItems_spec.
  - destruct (list_find (λ l, (deref s l).(id) = i) (items s))
      as [[[|k] l]|] eqn:H.
    + by rewrite (handleMoveItemToTop_top _ _ _ _ H).
    + rewrite (handleMoveItemToTop_below _ _ _ _ _ H). cbn [state heap].
      apply Forall_alter; [done|]. intros x _ (? & ? & ? & ?).
      by destruct x.
    + by rewrite (handleMoveItemToTop_absent _ _ _ H).
  - by rewrite handleClearAll_spec.
  - destruct st as [st|]; [|done]. by rewrite settingsUpdated_spec.
Qed.

Lemma exec_sanitized (ops : list Op) :
  Forall opInputsTruthy ops →
  Forall sanitized (itemsOf (exec ops initialState)).
Proof.
  intros Hops.
  assert (Forall sanitized (heap (exec ops initialState))) as Hheap.
  { induction ops as [|op ops IH] using rev_ind; [constructor|].
    apply Forall_app in Hops as [Hops Hop].
    apply Forall_cons in Hop as [Hop _].
    rewrite exec_snoc. apply step_sanitized; auto. }
  destruct (reachable_wf (exec ops initialState)) as [Hit _ _]; [by exists ops|].
  unfold itemsOf, deref. apply Forall_fmap, Forall_forall. intros l Hl.
  eapply Forall_forall in Hit; [|exact Hl]. unfold compose.
  eapply (proj1 (Forall_forall sanitized _) Hheap).
  by apply list_elem_of_lookup_total_2.
Qed.

(** X12.  What is saved is what is loaded.  For every store built from
    the empty one with ids that are not empty and times that are not 0,
    loading the value [saveClipboardData] writes gives back the history
    item for item, with no id or time generated anew, and the favourites
    as they were written. *)
Theorem save_load_round_trip (ops : list Op) (genId : nat → string)
    (clock : nat → Z) :
  Forall opInputsTruthy ops →
  let s := exec ops initialState in
  loadClipboardData genId clock (Some (dataToSave s))
  = mkClipboardData (itemsOf s) (FromStorage (storedCopy <$> favoritesOf s)).
Proof.
  intros Hops. cbv zeta. unfold loadClipboardData, dataToSave. f_equal.
  apply imap_id_on. intros i it Hit. apply sanitizeItem_storedCopy.
  eapply Forall_forall; [by apply exec_sanitized|done].
Qed.

(** A history with an empty manual add, a favourite and a move. *)
Lemma save_load_round_trip_witness :
  let s := exec [Capture "i1" 1 "a"; Add "i2" 2 (mkNewItem "" None true);
                 ToggleFavorite "i1"; MoveToTop 3 "i1"] initialState in
  loadedItems (loadClipboardData (λ _, "") (λ _, 0) (Some (dataToSave s)))
  = itemsOf s.
Proof.
  intros s. unfold s. rewrite save_load_round_trip; [done|].
  repeat constructor; done.
Defined.

(** X13.  Whatever is in storage, when [generateId()] gives ids that are
    not empty and [Date.now()] is not 0, every item [loadClipboardData]
    leaves has an id, a type and a timestamp that are truthy, and a
    character count that is 0 only for an empty content; so saving the
    loaded items and loading them again changes none of them, and with no
    favourites in storage the favourites are the loaded items flagged as
    favourite. *)
Theorem loadClipboardData_sanitizes (genId : nat → string) (clock : nat → Z)
    (stored : option StoredData) :
  (∀ i, genId i ≠ "") → (∀ i, clock i ≠ 0) →
  let d := loadClipboardData genId clock stored in
  Forall sanitized (loadedItems d)
  ∧ (∀ genId' clock',
       loadClipboardData genId' clock'
         (Some (mkStoredData (Some (storedCopy <$> loadedItems d)) None))
       = mkClipboardData (loadedItems d)
           (FromItems (filter (λ it, isFavorite it = true) (loadedItems d)))).
Proof.
  intros Hid Hclock. cbv zeta.
  assert (Forall sanitized (loadedItems (loadClipboardData genId clock stored)))
    as Hs.
  { destruct stored as [[[its|] favs]|]; cbn; try constructor.
    apply Forall_forall. intros it (i & x & -> & _)%elem_of_lookup_imap.
    specialize (Hid i). specialize (Hclock i).
    destruct x as [xi xc xt xts xf xcc]. unfold sanitized, sanitizeItem.
    cbn [storedId storedContent storedType storedTimestamp storedIsFavorite
         storedCharCount id content type timestamp isFavorite charCount].
    repeat apply conj.
    - unfold orString. destruct xi as [v|]; [|done].
      by destruct (String.eqb_spec v "").
    - unfold orString. destruct xt as [v|]; [|done].
      by destruct (String.eqb_spec v "").
    - unfold JS.orDefault. destruct xts as [v|]; [|done].
      by destruct (Z.eqb_spec v 0).
    - unfold orString, orCharCount.
      destruct xc as [c|]; [|done].
      destruct (String.eqb_spec c ""); [done|].
      destruct xcc as [[[|m]|kb]|]; try done; intros [= Hz]; by destruct c. }
  split; [done|]. intros genId' clock'.
  unfold loadClipboardData at 1. cbn zeta.
  rewrite imap_id_on; [done|].
  intros i it Hit. apply sanitizeItem_storedCopy.
  eapply Forall_forall; [exact Hs|done].
Qed.

(** An item stored with its content only. *)
Lemma loadClipboardData_sanitizes_witness :
  Forall sanitized
    (loadedItems
       (loadClipboardData (λ _, "fresh") (λ _, 9)
          (Some (mkStoredData
                   (Some [mkStoredItem None (Some "a") None None None None])
                   None)))).
Proof.
  apply (loadClipboardData_sanitizes (λ _, "fresh") (λ _, 9)); done.
Defined.

(* ================================================================= *)
(** ** Context menus *)





Lemma favorite_menu_id (s : State) (itemId : string) :
  handleContextMenuClick s ("favorite-" +:+ itemId)
  = match list_find (λ item, id item = itemId) (favoritesOf s) with
    | Some (_, item) => PasteContent (content item)
    | None => NoAction
    end.
Proof.
  unfold handleContextMenuClick.
  change (String.eqb ("favorite-" +:+ itemId) "floating-window") with false.
  change (JS.startsWith (JS.chars "favorite-") (JS.chars ("favorite-" +:+ itemId)))
    with true.
  change (removeFirst (JS.chars "favorite-") (JS.chars ("favorite-" +:+ itemId)))
    with (list_ascii_of_string itemId).
  cbv zeta. by rewrite string_of_list_ascii_of_string.
Qed.

(** X15.  A click on the entry made for a favourite pastes the whole
    content (not the title) of the first favourite with the id of that
    entry; when the ids of the favourites are distinct this is the
    favourite the entry was made for. *)
Theorem menu_click_pastes_favorite (s : State) (i : nat) (item : Item) :
  favoritesOf s !! i = Some item →
  ∃ j item',
    (j ≤ i)%nat ∧ favoritesOf s !! j = Some item' ∧ id item' = id item
    ∧ handleContextMenuClick s (menuItemId (favoriteEntry item))
      = PasteContent (content item')
    ∧ (NoDup (id <$> favoritesOf s) → item' = item).
Proof.
  intros Hi. cbn [favoriteEntry menuItemId]. rewrite favorite_menu_id.
  destruct (list_find_elem_of (λ it, id it = id item) (favoritesOf s) item)
    as [[j item'] Hfind]; [by eapply list_elem_of_lookup_2|done|].
  rewrite Hfind. apply list_find_Some in Hfind as (Hj & Hid & Hmin).
  exists j, item'. repeat apply conj; try done.
  - destruct (le_lt_dec j i) as [|Hlt]; [done|].
    by destruct (Hmin i item Hi Hlt).
  - intros Hnd.
    assert (j = i) as ->.
    { eapply NoDup_lookup; [exact Hnd|..];
        rewrite list_lookup_fmap; [rewrite Hj|rewrite Hi]; cbn; by f_equal. }
    congruence.
Qed.

(** The entry of the older of two favourites. *)
Lemma menu_click_pastes_favorite_witness :
  let s := exec [Add "i1" 1 (mkNewItem "first" None true);
                 Add "i2" 2 (mkNewItem "second" None true)] initialState in
  ∃ j item',
    favoritesOf s !! j = Some item'
    ∧ handleContextMenuClick s "favorite-i1" = PasteContent (content item').
Proof.
  intros s.
  destruct (menu_click_pastes_favorite s 1 (mkItem "i1" "first" "text" 1 true (Chars 5)))
    as (j & item' & _ & H1 & _ & H2 & _); [reflexivity|].
  exists j, item'. split; [exact H1|exact H2].
Defined.

Lemma startsWith_split p s :
  JS.startsWith p s = true → s = p ++ drop (length p) s.
Proof.
  revert s. induction p as [|a p IH]; intros [|b s] H; cbn in *; try done.
  apply andb_prop in H as [->%Ascii.eqb_eq H]. f_equal. by apply IH.
Qed.

Lemma removeFirst_startsWith p s :
  JS.startsWith p s = true → removeFirst p s = drop (length p) s.
Proof. intros H. destruct s; cbn [removeFirst]; rewrite H; reflexivity. Qed.

Lemma string_of_list_ascii_app a b :
  string_of_list_ascii (a ++ b)
  = string_of_list_ascii a +:+ string_of_list_ascii b.
Proof. induction a as [|c a IH]; simpl; [done|]. by rewrite IH. Qed.

(** X16.  A click on [floating-window] opens the window; a click on any
    id that is neither this one nor [favorite-] followed by the id of a
    current favourite does nothing, which is what happens to the entry of
    a favourite that was removed after the menu was built. *)
Theorem menu_click_without_favorite (s : State) (clicked : string) :
  let known :=
    "floating-window" :: ((λ it, "favorite-" +:+ id it) <$> favoritesOf s) in
  (clicked ∉ known → handleContextMenuClick s clicked = NoAction)
  ∧ handleContextMenuClick s "floating-window" = OpenWindow.
Proof.
  cbv zeta. split; [|done]. intros Hnot.
  apply not_elem_of_cons in Hnot as [Hfw Hfav].
  unfold handleContextMenuClick.
  apply String.eqb_neq in Hfw. rewrite Hfw.
  destruct (JS.startsWith _ _) eqn:Hsw; [|done]. cbv zeta.
  destruct (list_find _ _) as [[j item]|] eqn:Hfind; [|done].
  apply list_find_Some in Hfind as (Hj & Hid & _).
  destruct Hfav. apply list_elem_of_fmap. exists item.
  split; [|by eapply list_elem_of_lookup_2].
  rewrite Hid, (removeFirst_startsWith _ _ Hsw).
  rewrite <- (string_of_list_ascii_of_string clicked) at 1.
  fold (JS.chars clicked). rewrite (startsWith_split _ _ Hsw) at 1.
  by rewrite string_of_list_ascii_app.
Qed.

(* ================================================================= *)
(** ** The message listener *)

Lemma onStore_worker {A} (m : Eff A) f w :
  worker (onStore m f w) = setStore (state (m (store w))) w
  ∧ broadcast (onStore m f w) = sent (m (store w)).
Proof. unfold onStore. by destruct (m (store w)). Qed.

(** X17.  After the listener has handled a message, [verboseLogging] is
    on if it was on before or if the message is one of those answered
    from a promise (the store operations, the two capture messages and
    [openFloatingWindow]): these cases return before the line that
    restores the flag.  No message switches the flag off, and neither
    [toggleVerboseLogging] nor [settingsUpdated] changes it: what they
    assign is overwritten by the restore. *)
Theorem onMessage_verboseLogging (newId : string) (now : Z) (tab : bool)
    (message : Request) (w : Worker) :
  let after m := verboseLogging (worker (onMessage newId now tab m w)) in
  after message = answersLater message || verboseLogging w
  ∧ (∀ enabled, after (ToggleVerboseLogging enabled) = verboseLogging w)
  ∧ (∀ settings, after (SettingsUpdatedMsg settings) = verboseLogging w).
Proof.
  cbv zeta. split; [|split; [done|by intros [st|]]].
  destruct message as [| |hs ts| |c| |i|i|it| |en|c|n| |c|i|ids|[st|]|a];
    cbn [onMessage answersLater orb];
    rewrite ?(proj1 (onStore_worker _ _ _)); reflexivity.
Qed.

(** X18.  The listener maps each store message onto the operation of
    that name: the store it leaves and the messages it sends are those of
    the operation.  Every other message, an unknown action and a message
    without action among them, leaves the store as it was and sends at
    most a [refreshClipboardData] or a [showNotification]. *)
Theorem onMessage_store (newId : string) (now : Z) (tab : bool)
    (message : Request) (w : Worker) :
  let h := onMessage newId now tab message w in
  match requested newId now message with
  | Some op =>
      store (worker h) = step op (store w)
      ∧ broadcast h = (run op (store w)).2
  | None =>
      store (worker h) = store w
      ∧ (∀ m, m ∈ broadcast h →
           action m = "refreshClipboardData" ∨ action m = "showNotification")
  end.
Proof.
  cbv zeta. unfold step.
  destruct message as [| |hs ts| |c| |i|i|it| |en|c|n| |c|i|ids|[st|]|a];
    cbn [onMessage requested answer worker broadcast store setVerboseLogging
         setForceNextClipboardCheck handleCopyKeyDetected run fst snd fmap
         option_fmap option_map];
    rewrite ?(proj1 (onStore_worker _ _ _)), ?(proj2 (onStore_worker _ _ _));
    cbn [setStore store setVerboseLogging];
    try (split; [reflexivity|]; try reflexivity;
         intros m Hm; by apply elem_of_nil in Hm).
  - split; [done|]. intros m ->%list_elem_of_singleton. by left.
  - destruct tab; (split; [done|]); intros m Hm; by apply elem_of_nil in Hm.
  - split; [done|]. intros m ->%list_elem_of_singleton. by right.
Qed.

(* ================================================================= *)
(** ** Reading the clipboard *)

(** X19.  The function injected into the page never skips a forced
    check, nor a check made while the content script reports a copy or a
    paste; any other check is skipped when the user is typing
    ([user_typing]), else when there is an active selection
    ([active_selection]), else when an element is active
    ([active_interaction]), and goes on to read otherwise. *)
Theorem safeReadClipboard_skips (forceCheck : bool) (page : Check.Page) :
  let copied :=
    match Check.cmState page with
    | Some st => Check.justCopied st || Check.copyKeyPressed st
                 || Check.pasteKeyPressed st
    | None => false
    end in
  Check.skipReason (Check.safeReadClipboard forceCheck page)
  = if forceCheck || copied then None
    else if Check.isUserTyping page then Some "user_typing"
    else if Check.activeSelection page then Some "active_selection"
    else if Check.activeInteraction page then Some "active_interaction"
    else None.
Proof.
  cbv zeta. unfold Check.safeReadClipboard.
  destruct page as [[[jc ck pk]|] ty sel act api thr ok txt];
    cbn [Check.cmState Check.isUserTyping Check.activeSelection
         Check.activeInteraction Check.hasClipboardAPI Check.fallbackThrows
         Check.justCopied Check.copyKeyPressed Check.pasteKeyPressed];
    repeat (match goal with b : bool |- _ => destruct b end);
    destruct thr; reflexivity.
Qed.

Lemma then_ret_tt {A} (m : Eff A) (s : State) :
  state ((m ;; ret tt) s) = state (m s) ∧ sent ((m ;; ret tt) s) = sent (m s).
Proof.
  unfold bind, ret. destruct (m s) as [a s1 out]. cbn. by rewrite app_nil_r.
Qed.

Lemma bind_get {A} (f : State → Eff A) (s : State) :
  bind get f s = f s s.
Proof. unfold bind, get. by destruct (f s s). Qed.


(** X21.  A forced check on an ordinary tab captures what the page
    pastes (or what the second script reads when the page has the
    Clipboard API), whatever the user is doing in the page: if that text
    is not blank, differs from the last clipboard text and is within
    [maxTextLength], the store is the one [processClipboardContent]
    leaves, the text becomes the last clipboard text and the broadcast is
    sent. *)
Theorem forced_check_captures (newId : string) (now : Z) (page : Check.Page)
    (apiRead : option (bool * option string)) (c : string) (s : State) :
  (Check.hasClipboardAPI page = false ∧ Check.fallbackThrows page = None
   ∧ Check.pastedText page = c)
  ∨ (Check.hasClipboardAPI page = true ∧ apiRead = Some (true, Some c)) →
  isBlank c = false → c ≠ lastClipboardText s →
  Z.of_nat (String.length c) ≤ maxTextLength s →
  let r := Check.checkClipboardForChanges newId now (Some false)
             (Check.Result (Check.safeReadClipboard true page)) apiRead s in
  state r = state (processClipboardContent newId now c s)
  ∧ lastClipboardText (state r) = c
  ∧ action <$> sent r
    = ["clipboardDataUpdated"; "clipboardUpdated"; "refreshClipboardData"].
Proof.
  intros Hread Hb Hne Hlen. cbv zeta.
  assert (c ≠ "") as Hc by (intros ->; discriminate).
  apply String.eqb_neq in Hc. pose proof Hne as Hne'.
  apply String.eqb_neq in Hne'.
  assert (Check.checkClipboardForChanges newId now (Some false)
            (Check.Result (Check.safeReadClipboard true page)) apiRead s
          = (processClipboardContent newId now c ;; ret tt) s) as ->.
  { unfold Check.checkClipboardForChanges, Check.safeReadClipboard.
    destruct page as [cm ty sel act api thr ok txt].
    cbn [Check.cmState Check.isUserTyping Check.activeSelection
         Check.activeInteraction Check.hasClipboardAPI Check.fallbackThrows
         Check.pasteSucceeds Check.pastedText] in *.
    destruct Hread as [(-> & -> & ->)|(-> & ->)].
    - destruct cm as [[[] [] []]|], ty, sel, act; cbv zeta;
        cbn [orb andb negb Check.truthy Check.skipReason Check.error
             Check.useClipboardAPI Check.text Check.justCopied
             Check.copyKeyPressed Check.pasteKeyPressed];
        rewrite bind_get; by rewrite Hc, Hne'.
    - destruct cm as [[[] [] []]|], ty, sel, act; cbv zeta;
        cbn [orb andb negb Check.truthy Check.skipReason Check.error
             Check.useClipboardAPI Check.text Check.justCopied
             Check.copyKeyPressed Check.pasteKeyPressed];
        rewrite Hc; cbn [negb]; rewrite bind_get; by rewrite Hne'. }
  destruct (then_ret_tt (processClipboardContent newId now c) s) as [-> ->].
  rewrite (processClipboardContent_commit _ _ _ _ Hb Hne Hlen). done.
Qed.

(** A forced check while the user types and holds a selection. *)
Lemma forced_check_captures_witness :
  let page := Check.mkPage None true true true false None true "copied" in
  let r := Check.checkClipboardForChanges "i1" 1 (Some false)
             (Check.Result (Check.safeReadClipboard true page)) None
             initialState in
  content <$> itemsOf (state r) = ["copied"].
Proof.
  intros page r.
  destruct (forced_check_captures "i1" 1 page None "copied" initialState)
    as (H & _); [by left|done|done| |].
  - vm_compute. discriminate.
  - fold r in H. rewrite H. vm_compute. reflexivity.
Defined.

(* ================================================================= *)
(** ** The capture guard along a run of calls *)



Lemma Variant_attempts_fresh (t0 : Z) (calls rest : list (Z * CheckRun)) :
  t0 ≠ 0 →
  Forall (λ c, c.1 - t0 ≤ Variant.staleAfter) calls →
  Variant.attempts (calls ++ rest) (Variant.Since t0)
  = ((replicate (length calls) Skipped
      ++ (Variant.attempts rest (Variant.Since t0)).1),
     (Variant.attempts rest (Variant.Since t0)).2).
Proof.
  intros H0. induction 1 as [|[t run] calls Ht _ IH].
  - cbn. by destruct (Variant.attempts rest _).
  - cbn in Ht. cbn [app Variant.attempts length replicate].
    rewrite (Variant_fresh_guard_skips t t0 run H0 Ht). by rewrite IH.
Qed.

(** X23.  In the second variant, after a check that hangs (started at a
    time that is not 0), the calls of the next ten seconds return at the
    guard and the first call later than that starts a check; the guard is
    then idle if the reads of that check settle and holds its starting
    time if they hang. *)
Theorem Variant_guard_recovers (t0 now : Z) (run : CheckRun)
    (calls : list (Z * CheckRun)) :
  t0 ≠ 0 →
  Forall (λ c, c.1 - t0 ≤ Variant.staleAfter) calls →
  now - t0 > Variant.staleAfter →
  Variant.attempts ((t0, Hangs) :: calls ++ [(now, run)]) Variant.Idle
  = (Started :: replicate (length calls) Skipped ++ [Started],
     match run with
     | Settles => Variant.Idle
     | Hangs => Variant.Since now
     end).
Proof.
  intros H0 Hcalls Hnow.
  cbn [Variant.attempts Variant.checkClipboardForChanges].
  rewrite (Variant_attempts_fresh t0 calls _ H0 Hcalls).
  cbn [Variant.attempts].
  pose proof (Variant_stale_guard_is_reset now t0 run Hnow) as Hs.
  destruct (Variant.checkClipboardForChanges now run (Variant.Since t0))
    as [a g] eqn:Hcheck.
  cbn in Hs. subst a. cbn [fst snd]. f_equal.
  unfold Variant.checkClipboardForChanges, Variant.truthy in Hcheck.
  destruct (t0 =? 0), (now - t0 >? Variant.staleAfter), run;
    cbn in Hcheck; congruence.
Qed.

(** A hang at 1 s, calls at 2 s and 11 s, and one at 11.001 s. *)
Lemma Variant_guard_recovers_witness :
  Variant.attempts [(1000, Hangs); (2000, Settles); (11000, Settles);
                    (11001, Settles)] Variant.Idle
  = ([Started; Skipped; Skipped; Started], Variant.Idle).
Proof.
  apply (Variant_guard_recovers 1000 11001 Settles
           [(2000, Settles); (11000, Settles)]).
  - done.
  - repeat constructor; cbn; unfold Variant.staleAfter; lia.
  - unfold Variant.staleAfter. lia.
Defined.

(* ================================================================= *)
(** ** The utilities of the client *)

(** X24.  [formatTimestamp] by the age of the timestamp in milliseconds:
    [just now] below one minute (a timestamp in the future included),
    whole minutes below one hour, whole hours below one day, whole days
    below seven days, each rounded down and in the singular for 1, and
    the date beyond. *)
Theorem formatTimestamp_by_age (toLocaleDateString : Z → string)
    (now timestamp : Z) :
  let age := now - timestamp in
  Utils.formatTimestamp toLocaleDateString now timestamp
  = if age <? 60000 then "just now"
    else if age <? 3600000 then
      if age <? 120000 then "1 min ago"
      else Utils.numberToString (age / 60000) +:+ " mins ago"
    else if age <? 86400000 then
      if age <? 7200000 then "1 hour ago"
      else Utils.numberToString (age / 3600000) +:+ " hours ago"
    else if age <? 604800000 then
      if age <? 172800000 then "1 day ago"
      else Utils.numberToString (age / 86400000) +:+ " days ago"
    else toLocaleDateString timestamp.
Proof.
  cbv zeta. unfold Utils.formatTimestamp. cbv zeta.
  set (d := now - timestamp).
  assert (d / 1000 / 60 = d / 60000) as E1 by (rewrite Z.div_div by lia; reflexivity).
  assert (d / 1000 / 60 / 60 = d / 3600000) as E2
    by (rewrite !Z.div_div by lia; reflexivity).
  assert (d / 1000 / 60 / 60 / 24 = d / 86400000) as E3
    by (rewrite !Z.div_div by lia; reflexivity).
  rewrite E3, E2, E1.
  repeat match goal with
         | |- context [?a <? ?b] => destruct (Z.ltb_spec a b)
         | |- context [?a =? ?b] => destruct (Z.eqb_spec a b)
         end; try reflexivity; exfalso; Z.div_mod_to_equations; lia.
Qed.

Lemma blank_not_marked content :
  isBlank content = true →
  JS.startsWith (JS.chars imageMarker) (JS.chars content) = false.
Proof.
  intros Hb. destruct (JS.startsWith _ _) eqn:Hsw; [|done].
  apply startsWith_split in Hsw.
  rewrite <- (string_of_list_ascii_of_string content) in Hb.
  unfold JS.chars in Hsw. rewrite Hsw, string_of_list_ascii_app in Hb.
  rewrite string_of_list_ascii_of_string in Hb.
  by rewrite isBlank_marked in Hb.
Qed.

(** X25.  The classifier of the client and the one of the background
    script give [image] for the same contents and [url] for the same
    contents; they can differ only between [code] and [text]. *)
Theorem classifiers_agree_on_image_and_url (content : string) :
  (Utils.categorizeContent content = "image"
   ↔ categorizeContent content = "image")
  ∧ (Utils.categorizeContent content = "url"
     ↔ categorizeContent content = "url").
Proof.
  unfold Utils.categorizeContent, categorizeContent.
  destruct (isBlank content) eqn:Hb.
  - rewrite (blank_not_marked _ Hb).
    assert (JS.trim (JS.chars content) = []) as ->.
    { unfold isBlank in Hb. by destruct (JS.trim (JS.chars content)). }
    change (Regex.test urlRegex []) with false.
    repeat match goal with |- context [if ?b then _ else _] => destruct b end;
      by split.
  - assert (String.eqb content "" = false) as ->.
    { apply String.eqb_neq. by intros ->. }
    repeat match goal with |- context [if ?b then _ else _] => destruct b end;
      by split.
Qed.

(* ================================================================= *)
(** ** Admission, and how the operations compose *)




(** X27.  In the second variant an admitted image is put into the
    history as in src/background/background.js whether or not the save
    succeeds.  When the save fails the function returns nothing and sends
    no message, although the item is in the history; when it succeeds it
    returns [true] after [clipboardDataUpdated], the three messages of the
    broadcast and a [showNotification]. *)
Theorem Variant_processClipboardImage_saved (s : State) (newId : string)
    (now : Z) (saveOk : bool) (dataUrl : string) :
  JS.startsWith (JS.chars imageMarker) (JS.chars dataUrl) = true →
  dataUrl ∉ (contentOf <$> itemsOf s) →
  imageSizeKB dataUrl ≤ maxImageSize s →
  let r := Variant.processClipboardImage newId now saveOk dataUrl s in
  state r = state (processClipboardImage newId now dataUrl s)
  ∧ value r = (if saveOk then Some true else None)
  ∧ action <$> sent r
    = (if saveOk
       then ["clipboardDataUpdated"; "clipboardDataUpdated"; "clipboardUpdated";
             "refreshClipboardData"; "showNotification"]
       else []).
Proof.
  intros Hm Hnew Hsize. cbv zeta.
  rewrite (processClipboardImage_commit _ _ _ _ Hm Hnew Hsize).
  unfold Variant.processClipboardImage.
  eff_simpl. rewrite Hm. cbn [negb]. rewrite bool_decide_eq_false_2.
  - destruct (Z.gtb_spec (imageSizeKB dataUrl) (maxImageSize s)); [lia|].
    eff_simpl. rewrite limitHistory_spec. eff_simpl.
    destruct saveOk; cbn [negb]; [|done].
    unfold broadcastClipboardUpdate, handleShowNotification. eff_simpl. done.
  - intros (l & Hl & Hc)%Exists_exists. apply Hnew.
    unfold itemsOf. rewrite <- list_fmap_compose.
    apply list_elem_of_fmap. by exists l.
Qed.

(** An image whose save fails. *)
Lemma Variant_processClipboardImage_saved_witness :
  let d := "data:image/png;base64,AAAA" in
  let r := Variant.processClipboardImage "i1" 1 false d initialState in
  content <$> itemsOf (state r) = [d] ∧ value r = None ∧ sent r = [].
Proof.
  intros d r.
  destruct (Variant_processClipboardImage_saved initialState "i1" 1 false d)
    as (H1 & H2 & H3).
  - reflexivity.
  - cbn. apply not_elem_of_nil.
  - vm_compute. discriminate.
  - fold r in H1, H2, H3. rewrite H1, H2.
    split; [vm_compute; reflexivity|]. split; [done|]. by destruct (sent r).
Defined.

(** X28.  Moving the same id to the top a second time, right after the
    first, gives the same answer and changes nothing: the store is left
    as the first call left it, the timestamp is not refreshed again and no
    message is sent. *)
Theorem handleMoveItemToTop_twice (s : State) (t1 t2 : Z) (itemId : string) :
  let r1 := handleMoveItemToTop t1 itemId s in
  handleMoveItemToTop t2 itemId (state r1) = mkRes (value r1) (state r1) [].
Proof.
  cbv zeta.
  destruct (list_find (λ l, (deref s l).(id) = itemId) (items s))
    as [[[|k] l]|] eqn:H.
  - rewrite (handleMoveItemToTop_top _ _ _ _ H). cbn [state value].
    by rewrite (handleMoveItemToTop_top _ _ _ _ H).
  - rewrite (handleMoveItemToTop_below _ _ _ _ _ H). cbn [state value].
    apply list_find_Some in H as (Hk & Hid & _).
    apply (handleMoveItemToTop_top _ _ _ l).
    cbn [items]. unfold deref. cbn [heap list_find].
    rewrite decide_True; [done|].
    by rewrite (field_alter id).
  - rewrite (handleMoveItemToTop_absent _ _ _ H). cbn [state value].
    by rewrite (handleMoveItemToTop_absent _ _ _ H).
Qed.

(** X29.  In a well-formed store with room for one more item, adding an
    item under an id that no item and no favourite carries and then
    deleting that id gives back the history and the favourites as they
    were. *)
Theorem add_then_delete (s : State) (newId : string) (now : Z) (item : NewItem) :
  wf s →
  Z.of_nat (length (itemsOf s)) < MAX_HISTORY_ITEMS s →
  newId ∉ (id <$> itemsOf s) → newId ∉ (id <$> favoritesOf s) →
  let s1 := state (handleAddNewItem newId now item s) in
  let s2 := state (handleDeleteItem newId s1) in
  itemsOf s2 = itemsOf s ∧ favoritesOf s2 = favoritesOf s.
Proof.
  intros [Hit Hfav Hnd] Hlen Hni Hnf. cbv zeta.
  unfold itemsOf in Hlen. rewrite length_fmap in Hlen.
  rewrite handleAddNewItem_spec. cbn [state].
  rewrite limited_id by (cbn [length]; lia).
  rewrite handleDeleteItem_spec. cbn [state].
  set (fresh := mkItem newId _ _ now _ _).
  assert (∀ ls, Forall (λ l, (l < length (heap s))%nat) ls →
                newId ∉ (id <$> (deref s <$> ls)) →
                filter (λ l, id ((heap s ++ [fresh]) !!! l) ≠ newId) ls = ls)
    as Hkeep.
  { intros ls Hls Hnot. apply filter_all, Forall_forall. intros l Hl.
    eapply Forall_forall in Hls; [|exact Hl]. cbn beta.
    rewrite lookup_total_app_l by done. intros Hid. apply Hnot.
    rewrite <- list_fmap_compose. apply list_elem_of_fmap. by exists l. }
  assert (id ((heap s ++ [fresh]) !!! length (heap s)) = newId) as Hfresh.
  { by rewrite list_lookup_total_middle. }
  unfold itemsOf, favoritesOf, deref.
  cbn [heap items favorites]. split.
  - rewrite filter_cons_False by (intros Hne; by apply Hne).
    rewrite Hkeep by done. by apply fmap_alloc.
  - destruct (newIsFavorite item).
    + rewrite filter_cons_False by (intros Hne; by apply Hne).
      rewrite Hkeep by done. by apply fmap_alloc.
    + rewrite Hkeep by done. by apply fmap_alloc.
Qed.

(** A favourite added and deleted again. *)
Lemma add_then_delete_witness :
  let s := exec [Capture "i1" 1 "a"] initialState in
  let s1 := state (handleAddNewItem "i2" 2 (mkNewItem "b" None true) s) in
  itemsOf (state (handleDeleteItem "i2" s1)) = itemsOf s.
Proof.
  intros s s1.
  refine (proj1 (add_then_delete s "i2" 2 (mkNewItem "b" None true) _ _ _ _)).
  - solve_wf.
  - vm_compute. reflexivity.
  - replace (id <$> itemsOf s) with ["i1"] by (vm_compute; reflexivity).
    rewrite elem_of_cons, elem_of_nil. intros [H|[]]. discriminate.
  - cbn. apply not_elem_of_nil.
Defined.

(** X30.  [deleteMany] of a list that is not empty leaves the store that
    deleting its ids one after the other leaves. *)
Theorem deleteMany_is_repeated_delete (s : State) (itemIds : list string) :
  itemIds ≠ [] →
  state (handleDeleteMultipleItems itemIds s)
  = foldl (λ s' itemId, state (handleDeleteItem itemId s')) s itemIds.
Proof.
  intros Hne. rewrite handleDeleteMultipleItems_spec by done. cbn [state].
  clear Hne. revert s. induction itemIds as [|x ids IH]; intros s.
  - cbn [foldl]. destruct s as [h its favs t m1 m2 m3]. cbn.
    rewrite !filter_all; [done|..]; apply Forall_forall; intros l _;
      apply not_elem_of_nil.
  - cbn [foldl]. rewrite <- IH. rewrite handleDeleteItem_spec.
    cbn [state heap items favorites lastClipboardText MAX_HISTORY_ITEMS
         maxTextLength maxImageSize]. unfold deref. cbn [heap].
    rewrite !list_filter_filter. f_equal; apply list_filter_iff; intros l;
      rewrite not_elem_of_cons; tauto.
Qed.

(** Two of three items deleted. *)
Lemma deleteMany_is_repeated_delete_witness :
  let s := exec [Capture "i1" 1 "a"; Capture "i2" 2 "b"; Capture "i3" 3 "c"]
             initialState in
  state (handleDeleteMultipleItems ["i1"; "i3"] s)
  = state (handleDeleteItem "i3" (state (handleDeleteItem "i1" s))).
Proof.
  intros s. apply (deleteMany_is_repeated_delete s ["i1"; "i3"]). discriminate.
Defined.

